(** * Verification of the question-generation, answer-validation and
      upload lambdas

    The three AWS Lambda entry points of the repository
    ([Frage_Generierung_Lambda.py], [Antwort_Validierung_Lambda.py],
    [PDF_Upload_Lambda.py]) are embedded as Rocq functions.  Python values
    coming out of [json.loads] are values of [json]; an exception is the
    [Raise] branch of [outcome]; the language-model agents are an oracle
    threaded through a state monad that also logs every call.

    The edge function [generate_questions_chatbot], which calls the
    generation lambda, is JavaScript; its values are those of [Js.value],
    a thrown error is the [Throw] branch of [Js.completion], and the
    services it calls are functions whose calls are logged. *)

From Stdlib Require Import ZArith Lia Ascii String SpecFloat.
From stdpp Require Import base strings list gmap pretty.

Open Scope string_scope.
Open Scope list_scope.
Set Warnings "-register-all".

(** ** Python values and exceptions *)

(** Values produced by [json.loads]: [None], [bool], [int], [float] (carried
    by its [repr] text, which is also its [str]), [str], [list], [dict]
    (insertion order, keys distinct). *)
Inductive json : Type :=
| JNull
| JBool (b : bool)
| JInt (z : Z)
| JFloat (repr : string)
| JStr (s : string)
| JArr (l : list json)
| JObj (kv : list (string * json)).

Inductive exn_kind : Type :=
| KeyError | TypeError | AttributeError | ValueError | IndexError
| UnboundLocalError | JSONDecodeError | BinasciiError | UnicodeDecodeError
| UpstreamError.

(** An instance of a subclass of [Exception] with its [str()] text. *)
Record exn : Type := Exn { exn_type : exn_kind; exn_msg : string }.

Inductive outcome (A : Type) : Type :=
| Ok (a : A)
| Raise (e : exn).
Arguments Ok {A} a.
Arguments Raise {A} e.

Definition is_ok {A} (o : outcome A) : bool :=
  match o with Ok _ => true | Raise _ => false end.

Definition obind {A B} (o : outcome A) (f : A -> outcome B) : outcome B :=
  match o with Ok a => f a | Raise e => Raise e end.

(** ** Strings *)

Definition quote_char : ascii := "034"%char.
Definition newline : string := String "010"%char EmptyString.

(** [needle in s] for two [str]. *)
Fixpoint contains (needle s : string) : bool :=
  if String.prefix needle s then true
  else match s with
       | EmptyString => false
       | String _ s' => contains needle s'
       end.

Definition startswith (s p : string) : bool := String.prefix p s.

Definition lower_ascii (c : ascii) : ascii :=
  let n := nat_of_ascii c in
  if (65 <=? n)%nat && (n <=? 90)%nat then ascii_of_nat (n + 32) else c.

(** [str.lower] on the UTF-8 text.  Bytes outside A-Z are kept: [str.lower]
    also maps letters outside ASCII, but none of them to an ASCII letter
    other than k and i, so a test for the prefix ver sees no difference. *)
Fixpoint lower (s : string) : string :=
  match s with
  | EmptyString => EmptyString
  | String c s' => String (lower_ascii c) (lower s')
  end.

(** One-byte characters with [str.isspace]: U+0009..U+000D, U+001C..U+001F
    and the blank. *)
Definition space1 (c : ascii) : bool :=
  let n := nat_of_ascii c in
  ((9 <=? n)%nat && (n <=? 13)%nat) || ((28 <=? n)%nat && (n <=? 32)%nat).

(** Two-byte encodings: U+0085 and U+00A0. *)
Definition space2 (c d : ascii) : bool :=
  (nat_of_ascii c =? 194)%nat &&
  ((nat_of_ascii d =? 133)%nat || (nat_of_ascii d =? 160)%nat).

(** Three-byte encodings: U+1680, U+2000..U+200A, U+2028, U+2029, U+202F,
    U+205F, U+3000. *)
Definition space3 (c d e : ascii) : bool :=
  let '(a, b, k) := (nat_of_ascii c, nat_of_ascii d, nat_of_ascii e) in
  ((a =? 225)%nat && (b =? 154)%nat && (k =? 128)%nat)
  || ((a =? 226)%nat && (b =? 128)%nat &&
      (((128 <=? k)%nat && (k <=? 138)%nat) || (k =? 168)%nat
       || (k =? 169)%nat || (k =? 175)%nat))
  || ((a =? 226)%nat && (b =? 129)%nat && (k =? 159)%nat)
  || ((a =? 227)%nat && (b =? 128)%nat && (k =? 128)%nat).

(** Drop leading white space.  With [back] the text is read backwards (the
    bytes of a character arrive last byte first). *)
Fixpoint strip_front (back : bool) (s : string) : string :=
  match s with
  | EmptyString => s
  | String c s1 =>
      if space1 c then strip_front back s1
      else match s1 with
           | EmptyString => s
           | String d s2 =>
               if (if back then space2 d c else space2 c d)
               then strip_front back s2
               else match s2 with
                    | EmptyString => s
                    | String e s3 =>
                        if (if back then space3 e d c else space3 c d e)
                        then strip_front back s3
                        else s
                    end
           end
  end.

(** [str.strip()]. *)
Definition strip (s : string) : string :=
  String.rev (strip_front true (String.rev (strip_front false s))).

Fixpoint assoc {A} (k : string) (kv : list (string * A)) : option A :=
  match kv with
  | [] => None
  | (k', v) :: rest => if String.eqb k' k then Some v else assoc k rest
  end.

Definition is_brace_open (c : ascii) : bool := Ascii.eqb c "{"%char.
Definition is_brace_close (c : ascii) : bool := Ascii.eqb c "}"%char.

(** [template.format] with keyword arguments [kw], for templates whose replacement fields are plain
    keyword names, which is all the program has: doubled braces are literal
    braces, [{name}] is replaced by [kw[name]], keywords without a field are
    ignored.  [field] holds the name being read inside a field. *)
Fixpoint format_go (kw : list (string * string)) (field : option string)
    (t : string) : outcome string :=
  match t with
  | EmptyString =>
      match field with
      | None => Ok EmptyString
      | Some _ => Raise (Exn ValueError "expected '}' before end of string")
      end
  | String c t' =>
      match field with
      | Some name =>
          if is_brace_close c then
            match assoc name kw with
            | Some v => obind (format_go kw None t') (fun r => Ok (v +:+ r))
            | None => Raise (Exn KeyError ("'" +:+ name +:+ "'"))
            end
          else if is_brace_open c then
            Raise (Exn ValueError "unexpected '{' in field name")
          else format_go kw (Some (name +:+ String c EmptyString)) t'
      | None =>
          if is_brace_open c then
            match t' with
            | String d t'' =>
                if is_brace_open d
                then obind (format_go kw None t'') (fun r => Ok (String c r))
                else format_go kw (Some EmptyString) t'
            | EmptyString =>
                Raise (Exn ValueError "Single '{' encountered in format string")
            end
          else if is_brace_close c then
            match t' with
            | String d t'' =>
                if is_brace_close d
                then obind (format_go kw None t'') (fun r => Ok (String c r))
                else Raise (Exn ValueError
                              "Single '}' encountered in format string")
            | EmptyString =>
                Raise (Exn ValueError "Single '}' encountered in format string")
            end
          else obind (format_go kw None t') (fun r => Ok (String c r))
      end
  end.

(** No brace occurs in the text. *)
Fixpoint brace_free (t : string) : bool :=
  match t with
  | EmptyString => true
  | String c t' => negb (is_brace_open c) && negb (is_brace_close c)
                   && brace_free t'
  end.

Definition py_format (t : string) (kw : list (string * string)) :
    outcome string :=
  format_go kw None t.

(** Decimal text of an [int]. *)
Definition digit (n : N) : ascii := ascii_of_N (48 + n).

Fixpoint digits_pos (fuel : nat) (n : N) (acc : string) : string :=
  match fuel with
  | O => acc
  | S fuel' =>
      let acc' := String (digit (n mod 10)) acc in
      if (n / 10 =? 0)%N then acc' else digits_pos fuel' (n / 10) acc'
  end.

Definition str_of_Z (z : Z) : string :=
  let n := Z.abs_N z in
  let d := digits_pos (S (N.to_nat (N.log2 n))) n EmptyString in
  if (z <? 0)%Z then String "-"%char d else d.

(** ** Pydantic models *)

Inductive QuestionType : Type := TEXT | MULTIPLE_CHOICE.

Definition QuestionType_value (t : QuestionType) : string :=
  match t with TEXT => "text" | MULTIPLE_CHOICE => "multiple_choice" end.

Record Question : Type := mkQuestion {
  question_text : string;
  question_type : QuestionType;
  multiple_choice_options : option (list string);
  correct_answer : string;
}.

Record QuestionResponse : Type := mkQuestionResponse {
  questions : list Question;
}.

Record ValidationResult : Type := mkValidationResult {
  is_correct : bool;
  reason : string;
}.

Inductive BaseModel : Type :=
| MQuestionResponse (r : QuestionResponse)
| MValidationResult (v : ValidationResult).

Definition Question_dump (q : Question) : json :=
  JObj [ ("question_text", JStr (question_text q));
         ("question_type", JStr (QuestionType_value (question_type q)));
         ("multiple_choice_options",
          match multiple_choice_options q with
          | Some l => JArr (map JStr l)
          | None => JNull
          end);
         ("correct_answer", JStr (correct_answer q)) ].

Definition ValidationResult_dump (v : ValidationResult) : json :=
  JObj [ ("is_correct", JBool (is_correct v)); ("reason", JStr (reason v)) ].

(** The document that [model_dump_json()] (or [.json()]) writes. *)
Definition model_dump (m : BaseModel) : json :=
  match m with
  | MQuestionResponse r =>
      JObj [ ("questions", JArr (map Question_dump (questions r))) ]
  | MValidationResult v => ValidationResult_dump v
  end.

(** ** Operations on Python values *)

(** Truth value of a value in an [if] or an [or]. *)
Definition truthy (v : json) : bool :=
  match v with
  | JNull => false
  | JBool b => b
  | JInt z => negb (z =? 0)%Z
  | JFloat r => negb (String.eqb r "0.0" || String.eqb r "-0.0")
  | JStr s => negb (String.eqb s "")
  | JArr l => match l with [] => false | _ => true end
  | JObj kv => match kv with [] => false | _ => true end
  end.

(** What the interpreter and its libraries do and the program only calls:
    the JSON parser, base64, UTF-8 decoding, [repr] of containers, [int] of
    a text or a float, the JSON text of a value or of a model, and
    pydantic's [str] of a model. *)
Record pylib : Type := PyLib {
  json_loads : string -> outcome json;
  json_loads_bytes : string -> outcome json;
  b64decode : string -> outcome string;
  bytes_decode : string -> outcome string;
  container_repr : json -> string;
  int_of_text : string -> outcome Z;
  int_of_float : string -> outcome Z;
  json_dumps : json -> string;
  model_dump_json : BaseModel -> string;
  model_str : BaseModel -> string;
}.

(** [str(v)], as an f-string or [str.format] inserts it. *)
Definition py_str (lib : pylib) (v : json) : string :=
  match v with
  | JNull => "None"
  | JBool true => "True"
  | JBool false => "False"
  | JInt z => str_of_Z z
  | JFloat r => r
  | JStr s => s
  | JArr _ | JObj _ => container_repr lib v
  end.

Definition type_name (v : json) : string :=
  match v with
  | JNull => "NoneType"
  | JBool _ => "bool"
  | JInt _ => "int"
  | JFloat _ => "float"
  | JStr _ => "str"
  | JArr _ => "list"
  | JObj _ => "dict"
  end.

(** [d.get(key, default)]: only a [dict] has the method. *)
Definition py_get (d : json) (key : string) (default : json) : outcome json :=
  match d with
  | JObj kv => Ok (match assoc key kv with Some v => v | None => default end)
  | _ => Raise (Exn AttributeError
                  ("'" +:+ type_name d +:+ "' object has no attribute 'get'"))
  end.

(** [d[key]] with a [str] key. *)
Definition py_getitem (d : json) (key : string) : outcome json :=
  match d with
  | JObj kv =>
      match assoc key kv with
      | Some v => Ok v
      | None => Raise (Exn KeyError ("'" +:+ key +:+ "'"))
      end
  | JArr _ => Raise (Exn TypeError
                       "list indices must be integers or slices, not str")
  | JStr _ => Raise (Exn TypeError "string indices must be integers, not 'str'")
  | _ => Raise (Exn TypeError
                  ("'" +:+ type_name d +:+ "' object is not subscriptable"))
  end.

(** [int(v)]. *)
Definition py_int (lib : pylib) (v : json) : outcome Z :=
  match v with
  | JInt z => Ok z
  | JBool b => Ok (if b then 1 else 0)%Z
  | JStr s => int_of_text lib s
  | JFloat r => int_of_float lib r
  | _ => Raise (Exn TypeError
                  ("int() argument must be a string, a bytes-like object or a real number, not '"
                   +:+ type_name v +:+ "'"))
  end.

(** [json.loads(v)] for a value that is not [bytes]. *)
Definition loads_value (lib : pylib) (v : json) : outcome json :=
  match v with
  | JStr s => json_loads lib s
  | _ => Raise (Exn TypeError
                  ("the JSON object must be str, bytes or bytearray, not "
                   +:+ type_name v))
  end.

(** [base64.b64decode(v)]. *)
Definition b64decode_value (lib : pylib) (v : json) : outcome string :=
  match v with
  | JStr s => b64decode lib s
  | _ => Raise (Exn TypeError
                  ("argument should be a bytes-like object or ASCII string, not '"
                   +:+ type_name v +:+ "'"))
  end.

(** What [agent.run(...).content] can hold: an instance of the agent's
    response model [Mo], or a plain value (a [str], [None], or any JSON-like
    value). *)
Inductive content_of (Mo : Type) : Type :=
| CModel (m : Mo)
| CValue (v : json).
Arguments CModel {Mo} m.
Arguments CValue {Mo} v.

Definition is_str (needle : string) (v : json) : bool :=
  match v with JStr s => String.eqb s needle | _ => false end.

(** [needle in c] for a [str] needle.  A [str] is searched for the
    substring, a [list] for an equal element, a [dict] for the key; a model
    iterates over (field, value) pairs, none of which equals a [str];
    anything else is not iterable. *)
Definition py_in {Mo} (needle : string) (c : content_of Mo) : outcome bool :=
  match c with
  | CModel _ => Ok false
  | CValue (JStr s) => Ok (contains needle s)
  | CValue (JArr l) => Ok (existsb (is_str needle) l)
  | CValue (JObj kv) =>
      Ok (match assoc needle kv with Some _ => true | None => false end)
  | CValue v => Raise (Exn TypeError
                         ("argument of type '" +:+ type_name v
                          +:+ "' is not iterable"))
  end.

Definition content_truthy {Mo} (c : content_of Mo) : bool :=
  match c with CModel _ => true | CValue v => truthy v end.

(** ** Agents as an oracle, with a log of the calls *)

Section Effects.
Context {Ag Mo St : Type}.

Record call : Type := Call {
  call_agent : Ag;
  call_prompt : string;
  call_result : outcome (content_of Mo);
}.

(** A computation reads and updates the oracle's state, may raise, and
    reports the agent calls it made, oldest first. *)
Definition M (A : Type) : Type := St -> outcome A * St * list call.

Definition ret {A} (a : A) : M A := fun s => (Ok a, s, []).

Definition raise {A} (e : exn) : M A := fun s => (Raise e, s, []).

Definition lift {A} (o : outcome A) : M A := fun s => (o, s, []).

Definition bind {A B} (m : M A) (f : A -> M B) : M B :=
  fun s =>
    let '(r, s1, t1) := m s in
    match r with
    | Ok a => let '(r2, s2, t2) := f a s1 in (r2, s2, t1 ++ t2)
    | Raise e => (Raise e, s1, t1)
    end.

(** [try: m  except Exception as e: h e]. *)
Definition try_except {A} (m : M A) (h : exn -> M A) : M A :=
  fun s =>
    let '(r, s1, t1) := m s in
    match r with
    | Ok a => (Ok a, s1, t1)
    | Raise e => let '(r2, s2, t2) := h e s1 in (r2, s2, t1 ++ t2)
    end.

(** [agent.run(prompt).content]. *)
Definition agent_run
    (oracle : Ag -> string -> St -> outcome (content_of Mo) * St)
    (a : Ag) (prompt : string) : M (content_of Mo) :=
  fun s => let '(r, s') := oracle a prompt s in (r, s', [Call a prompt r]).

Definition result_of {A} (x : outcome A * St * list call) : outcome A :=
  x.1.1.

Definition calls_of {A} (x : outcome A * St * list call) : list call :=
  x.2.

Definition state_of {A} (x : outcome A * St * list call) : St :=
  x.1.2.

End Effects.

Arguments call : clear implicits.
Arguments M : clear implicits.

Declare Scope py_scope.
Delimit Scope py_scope with py.
Notation "'let*' x ':=' m 'in' k" := (bind m (fun x => k))
  (at level 10, x name, m at level 100, k at level 200) : py_scope.

Open Scope py_scope.

(** A JSON text together with the value it denotes: what [json.dumps] and
    [model_dump_json] write, and what [json.loads] reads back from it. *)
Record document : Type := Document { doc_text : string; doc_value : json }.

Definition dump_model (lib : pylib) (m : BaseModel) : document :=
  {| doc_text := model_dump_json lib m; doc_value := model_dump m |}.

Definition dumps (lib : pylib) (v : json) : document :=
  {| doc_text := json_dumps lib v; doc_value := v |}.

(** An HTTP response of a handler; [body] is the JSON document whose text
    the handler puts there. *)
Record response : Type := Response {
  statusCode : Z;
  headers : list (string * string);
  body : json;
}.

(** ** Frage_Generierung_Lambda.py *)

Module Frage.

Inductive agent : Type :=
| KNOWLEDGE_RETRIEVER
| COMPREHENSION_QA_GENERATOR
| CALCULATION_QA_GENERATOR
| QUESTION_REVIEWER.

(** The generators answer with a [QuestionResponse]. *)
Definition content : Type := content_of QuestionResponse.

(** [str(c)] of a content. *)
Definition content_str (lib : pylib) (c : content) : string :=
  match c with
  | CModel m => model_str lib (MQuestionResponse m)
  | CValue v => py_str lib v
  end.

#[global] Instance agent_eq_dec : EqDecision agent.
Proof. solve_decision. Defined.

(** How many of the logged calls went to the agent [a]. *)
Fixpoint calls_to (a : agent) (l : list (call agent QuestionResponse)) : nat :=
  match l with
  | [] => 0
  | c :: l' => (if bool_decide (call_agent c = a) then 1 else 0) + calls_to a l'
  end.

(** The reviewer's answer holds the approval mark. *)
Definition approves (r : outcome content) : bool :=
  match r with
  | Ok c => match py_in "Review OK" c with Ok true => true | _ => false end
  | Raise _ => false
  end.

(** The call returned and, for the reviewer, returned something that [in]
    can search. *)
Definition answered (c : call agent QuestionResponse) : bool :=
  match call_result c with
  | Ok r => if bool_decide (call_agent c = QUESTION_REVIEWER)
            then is_ok (py_in "Review OK" r) else true
  | Raise _ => false
  end.

(** The retriever prompt template, after [dedent]. *)
Definition RETRIEVER_INSTRUCTIONS : string :=
  "
Ich greife direkt auf die pgvector-Datenbank zu, um relevante Chunks zum Thema **{query}** zu finden.
Nutze dazu `search`, `think`, `analyze`. Gib deine Antwort exakt so zurück:

Zusammenfassung:
- <Bullet 1>
- … (max. 10 Bullets)
".

(** [_BASE_GENERATOR_INSTRUCTIONS]: defined by the module, read by nothing. *)
Definition BASE_GENERATOR_INSTRUCTIONS : string :=
  "
Du erstellst Frage-Antort-Paare für eine Lernplattform. Formuliere sämtliche Fragen, Antworten und Lösungswege etc. ausschließlich auf Deutsch.

Erstelle {num} Aufgaben des Typs **{q_type}** im Schwierigkeitsgrad **{difficulty}** für die Zielgruppe **{audience}**.
Nutze folgenden Kontext:
{context}
".

(** Instructions of the comprehension generator, after [dedent]. *)
Definition COMPREHENSION_INSTRUCTIONS : string :=
  "Deine Aufgabe ist es, basierend auf deinem Wissen qualitativ hochwertige Verständnisfragen samt zugehöriger Antworten (→ Frage-Antwort-Paare) zu dem angegebenen Thema bzw. Themenbereich zu erstellen.

Die Fragen sollen:
    - inhaltlich vielfältig sein und unterschiedliche Aspekte des Themas / Themenbereichs abdecken
    - idealerweise verschiedene Fragetechniken abdecken (z. B. Multiple-Choice, Lückentext)
    - die übergebenen Anforderungen bezüglich Schwierigkeisgrad, Anzahl der Fragen, Thema, Fragentyp, Zielgruppe und Keywords berücksichtigen 

Verwende ausschließlich dein eigenes Wissen zur Erstellung der Fragen.

Gib nur die generierten Frage-Antwort-Paare zusammen mit dem Fragetyp und gegebenenfalls den Multiple-Choice-Optionen aus – ohne zusätzlichen Text.

Formuliere die Frage-Antwort-Paare auf Deutsch.
".

(** Instructions of the calculation generator, after [dedent]. *)
Definition CALCULATION_INSTRUCTIONS : string :=
  "Deine Aufgabe ist es, basierend auf deinem Wissen qualitativ hochwertige Rechenfragen samt zugehöriger Lösungen (→ Frage-Antwort-Paare) zu dem angegebenen Thema bzw. Themenbereich zu erstellen.

Die Fragen sollen:
    - inhaltlich vielfältig sein und unterschiedliche Aspekte des Themas / Themenbereichs abdecken
    - die übergebenen Anforderungen bezüglich Schwierigkeisgrad, Anzahl der Fragen, Thema, Fragentyp, Zielgruppe und Keywords berücksichtigen 

Verwende ausschließlich dein eigenes Wissen zur Erstellung der Fragen.

Gib nur die generierten Frage-Antwort-Paare zusammen mit dem Fragetyp aus – ohne zusätzlichen Text.

Formuliere die Frage-Antwort-Paare auf Deutsch.
".

(** Instructions of the reviewer, after [dedent]. *)
Definition REVIEWER_INSTRUCTIONS : string :=
  "Deine Aufgabe ist es, die Qualität von Fragen innerhalb gegebener Frage-Antwort-Paare zu prüfen und zu bewerten.

Berücksichtige dabei unter anderem die folgenden Qualitätskriterien. Wenn du ein Kriterium nicht eindeutig anwenden kannst, orientiere dich an deinem besten Urteilsvermögen.
    - Klarheit & Eindeutigkeit: Ist die Frage eindeutig, verständlich und präzise formuliert und lässt keine Mehrdeutigkeit zu?
    - Präzision & Umfang: Ist die Frage weder zu allgemein noch zu speziell?
    - Zielorienterung: Ist die Frage klar an einem Lernziel ausgerichtet?
    - Kognitive Anforderung (Taxonomiestufe): Erfordert die Frage ein angemessenes Niveau an Denken gemäß Bloom (z. B. Verstehen, Anwenden, Analysieren)? Ist die Frage anspruchsvoll und erfordert ein solides Verständnis des Themas?
    - Aktivierung / Denkförderung: Fördert die Frage aktives Nachdenken, Transfer oder Problemlösen?         
    - Relevanz & Kontext: Passt die Frage zur Domäne oder zum thematischen Kontext? Stimmt die Frage mit deinem Wissen überein?
    - Antwortbarkeit: Basiert die Frage auf deinem bekannten Wissen bzw. lässt sich die Frage mit deinem bekannten Wissen beantworten?
    - Schwierigkeitsgrad: Ist die Frage vom Niveau / Schwierigkeitsgrad her für die Zielgruppe angemessen/geeignet?
    - Tiefe der Frage: Geht die Frage über reine Faktenabfrage hinaus (z. B. „Warum“ / „Wie“)?
    - Nicht-Redundanz: Vermeidet die Frage Wiederholungen oder Variationen von Inhalten anderer Fragen?
    - Informationsdichte: Liefert die Antwort substanzielle Informationen oder ist sie trivial/flach?
    - Kontextualisierung: Ist die Frage eingebettet in ein sinnvolles Szenario oder Problemfeld?
    - Vernetztes Denken / Zusammenhangserkennung: Zielt die Frage darauf ab, Zusammenhänge zwischen Konzepten / Themen herzustellen / zu erkennen oder Wissen zu vernetzen?      
    - Antortorientierung: Ermöglicht oder provoziert die Frage eine substanzielle und informative Antwort?
    - Führt die Frage zu einer guten Antwort?

Falls eine Frage die Qualitätskriterien nicht erfüllt, formuliere gezieltes Feedback mit konkreten Verbesserungsvorschlägen.
Wenn du mit der Qualität der Fragen zufrieden bist und keine Verbesserungsvorschläge hast, gib eindeutig „Review OK“ als Feedback zurück.

Gib in deiner Rückmeldung ausschließlich Feedback zu den Fragen oder "
  +:+ String quote_char EmptyString +:+ "Review OK"
  +:+ String quote_char EmptyString +:+ " zurück – ohne zusätzlichen Text.

Greife auf dein eigenes Wissen zur Bewertung zurück.

Formuliere dein Feedback stets auf Deutsch.
".

(** [agent.instructions], as [build_agent] stored them. *)
Definition instructions (a : agent) : string :=
  match a with
  | KNOWLEDGE_RETRIEVER => RETRIEVER_INSTRUCTIONS
  | COMPREHENSION_QA_GENERATOR => COMPREHENSION_INSTRUCTIONS
  | CALCULATION_QA_GENERATOR => CALCULATION_INSTRUCTIONS
  | QUESTION_REVIEWER => REVIEWER_INSTRUCTIONS
  end.

Definition MAX_ROUNDS : nat := 1.

Record QAWorkflow : Type := mkQAWorkflow {
  generator : agent;
  q_type_label : string;
}.

(** [QAWorkflow.__init__] on a [str]. *)
Definition QAWorkflow_of (question_type : string) : QAWorkflow :=
  let qt_lower := lower question_type in
  {| generator := if startswith qt_lower "ver"
                  then COMPREHENSION_QA_GENERATOR
                  else CALCULATION_QA_GENERATOR;
     q_type_label := if startswith qt_lower "ver"
                     then "Verständnisfrage" else "Rechenfrage" |}.

(** [QAWorkflow(question_type=v)] for the value the payload holds: only a
    [str] has [lower]. *)
Definition QAWorkflow_init (question_type : json) : outcome QAWorkflow :=
  match question_type with
  | JStr s => Ok (QAWorkflow_of s)
  | v => Raise (Exn AttributeError
                  ("'" +:+ type_name v +:+ "' object has no attribute 'lower'"))
  end.

(** The keyword arguments of one call of [run]. *)
Record request : Type := Request {
  subjects : json;
  keywords : json;
  num_qas : Z;
  difficulty : json;
  audience : json;
}.

Section Workflow.
Context {St : Type}.
Variable oracle : agent -> string -> St -> outcome content * St.
Variable lib : pylib.

Definition search_query (rq : request) : string :=
  strip (py_str lib (subjects rq) +:+ " " +:+ py_str lib (keywords rq)).

Definition feedback_suffix (feedback : content) : string :=
  if content_truthy feedback
  then newline +:+ "Vorheriges Feedback:" +:+ newline
       +:+ content_str lib feedback +:+ newline
  else "".

Definition review_prompt (rq : request) (qa_pairs_json : document) : string :=
  "Bewerte folgende Frage-Antwort-Paare:" +:+ newline
  +:+ doc_text qa_pairs_json
  +:+ newline +:+ "Schwierigkeitsgrad: " +:+ py_str lib (difficulty rq)
  +:+ newline +:+ "Zielgruppe: " +:+ py_str lib (audience rq).

Definition qa_document (qa_pairs_resp : content) : document :=
  match qa_pairs_resp with
  | CModel m => dump_model lib (MQuestionResponse m)
  | CValue v => dumps lib v
  end.

(** The [for _ in range(n)] loop of [run] and the [return] after it.
    [feedback] starts as [None]; [qa_pairs_json] is unbound until the first
    round has assigned it. *)
Fixpoint rounds (self : QAWorkflow) (rq : request) (context : content)
    (n : nat) (feedback : content) (qa_pairs_json : option document) :
    M agent QuestionResponse St json :=
  match n with
  | O =>
      match qa_pairs_json with
      | Some d => ret (doc_value d)
      | None =>
          raise (Exn UnboundLocalError
                   "cannot access local variable 'qa_pairs_json' where it is not associated with a value")
      end
  | S n' =>
      let* gen_prompt :=
        lift (py_format (instructions (generator self))
                [ ("num", str_of_Z (num_qas rq));
                  ("q_type", q_type_label self);
                  ("difficulty", py_str lib (difficulty rq));
                  ("audience", py_str lib (audience rq));
                  ("context", content_str lib context) ]) in
      let gen_prompt := gen_prompt +:+ feedback_suffix feedback in
      let* qa_pairs_resp := agent_run oracle (generator self) gen_prompt in
      let qa_pairs_json := qa_document qa_pairs_resp in
      let* feedback :=
        agent_run oracle QUESTION_REVIEWER (review_prompt rq qa_pairs_json) in
      let* approved := lift (py_in "Review OK" feedback) in
      if approved then ret (doc_value qa_pairs_json)
      else rounds self rq context n' feedback (Some qa_pairs_json)
  end.

(** [QAWorkflow.run] with [max_rounds] for the class attribute. *)
Definition run_rounds (max_rounds : nat) (self : QAWorkflow) (rq : request) :
    M agent QuestionResponse St json :=
  let* retriever_prompt :=
    lift (py_format (instructions KNOWLEDGE_RETRIEVER)
            [ ("query", search_query rq) ]) in
  let* context := agent_run oracle KNOWLEDGE_RETRIEVER retriever_prompt in
  rounds self rq context max_rounds (CValue JNull) None.

Definition run (self : QAWorkflow) (rq : request) : M agent QuestionResponse St json :=
  run_rounds MAX_ROUNDS self rq.

Definition handle_request (payload : json) : M agent QuestionResponse St json :=
  let* question_type :=
    lift (py_get payload "fragetyp" (JStr "Verständnisfragen")) in
  let* subjects := lift (py_get payload "thema" (JStr "")) in
  let* keywords := lift (py_get payload "keywords" (JStr "")) in
  let* n := lift (py_get payload "anzahl_fragen" (JInt 3)) in
  let* num_qas := lift (py_int lib n) in
  let* difficulty := lift (py_get payload "schwierigkeitsgrad" (JStr "mittel")) in
  let* audience := lift (py_get payload "zielgruppe" (JStr "")) in
  let* wf := lift (QAWorkflow_init question_type) in
  let* questions :=
    run wf {| subjects := subjects; keywords := keywords; num_qas := num_qas;
              difficulty := difficulty; audience := audience |} in
  ret (JObj [ ("questions", questions) ]).

Definition ok_headers : list (string * string) :=
  [ ("Content-Type", "application/json");
    ("Access-Control-Allow-Origin", "*");
    ("Access-Control-Allow-Methods", "POST,OPTIONS");
    ("Access-Control-Allow-Headers", "Content-Type,Authorization") ].

Definition error_headers : list (string * string) :=
  [ ("Content-Type", "application/json");
    ("Access-Control-Allow-Origin", "*") ].

(** The body of the [try] block of the handler. *)
Definition attempt (event : json) : M agent QuestionResponse St response :=
  let* b := lift (py_get event "body" JNull) in
  let body := if truthy b then b else JStr "{}" in
  let* flag := lift (py_get event "isBase64Encoded" JNull) in
  let* body :=
    (if truthy flag
     then let* raw := lift (b64decode_value lib body) in
          let* text := lift (bytes_decode lib raw) in
          ret (JStr text)
     else ret body) in
  let* payload := lift (loads_value lib body) in
  let* result := handle_request payload in
  ret {| statusCode := 200; headers := ok_headers; body := result |}.

Definition lambda_handler (event : json) : M agent QuestionResponse St response :=
  try_except
    (attempt event)
    (fun exc =>
       ret {| statusCode := 500; headers := error_headers;
              body := JObj [ ("error", JStr (exn_msg exc)) ] |}).

End Workflow.

End Frage.

(** ** Antwort_Validierung_Lambda.py *)

Module Antwort.

Inductive QuestionTypeEnum : Type :=
| COMPREHENSION_QUESTION
| CALCULATION_QUESTION.

Definition QuestionTypeEnum_value (m : QuestionTypeEnum) : string :=
  match m with
  | COMPREHENSION_QUESTION => "Verständnisfragen"
  | CALCULATION_QUESTION => "Rechenfragen"
  end.

Definition QuestionTypeEnum_eqb (a b : QuestionTypeEnum) : bool :=
  match a, b with
  | COMPREHENSION_QUESTION, COMPREHENSION_QUESTION => true
  | CALCULATION_QUESTION, CALCULATION_QUESTION => true
  | _, _ => false
  end.

(** A value that can reach [validate] as [question_type]: a value of the
    request body, or a member of the enumeration. *)
Inductive pyvalue : Type :=
| PJson (v : json)
| PEnum (m : QuestionTypeEnum).

(** [v == member].  [QuestionTypeEnum] derives from [Enum] alone, so a member
    is equal to itself only; neither [str] nor any other JSON value defines
    an equality with it. *)
Definition eq_member (v : pyvalue) (member : QuestionTypeEnum) : bool :=
  match v with
  | PEnum m => QuestionTypeEnum_eqb m member
  | PJson _ => false
  end.





Inductive agent : Type :=
| answer_validator1
| answer_validator2
| master_answer_validator
| agent_team.



(** The prompt template of the validation request (not dedented). *)
Definition prompt_template : string :=
  "
    Werte die Antwort des Studenten aus dem gegebenen Frage-Antwort-Paar hinsichtlich ihrer inhaltlichen Korrektheit aus, indem du die Stundentenantwort mit der übergebenen richtigen Antwort inhaltlich und sinngemäß vergleichst.

    Frage:
    {question}

    Studentenantwort:
    {student_answer}

    Richtige Antwort:
    {correct_answer}
".

(** The team and the arbiter answer with a [ValidationResult]. *)
Definition content : Type := content_of ValidationResult.

(** [result.json()]: a method of the model, of no other content. *)
Definition content_json (c : content) : outcome json :=
  match c with
  | CModel m => Ok (ValidationResult_dump m)
  | CValue v => Raise (Exn AttributeError
                         ("'" +:+ type_name v
                          +:+ "' object has no attribute 'json'"))
  end.

Definition ok_headers : list (string * string) :=
  [ ("Access-Control-Allow-Origin", "*");
    ("Access-Control-Allow-Methods", "POST,OPTIONS");
    ("Access-Control-Allow-Headers", "Content-Type,Authorization") ].

Section Validation.
Context {St : Type}.
Variable oracle : agent -> string -> St -> outcome content * St.
Variable lib : pylib.

Definition validate (message : string) (question_type : pyvalue) :
    M agent ValidationResult St content :=
  if eq_member question_type COMPREHENSION_QUESTION then
    let* validation_result := agent_run oracle agent_team message in
    let* _ := lift (py_in "Consensus not reached" validation_result) in
    ret validation_result
  else
    let* validation_result :=
      agent_run oracle master_answer_validator message in
    ret validation_result.

(** The body of the [try] block, from the decoded body on: [inl] is the
    [bytes] that [b64decode] returned, [inr] the value of the event. *)
Definition process (body_decoded : string + json) : M agent ValidationResult St response :=
  let* body :=
    lift (match body_decoded with
          | inl raw => json_loads_bytes lib raw
          | inr v => loads_value lib v
          end) in
  let* question_text := lift (py_get body "question_text" (JStr "")) in
  let* student_answer := lift (py_get body "student_answer" (JStr "")) in
  let* correct_answer := lift (py_get body "correct_answer" JNull) in
  let* question_style := lift (py_get body "question_style" (JStr "")) in
  let* prompt :=
    lift (py_format prompt_template
            [ ("question", py_str lib question_text);
              ("student_answer", py_str lib student_answer);
              ("correct_answer", py_str lib correct_answer) ]) in
  let* result := validate prompt (PJson question_style) in
  let* text := lift (content_json result) in
  ret {| statusCode := 200; headers := ok_headers; body := text |}.

Definition lambda_handler (event : json) : M agent ValidationResult St response :=
  let* raw_body := lift (py_getitem event "body") in
  let* isBase64Encoded := lift (py_get event "isBase64Encoded" (JBool false)) in
  let* body_decoded :=
    (if truthy isBase64Encoded
     then let* raw := lift (b64decode_value lib raw_body) in ret (inl raw)
     else ret (inr raw_body)) in
  try_except
    (process body_decoded)
    (fun e =>
       ret {| statusCode := 500; headers := [];
              body := JStr ("Fehler: " +:+ exn_msg e) |}).

End Validation.

End Antwort.

(** ** PDF_Upload_Lambda.py *)

Module Upload.

Definition s3_bucket_name : string := "tl-course-materials".
Definition s3_bucket_base_url : string :=
  "https://tl-course-materials.s3.eu-central-1.amazonaws.com".

Record s3_object : Type := mkObject {
  object_body : string;
  content_type : string;
}.

(** One call of [knowledge_base.aload] with the knowledge base it is called
    on. *)
Record kb_load : Type := mkLoad {
  load_urls : list string;
  load_table : string;
  load_recreate : bool;
  load_upsert : bool;
}.

(** A call to the storage services: [put_object] on a bucket, or [aload]
    on a knowledge base. *)
Inductive storage_call : Type :=
| PutObject (bucket key body content_type : string)
| Aload (l : kb_load).

(** Object storage (bucket and key to object), whether the vector table
    exists, and the calls made so far to the bucket and to the knowledge
    store, in one trace, oldest first.  The model follows the calls that
    succeed. *)
Record world : Type := mkWorld {
  s3 : gmap (string * string) s3_object;
  table_exists : bool;
  trace : list storage_call;
}.

(** The loads requested so far, oldest first. *)
Definition loads (w : world) : list kb_load :=
  omap (fun c => match c with
                 | Aload l => Some l
                 | PutObject _ _ _ _ => None
                 end) (trace w).

Definition put_object (bucket key : string) (content : string) (w : world) :
    world :=
  {| s3 := <[(bucket, key) := {| object_body := content;
                                 content_type := "application/pdf" |}]> (s3 w);
     table_exists := table_exists w;
     trace := trace w ++ [PutObject bucket key content "application/pdf"] |}.

(** The uploads are started in the order of [files], and [gather] has
    awaited them all when the function returns.  They run in parallel:
    under a name used twice the model lets the later put stay, an order
    the code does not fix, and no statement below relies on it. *)
Definition save_files_to_s3 (bucket_name : string)
    (files : list (string * string)) (w : world) : world :=
  foldl (fun w f => put_object bucket_name f.1 f.2 w) w files.

Definition load_files_from_s3_to_knowledge_base (s3_bucket_base_url : string)
    (filenames : list string) (w : world) : world :=
  let s3_file_urls :=
    map (fun filename => s3_bucket_base_url +:+ "/" +:+ filename) filenames in
  {| s3 := s3 w;
     table_exists := true;
     trace := trace w ++ [ Aload {| load_urls := s3_file_urls;
                                    load_table := "pdf_documents";
                                    load_recreate := negb (table_exists w);
                                    load_upsert := true |} ] |}.

Definition main (s3_bucket_base_url s3_bucket_name : string)
    (files : list (string * string)) (w : world) : world :=
  let w := save_files_to_s3 s3_bucket_name files w in
  load_files_from_s3_to_knowledge_base s3_bucket_base_url (map fst files) w.

(** The URL under which the bucket serves the object with this key. *)
Definition object_url (base key : string) : string := base +:+ "/" +:+ key.

End Upload.

(** ** Sample environments *)

(** An oracle that answers from a script, one entry per call, whatever the
    agent and the prompt; an empty script is an upstream failure. *)
Definition scripted {Ag Mo : Type} (a : Ag) (prompt : string)
    (script : list (outcome (content_of Mo))) :
    outcome (content_of Mo) * list (outcome (content_of Mo)) :=
  match script with
  | [] => (Raise (Exn UpstreamError "no response"), [])
  | r :: script' => (r, script')
  end.

(** A library whose parser knows two texts and whose other functions are
    the simplest of their type. *)
Definition sample_lib : pylib :=
  {| json_loads := fun t =>
       if String.eqb t "{}" then Ok (JObj [])
       else if String.eqb t "[]" then Ok (JArr [])
       else Raise (Exn JSONDecodeError "Expecting value");
     json_loads_bytes := fun t =>
       if String.eqb t "{}" then Ok (JObj [])
       else Raise (Exn JSONDecodeError "Expecting value");
     b64decode := fun t =>
       if String.eqb t "e30=" then Ok "{}"
       else Raise (Exn BinasciiError "Incorrect padding");
     bytes_decode := fun t => Ok t;
     container_repr := fun _ => "[...]";
     int_of_text := fun _ =>
       Raise (Exn ValueError "invalid literal for int() with base 10");
     int_of_float := fun _ => Ok 0%Z;
     json_dumps := fun _ => "<json>";
     model_dump_json := fun _ => "<model>";
     model_str := fun _ => "<model>" |}.

(** Number of questions of a returned batch [{"questions": [...]}]. *)
Definition batch_length (j : json) : option nat :=
  match j with
  | JObj kv =>
      match assoc "questions" kv with
      | Some (JArr l) => Some (length l)
      | _ => None
      end
  | _ => None
  end.

Definition sample_question : Question :=
  {| question_text := "Was misst die Varianz?";
     question_type := TEXT;
     multiple_choice_options := Some [];
     correct_answer := "Die Streuung um den Mittelwert." |}.

Definition sample_request : Frage.request :=
  {| Frage.subjects := JStr "Statistik";
     Frage.keywords := JStr "rechnen";
     Frage.num_qas := 3;
     Frage.difficulty := JStr "mittel";
     Frage.audience := JStr "bachelor" |}.

(** What the three agents of the generation lambda answer in a sample run:
    a context, a batch of one question, and a review. *)
(** A bucket that already holds a document, indexed earlier. *)
Definition old_world : Upload.world :=
  {| Upload.s3 :=
       {[ (Upload.s3_bucket_name, "alt.pdf")
          := {| Upload.object_body := "%PDF-alt";
                Upload.content_type := "application/pdf" |} ]};
     Upload.table_exists := true;
     Upload.trace := [] |}.

Definition empty_reason : ValidationResult :=
  {| is_correct := false; reason := "" |}.

Definition sample_context : Frage.content :=
  CValue (JStr "Zusammenfassung: - Die Varianz misst die Streuung.").

Definition sample_batch : Frage.content :=
  CModel {| questions := [sample_question] |}.

Definition script_approved : list (outcome Frage.content) :=
  [ Ok sample_context; Ok sample_batch; Ok (CValue (JStr "Review OK")) ].

Definition script_unapproved : list (outcome Frage.content) :=
  [ Ok sample_context; Ok sample_batch;
    Ok (CValue (JStr "Frage 1 ist zu allgemein formuliert.")) ].

(** Further sample runs: two rounds with feedback in between, and a
    generator that fails. *)
Definition sample_feedback : Frage.content :=
  CValue (JStr "Frage 1 ist zu allgemein formuliert.").

Definition script_two_rounds : list (outcome Frage.content) :=
  [ Ok sample_context; Ok sample_batch; Ok sample_feedback;
    Ok sample_batch; Ok (CValue (JStr "Review OK")) ].

Definition script_generator_fails : list (outcome Frage.content) :=
  [ Ok sample_context; Raise (Exn UpstreamError "model unavailable") ].

(** ** The upload request *)

(** [s.split(sep)] for a separator that is not empty: the pieces between
    the occurrences of [sep], found from the left without overlap.  [skip]
    counts the characters of an occurrence still to pass, [cur] is the
    piece being read. *)
Fixpoint split_go (sep : string) (skip : nat) (cur s : string) : list string :=
  match s with
  | EmptyString => [cur]
  | String c s' =>
      match skip with
      | S k => split_go sep k cur s'
      | O =>
          if String.prefix sep s
          then cur :: split_go sep (String.length sep - 1) EmptyString s'
          else split_go sep 0 (cur +:+ String c EmptyString) s'
      end
  end.

Definition py_split (sep s : string) : list string := split_go sep 0 "" s.

Definition quote : string := String quote_char EmptyString.

(** The separator of the first split: [filename=] and a double quote. *)
Definition filename_quoted : string :=
  Eval cbv in ("filename=" +:+ String quote_char EmptyString).

Module UploadEntry.

(** A part of the decoded multipart body: the bytes of its
    Content-Disposition header, when it has one, and its content. *)
Record part : Type := mkPart {
  content_disposition : option string;
  part_content : string;
}.

(** [MultipartDecoder(body, content_type).parts] of requests_toolbelt; the
    body is [bytes] after base64 decoding ([inl]) or the value of the event
    ([inr]). *)
Record toolbelt : Type := Toolbelt {
  multipart_parts : string + json -> json -> outcome (list part);
}.

(** The file name of a header: the second piece of the split at
    [filename_quoted], and of it the first piece of the split at the double
    quote. *)
Definition filename_of (cd : string) : outcome string :=
  match py_split filename_quoted cd with
  | _ :: piece :: _ =>
      match py_split quote piece with
      | name :: _ => Ok name
      | [] => Raise (Exn IndexError "list index out of range")
      end
  | _ => Raise (Exn IndexError "list index out of range")
  end.

(** The loop of [extract_files] over the parts, [files] being the list
    built so far. *)
Fixpoint collect_files (lib : pylib) (parts : list part)
    (files : list (string * string)) : outcome (list (string * string)) :=
  match parts with
  | [] => Ok files
  | p :: parts' =>
      obind (bytes_decode lib (match content_disposition p with
                               | Some b => b
                               | None => ""
                               end))
        (fun cd =>
           if contains "filename=" cd
           then obind (filename_of cd)
                  (fun filename =>
                     collect_files lib parts'
                       (files ++ [(filename, part_content p)]))
           else collect_files lib parts' files)
  end.

(** The first lines of [extract_files]: the content type from the headers,
    the body decoded when the event says so, and the parts the decoder
    finds. *)
Definition decode_parts (tb : toolbelt) (lib : pylib)
    (headers body isBase64Encoded : json) : outcome (list part) :=
  obind (py_get headers "content-type" JNull) (fun lower_case =>
  obind (if truthy lower_case then Ok lower_case
         else py_get headers "Content-Type" JNull) (fun content_type =>
  obind (if truthy isBase64Encoded
         then obind (b64decode_value lib body) (fun b => Ok (inl b))
         else Ok (inr body)) (fun body =>
  multipart_parts tb body content_type))).

Definition extract_files (tb : toolbelt) (lib : pylib)
    (headers body isBase64Encoded : json) : outcome (list (string * string)) :=
  obind (decode_parts tb lib headers body isBase64Encoded)
    (fun parts => collect_files lib parts []).

(** The parts of an event, as the handler passes it to [extract_files]. *)
Definition event_parts (tb : toolbelt) (lib : pylib) (event : json) :
    outcome (list part) :=
  obind (py_getitem event "headers") (fun headers =>
  obind (py_getitem event "body") (fun body =>
  obind (py_get event "isBase64Encoded" (JBool false)) (fun flag =>
  decode_parts tb lib headers body flag))).

Definition cors_headers : list (string * string) :=
  [ ("Access-Control-Allow-Origin", "*");
    ("Access-Control-Allow-Methods", "POST,OPTIONS");
    ("Access-Control-Allow-Headers", "Content-Type,Authorization") ].

(** The handler: the response and what has become of the storage.  As in
    [Upload], the storage calls are taken to succeed. *)
Definition lambda_handler (tb : toolbelt) (lib : pylib) (event : json)
    (w : Upload.world) : response * Upload.world :=
  match obind (py_getitem event "headers") (fun headers =>
        obind (py_getitem event "body") (fun body =>
        obind (py_get event "isBase64Encoded" (JBool false)) (fun flag =>
        extract_files tb lib headers body flag))) with
  | Ok files =>
      ({| statusCode := 200; headers := cors_headers;
          body := JStr "Dateien erfolgreich gespeichert." |},
       Upload.main Upload.s3_bucket_base_url Upload.s3_bucket_name files w)
  | Raise e =>
      ({| statusCode := 500; headers := cors_headers;
          body := JStr ("Fehler: " +:+ exn_msg e) |}, w)
  end.

(** The decoded Content-Disposition header of a part; an absent header is
    the empty text. *)
Definition header_text (lib : pylib) (p : part) : outcome string :=
  bytes_decode lib (match content_disposition p with
                    | Some b => b
                    | None => ""
                    end).

(** Parts and the files they carry: a part whose header does not mention
    [filename=] carries none; a part whose header gives a quoted name, free
    of double quotes and of [filename=], after a text without the separator,
    carries the file of that name with the content of the part. *)
Inductive carries (lib : pylib) : list part -> list (string * string) -> Prop :=
| carries_nil : carries lib [] []
| carries_skip p ps fs t :
    header_text lib p = Ok t ->
    contains "filename=" t = false ->
    carries lib ps fs ->
    carries lib (p :: ps) fs
| carries_file p ps fs pre name post :
    header_text lib p
    = Ok (pre +:+ filename_quoted +:+ name +:+ quote +:+ post) ->
    contains filename_quoted pre = false ->
    contains "filename=" name = false ->
    contains quote name = false ->
    carries lib ps fs ->
    carries lib (p :: ps) ((name, part_content p) :: fs).

End UploadEntry.

(** A decoder that finds two parts, a form field and a file, in any body. *)
Definition sample_disposition : string :=
  Eval cbv in ("form-data; name=" +:+ quote +:+ "file" +:+ quote
               +:+ "; filename=" +:+ quote +:+ "skript.pdf" +:+ quote).

Definition sample_disposition_start : string :=
  Eval cbv in ("form-data; name=" +:+ quote +:+ "file" +:+ quote +:+ "; ").

Definition sample_field_disposition : string :=
  Eval cbv in ("form-data; name=" +:+ quote +:+ "kurs" +:+ quote).

Definition sample_parts : list UploadEntry.part :=
  [ {| UploadEntry.content_disposition := Some sample_field_disposition;
       UploadEntry.part_content := "42" |};
    {| UploadEntry.content_disposition := Some sample_disposition;
       UploadEntry.part_content := "%PDF-skript" |} ].

(** A part whose file name is not quoted. *)
Definition unquoted_part : UploadEntry.part :=
  {| UploadEntry.content_disposition :=
       Some "form-data; name=file; filename=skript.pdf";
     UploadEntry.part_content := "%PDF-skript" |}.

Definition unquoted_toolbelt : UploadEntry.toolbelt :=
  {| UploadEntry.multipart_parts :=
       fun _ _ => Ok (sample_parts ++ [unquoted_part]) |}.

Definition sample_toolbelt : UploadEntry.toolbelt :=
  {| UploadEntry.multipart_parts := fun _ _ => Ok sample_parts |}.

Definition sample_upload_event : json :=
  JObj [ ("headers", JObj [ ("content-type", JStr "multipart/form-data; boundary=x") ]);
         ("body", JStr "--x") ].


(** * The edge function that generates questions from a chat

    [generate_questions_chatbot] is JavaScript served by Deno: it asks
    OpenAI for the parameters named in the latest user message, calls the
    generation lambda with them and stores the questions that come back as
    pending questions. *)

(** ** JavaScript values *)

Module Js.

(** A number is an IEEE 754 binary64 value. *)
Definition number : Type := spec_float.

Definition num (z : Z) : number := binary_normalize 53 1024 z 0 false.

(** The values [JSON.parse] produces, and [undefined].  An object is the
    map of its own properties, all enumerable data properties. *)
Inductive value : Type :=
| Undefined
| Null
| Bool (b : bool)
| Number (n : number)
| Str (s : string)
| Array (xs : list value)
| Object (props : gmap string value).

(** A thrown [Error] object: its [name] and its [message]. *)
Record error : Type := Error { error_name : string; error_message : string }.

Inductive completion (A : Type) : Type :=
| Normal (a : A)
| Throw (e : error).
Arguments Normal {A} a.
Arguments Throw {A} e.

(** What the engine and its library compute: [JSON.parse] on a text,
    [JSON.stringify] on a value, the conversions between numbers and
    strings, the UTF-16 code units of a string (each as a string), and the
    messages of the [TypeError]s for reading a property of [undefined] or
    [null] and for calling what is no function. *)
Record runtime : Type := Runtime {
  JSON_parse : string -> completion value;
  JSON_stringify : value -> string;
  number_to_string : number -> string;
  string_to_number : string -> number;
  code_units : string -> list string;
  msg_cannot_read : value -> string -> string;
  msg_not_a_function : string -> string;
}.

Definition truthy (v : value) : bool :=
  match v with
  | Undefined | Null => false
  | Bool b => b
  | Number (S754_zero _) | Number S754_nan => false
  | Number _ => true
  | Str s => negb (String.eqb s "")
  | Array _ | Object _ => true
  end.

Fixpoint join (sep : string) (l : list string) : string :=
  match l with
  | [] => ""
  | [s] => s
  | s :: l' => s +:+ sep +:+ join sep l'
  end.

(** [String(v)], as a template literal and [JSON.parse] apply it: an array
    is its elements joined by commas, [null] and [undefined] elements being
    empty; an object without a [toString] of its own is
    [[object Object]]. *)
Fixpoint to_string (rt : runtime) (v : value) : string :=
  match v with
  | Undefined => "undefined"
  | Null => "null"
  | Bool true => "true"
  | Bool false => "false"
  | Number n => number_to_string rt n
  | Str s => s
  | Array xs =>
      join "," (map (fun x => match x with
                              | Undefined | Null => ""
                              | _ => to_string rt x
                              end) xs)
  | Object _ => "[object Object]"
  end.

(** [Number(v)]: an array or object is converted by way of its string. *)
Definition to_number (rt : runtime) (v : value) : number :=
  match v with
  | Undefined => S754_nan
  | Null => S754_zero false
  | Bool true => num 1
  | Bool false => S754_zero false
  | Number n => n
  | Str s => string_to_number rt s
  | Array _ | Object _ => string_to_number rt (to_string rt v)
  end.

(** [v < n] and [v > n] for a number [n]: the comparison of the numbers,
    false when [v] converts to NaN. *)
Definition less_than (rt : runtime) (v : value) (n : number) : bool :=
  SFltb (to_number rt v) n.

Definition greater_than (rt : runtime) (v : value) (n : number) : bool :=
  SFltb n (to_number rt v).

(** [l.includes(v)] for an array [l] of strings: [v] is one of them. *)
Definition includes (l : list string) (v : value) : bool :=
  match v with
  | Str s => bool_decide (s ∈ l)
  | _ => false
  end.

(** [v === s] for a string [s]. *)
Definition strict_equals (v : value) (s : string) : bool :=
  match v with
  | Str t => String.eqb t s
  | _ => false
  end.

Definition TypeError (message : string) : error :=
  {| error_name := "TypeError"; error_message := message |}.

(** [v.name] for a name that is no array index and that no prototype
    defines. *)
Definition get (rt : runtime) (v : value) (name : string) :
    completion value :=
  match v with
  | Undefined | Null => Throw (TypeError (msg_cannot_read rt v name))
  | Object props => Normal (default Undefined (props !! name))
  | _ => Normal Undefined
  end.

(** [v[i]] for an index [i]. *)
Definition get_index (rt : runtime) (v : value) (i : nat) :
    completion value :=
  match v with
  | Undefined | Null => Throw (TypeError (msg_cannot_read rt v (pretty i)))
  | Object props => Normal (default Undefined (props !! pretty i))
  | Array xs => Normal (default Undefined (xs !! i))
  | Str s => Normal (match code_units rt s !! i with
                     | Some u => Str u
                     | None => Undefined
                     end)
  | _ => Normal Undefined
  end.

(** [o.name] for the properties [o] of an object. *)
Definition prop (o : gmap string value) (name : string) : value :=
  default Undefined (o !! name).

Definition indexed (xs : list value) : gmap string value :=
  list_to_map (imap (fun i x => (pretty i, x)) xs).

(** The properties a spread [...v] copies: the own properties of an
    object, the elements of an array and the code units of a string under
    their indices, nothing of any other value. *)
Definition own_properties (rt : runtime) (v : value) : gmap string value :=
  match v with
  | Object props => props
  | Array xs => indexed xs
  | Str s => indexed (map Str (code_units rt s))
  | _ => ∅
  end.

Definition cbind {A B} (m : completion A) (k : A -> completion B) :
    completion B :=
  match m with
  | Normal a => k a
  | Throw e => Throw e
  end.

End Js.

Declare Scope js_scope.
Delimit Scope js_scope with js.
Notation "'let*' x ':=' m 'in' k" := (Js.cbind m (fun x => k))
  (at level 10, x name, m at level 100, k at level 200) : js_scope.

(** ** The function served *)

Module GenerateQuestions.
Import Js.

Record request : Type := Request {
  method : string;
  request_body : string;
}.

(** The response of a [fetch]: its status and the text of its body. *)
Record fetched : Type := Fetched {
  status : Z;
  text : string;
}.

(** [response.ok]: the status is in the range 200 to 299. *)
Definition ok (r : fetched) : bool :=
  (200 <=? status r)%Z && (status r <=? 299)%Z.

(** The answer of the function: [new Response(body, {status, headers})],
    the body being a text or [null]. *)
Record Response : Type := mkResponse {
  response_body : option string;
  response_status : Z;
  response_headers : list (string * string);
}.

(** The services the function calls: the chat completions of OpenAI and
    the generation lambda, each given the body of the POST, and the insert
    into [pending_questions] followed by a select, which answers with
    [data] and [error].  A call that fails throws. *)
Record services : Type := Services {
  openai : string -> completion fetched;
  lambda : string -> completion fetched;
  insert_pending : list value -> completion (value * value);
}.

Inductive service_call : Type :=
| CallOpenAI (body : string)
| CallLambda (body : string)
| CallInsert (rows : list value).

(** A computation that calls services: its completion and the calls it
    made, oldest first. *)
Definition T (A : Type) : Type := completion A * list service_call.

Definition tret {A} (a : A) : T A := (Normal a, []).

Definition tthrow {A} (e : error) : T A := (Throw e, []).

Definition tlift {A} (c : completion A) : T A := (c, []).

Definition tbind {A B} (m : T A) (k : A -> T B) : T B :=
  match m with
  | (Normal a, l) => let '(r, l') := k a in (r, l ++ l')
  | (Throw e, l) => (Throw e, l)
  end.

Definition called {A} (c : service_call) (r : completion A) : T A := (r, [c]).

Definition corsHeaders : list (string * string) :=
  [ ("Access-Control-Allow-Origin", "*");
    ("Access-Control-Allow-Headers",
     "authorization, x-client-info, apikey, content-type") ].

Definition defaults : gmap string value :=
  {[ "schwierigkeitsgrad" := Str "mittel";
     "anzahl_fragen" := Number (num 5);
     "thema" := Str "Allgemeine Fragen";
     "fragetyp" := Str "Verständnisfragen";
     "zielgruppe" := Str "Studenten";
     "keywords" := Str "" ]}.

(** [conversationHistory.filter((msg) => msg.role === 'user')] on the
    elements of an array. *)
Fixpoint userMessages (rt : runtime) (msgs : list value) :
    completion (list value) :=
  match msgs with
  | [] => Normal []
  | msg :: msgs' =>
      cbind (get rt msg "role") (fun role =>
      cbind (userMessages rt msgs') (fun rest =>
      Normal (if strict_equals role "user" then msg :: rest else rest)))
  end.

(** The content of the last user message, or the empty string when there
    is none or its content is falsy. *)
Definition latestUserMessage (rt : runtime) (conversationHistory : value) :
    completion value :=
  match conversationHistory with
  | Array msgs =>
      cbind (userMessages rt msgs) (fun users =>
      match last users with
      | None => Normal (Str "")
      | Some msg =>
          cbind (get rt msg "content") (fun content =>
          Normal (if truthy content then content else Str ""))
      end)
  | Undefined | Null =>
      Throw (TypeError (msg_cannot_read rt conversationHistory "filter"))
  | _ => Throw (TypeError (msg_not_a_function rt "conversationHistory.filter"))
  end.

Definition extractionPrompt_start : string :=
  Eval cbv in
  ("Du bist ein Parameter-Extractor für ein Fragenerstellungs-System. 

WICHTIG: Analysiere NUR die LETZTE Benutzeranfrage, nicht das gesamte Gespräch.

Letzte Benutzeranfrage: "
  +:+ quote).

Definition extractionPrompt_end : string :=
  Eval cbv in
  (quote
  +:+ "

Standardwerte:
- schwierigkeitsgrad: "
  +:+ quote
  +:+ "mittel"
  +:+ quote
  +:+ "
- anzahl_fragen: 5
- thema: "
  +:+ quote
  +:+ "Allgemeine Fragen"
  +:+ quote
  +:+ "
- fragetyp: "
  +:+ quote
  +:+ "Verständnisfragen"
  +:+ quote
  +:+ "
- zielgruppe: "
  +:+ quote
  +:+ "Studenten"
  +:+ quote
  +:+ "
- keywords: "
  +:+ quote
  +:+ quote
  +:+ "

SPEZIELLE REGELN für "
  +:+ quote
  +:+ "mehr"
  +:+ quote
  +:+ " oder "
  +:+ quote
  +:+ "zusätzliche"
  +:+ quote
  +:+ " Fragen:
- Wenn der Benutzer "
  +:+ quote
  +:+ "X mehr"
  +:+ quote
  +:+ ", "
  +:+ quote
  +:+ "X zusätzliche"
  +:+ quote
  +:+ ", "
  +:+ quote
  +:+ "weitere X"
  +:+ quote
  +:+ " sagt, dann anzahl_fragen = X
- Beispiele: "
  +:+ quote
  +:+ "3 mehr"
  +:+ quote
  +:+ " → anzahl_fragen: 3, "
  +:+ quote
  +:+ "2 zusätzliche"
  +:+ quote
  +:+ " → anzahl_fragen: 2

Extrahiere nur Parameter, die explizit in der letzten Nachricht erwähnt werden. Verwende Standardwerte für alle anderen.

Antworte nur mit JSON:
{
  "
  +:+ quote
  +:+ "schwierigkeitsgrad"
  +:+ quote
  +:+ ": "
  +:+ quote
  +:+ "leicht"
  +:+ quote
  +:+ " | "
  +:+ quote
  +:+ "mittel"
  +:+ quote
  +:+ " | "
  +:+ quote
  +:+ "schwer"
  +:+ quote
  +:+ ",
  "
  +:+ quote
  +:+ "anzahl_fragen"
  +:+ quote
  +:+ ": number (1-20),
  "
  +:+ quote
  +:+ "thema"
  +:+ quote
  +:+ ": "
  +:+ quote
  +:+ "string"
  +:+ quote
  +:+ ",
  "
  +:+ quote
  +:+ "fragetyp"
  +:+ quote
  +:+ ": "
  +:+ quote
  +:+ "Verständnisfragen"
  +:+ quote
  +:+ " | "
  +:+ quote
  +:+ "Rechenfragen"
  +:+ quote
  +:+ ",
  "
  +:+ quote
  +:+ "zielgruppe"
  +:+ quote
  +:+ ": "
  +:+ quote
  +:+ "string"
  +:+ quote
  +:+ ",
  "
  +:+ quote
  +:+ "keywords"
  +:+ quote
  +:+ ": "
  +:+ quote
  +:+ "string"
  +:+ quote
  +:+ "
}").

Definition extractionPrompt (rt : runtime) (latest : value) : string :=
  extractionPrompt_start +:+ to_string rt latest +:+ extractionPrompt_end.

(** 0.1 as a binary64 value. *)
Definition temperature : number := S754_finite false 7205759403792794 (-56).

Definition extraction_request (rt : runtime) (latest : value) : value :=
  Object {[ "model" := Str "gpt-4o-mini";
            "messages" :=
              Array [ Object {[ "role" := Str "user";
                                "content" := Str (extractionPrompt rt latest) ]} ];
            "temperature" := Number temperature;
            "max_tokens" := Number (num 500) ]}.

(** The three checks on the merged parameters; a value that fails its
    check is replaced by the default. *)
Definition validated (rt : runtime) (p : gmap string value) :
    gmap string value :=
  let p :=
    if includes ["leicht"; "mittel"; "schwer"] (prop p "schwierigkeitsgrad")
    then p
    else <["schwierigkeitsgrad" := prop defaults "schwierigkeitsgrad"]> p in
  let p :=
    if includes ["Verständnisfragen"; "Rechenfragen"] (prop p "fragetyp")
    then p
    else <["fragetyp" := prop defaults "fragetyp"]> p in
  if less_than rt (prop p "anzahl_fragen") (num 1)
     || greater_than rt (prop p "anzahl_fragen") (num 20)
  then <["anzahl_fragen" := prop defaults "anzahl_fragen"]> p
  else p.

(** [extractionData.choices[0].message.content]. *)
Definition extractedContent (rt : runtime) (extractionData : value) :
    completion value :=
  cbind (get rt extractionData "choices") (fun choices =>
  cbind (get_index rt choices 0) (fun choice =>
  cbind (get rt choice "message") (fun message =>
  get rt message "content"))).

(** The inner [try]: the content of the first choice is parsed, merged
    over the defaults and checked. *)
Definition parsed_params (rt : runtime) (extractionData : value) :
    completion (gmap string value) :=
  cbind (extractedContent rt extractionData) (fun content =>
  cbind (JSON_parse rt (to_string rt content)) (fun parsed =>
  Normal (validated rt (own_properties rt parsed ∪ defaults)))).

(** The parameters sent to the lambda: the defaults when the inner [try]
    throws. *)
Definition extractedParams (rt : runtime) (extractionData : value) :
    gmap string value :=
  match parsed_params rt extractionData with
  | Normal p => p
  | Throw _ => defaults
  end.

(** The questions of the lambda's answer: [questions] when it is an array,
    else [questions.questions] when that is an array, else none. *)
Definition questions_of (rt : runtime) (lambdaResult : value) :
    completion (list value) :=
  cbind (get rt lambdaResult "questions") (fun qs =>
  match qs with
  | Array l => Normal l
  | Undefined | Null => Normal []
  | _ =>
      cbind (get rt qs "questions") (fun inner =>
      Normal (match inner with
              | Array l => l
              | _ => []
              end))
  end).

(** The row stored for a question. *)
Definition pendingQuestion (rt : runtime) (courseId teacherId : value)
    (p : gmap string value) (conversationHistory : value) (q : value) :
    completion value :=
  cbind (get rt q "question_text") (fun question_text =>
  cbind (get rt q "question_type") (fun question_type =>
  cbind (get rt q "options") (fun options =>
  cbind (if truthy options then Normal options
         else get rt q "multiple_choice_options") (fun options =>
  cbind (get rt q "correct_answer") (fun correct_answer =>
  Normal (Object
    {[ "course_id" := courseId;
       "teacher_id" := teacherId;
       "question_text" := question_text;
       "question_type" := (if truthy question_type then question_type
                           else Str "multiple_choice");
       "question_style" := prop p "fragetyp";
       "options" := options;
       "correct_answer" := correct_answer;
       "chat_context" := conversationHistory;
       "status" := Str "pending" ]})))))).

(** [questions.map] with the row function, left to right. *)
Fixpoint pendingQuestions (rt : runtime) (courseId teacherId : value)
    (p : gmap string value) (conversationHistory : value)
    (questions : list value) : completion (list value) :=
  match questions with
  | [] => Normal []
  | q :: questions' =>
      cbind (pendingQuestion rt courseId teacherId p conversationHistory q)
        (fun row =>
      cbind (pendingQuestions rt courseId teacherId p conversationHistory
               questions') (fun rows =>
      Normal (row :: rows)))
  end.

Definition json_headers : list (string * string) :=
  corsHeaders ++ [ ("Content-Type", "application/json") ].

(** The body of the outer [try]. *)
Definition attempt (rt : runtime) (sv : services) (req : request) :
    T Response :=
  tbind (tlift (JSON_parse rt (request_body req))) (fun payload =>
  tbind (tlift (get rt payload "conversationHistory"))
    (fun conversationHistory =>
  tbind (tlift (get rt payload "courseId")) (fun courseId =>
  tbind (tlift (get rt payload "teacherId")) (fun teacherId =>
  tbind (tlift (latestUserMessage rt conversationHistory)) (fun latest =>
  let request_text := JSON_stringify rt (extraction_request rt latest) in
  tbind (called (CallOpenAI request_text) (openai sv request_text))
    (fun extractionResponse =>
  if negb (ok extractionResponse)
  then tthrow (Error "Error" ("OpenAI extraction failed: "
                              +:+ pretty (status extractionResponse)))
  else
  tbind (tlift (JSON_parse rt (text extractionResponse)))
    (fun extractionData =>
  let p := extractedParams rt extractionData in
  let lambda_text := JSON_stringify rt (Object p) in
  tbind (called (CallLambda lambda_text) (lambda sv lambda_text))
    (fun lambdaResponse =>
  if negb (ok lambdaResponse)
  then tthrow (Error "Error" ("Lambda function error: "
                              +:+ pretty (status lambdaResponse)
                              +:+ " - " +:+ text lambdaResponse))
  else
  tbind (tlift (JSON_parse rt (text lambdaResponse))) (fun lambdaResult =>
  tbind (tlift (questions_of rt lambdaResult)) (fun questions =>
  if bool_decide (length questions = 0)
  then tthrow (Error "Error" "Lambda function returned no questions")
  else
  tbind (tlift (pendingQuestions rt courseId teacherId p
                  conversationHistory questions)) (fun rows =>
  tbind (called (CallInsert rows) (insert_pending sv rows))
    (fun '(insertedQuestions, insertError) =>
  if truthy insertError
  then tthrow (Error "Error" "Failed to save questions")
  else
  tret {| response_body :=
            Some (JSON_stringify rt (Object
              {[ "success" := Bool true;
                 "questionsGenerated" :=
                   Number (num (Z.of_nat (length questions)));
                 "extractedParams" := Object p;
                 "pendingQuestions" := insertedQuestions ]}));
          response_status := 200;
          response_headers := json_headers |})))))))))))).

(** The function passed to [serve]: the answer and the calls made. *)
Definition handler (rt : runtime) (sv : services) (req : request) :
    Response * list service_call :=
  if String.eqb (method req) "OPTIONS"
  then ({| response_body := None; response_status := 200;
           response_headers := corsHeaders |}, [])
  else
    match attempt rt sv req with
    | (Normal r, calls) => (r, calls)
    | (Throw e, calls) =>
        ({| response_body :=
              Some (JSON_stringify rt (Object
                {[ "error" := Str (error_message e);
                   "success" := Bool false ]}));
            response_status := 500;
            response_headers := json_headers |}, calls)
    end.

End GenerateQuestions.

(** Parameters that pass the three checks and have every key of the
    defaults. *)
Definition checked (rt : Js.runtime) (p : gmap string Js.value) : Prop :=
  Js.includes ["leicht"; "mittel"; "schwer"]
    (Js.prop p "schwierigkeitsgrad") = true /\
  Js.includes ["Verständnisfragen"; "Rechenfragen"]
    (Js.prop p "fragetyp") = true /\
  Js.less_than rt (Js.prop p "anzahl_fragen") (Js.num 1) = false /\
  Js.greater_than rt (Js.prop p "anzahl_fragen") (Js.num 20) = false /\
  forall k, is_Some (GenerateQuestions.defaults !! k) -> is_Some (p !! k).

(** A pending question as the function writes it: a row of the request's
    course and teacher, with the style of the parameters, a question type
    that is truthy, and the status pending. *)
Definition pending_row (courseId teacherId : Js.value)
    (p : gmap string Js.value) (row : Js.value) : Prop :=
  exists o,
    row = Js.Object o /\
    o !! "course_id" = Some courseId /\
    o !! "teacher_id" = Some teacherId /\
    o !! "question_style" = Some (Js.prop p "fragetyp") /\
    o !! "status" = Some (Js.Str "pending") /\
    exists t, o !! "question_type" = Some t /\ Js.truthy t = true.

(** A sample run: texts standing for the JSON texts exchanged, an engine
    that reads them, and services that answer. *)
Definition chat_payload : Js.value :=
  Js.Object
    {[ "conversationHistory" :=
         Js.Array [ Js.Object {[ "role" := Js.Str "user";
                                 "content" := Js.Str "25 Fragen zur Varianz" ]} ];
       "courseId" := Js.Str "kurs-1";
       "teacherId" := Js.Str "lehrer-1" ]}.

Definition chat_extracted : Js.value :=
  Js.Object {[ "anzahl_fragen" := Js.Number (Js.num 25);
               "thema" := Js.Str "Varianz";
               "fragetyp" := Js.Str "Rechenfragen" ]}.

Definition chat_extraction : Js.value :=
  Js.Object
    {[ "choices" :=
         Js.Array [ Js.Object
                      {[ "message" :=
                           Js.Object {[ "content" := Js.Str "params" ]} ]} ] ]}.

Definition chat_question : Js.value :=
  Js.Object {[ "question_text" := Js.Str "Was ist die Varianz?";
               "options" := Js.Array [ Js.Str "Streuung"; Js.Str "Mittel" ];
               "correct_answer" := Js.Str "Streuung" ]}.

Definition chat_lambda_result : Js.value :=
  Js.Object
    {[ "questions" :=
         Js.Object {[ "questions" := Js.Array [ chat_question ] ]} ]}.

Definition chat_runtime : Js.runtime :=
  {| Js.JSON_parse := fun s =>
       if String.eqb s "chat" then Js.Normal chat_payload
       else if String.eqb s "extraction" then Js.Normal chat_extraction
       else if String.eqb s "params" then Js.Normal chat_extracted
       else if String.eqb s "result" then Js.Normal chat_lambda_result
       else Js.Throw (Js.Error "SyntaxError" "Unexpected token");
     Js.JSON_stringify := fun v =>
       match v with
       | Js.Object o => if bool_decide (is_Some (o !! "thema")) then "params"
                        else "json"
       | _ => "json"
       end;
     Js.number_to_string := fun _ => "0";
     Js.string_to_number := fun _ => S754_nan;
     Js.code_units := fun s =>
       map (fun c => String c EmptyString) (list_ascii_of_string s);
     Js.msg_cannot_read := fun _ name =>
       "Cannot read properties (reading '" +:+ name +:+ "')";
     Js.msg_not_a_function := fun f => f +:+ " is not a function" |}.

Definition chat_services : GenerateQuestions.services :=
  {| GenerateQuestions.openai := fun _ =>
       Js.Normal {| GenerateQuestions.status := 200;
                    GenerateQuestions.text := "extraction" |};
     GenerateQuestions.lambda := fun _ =>
       Js.Normal {| GenerateQuestions.status := 200;
                    GenerateQuestions.text := "result" |};
     GenerateQuestions.insert_pending := fun rows =>
       Js.Normal (Js.Array rows, Js.Null) |}.

Definition chat_post : GenerateQuestions.request :=
  {| GenerateQuestions.method := "POST";
     GenerateQuestions.request_body := "chat" |}.

(** * Properties *)

(** ** Strings and templates *)

Lemma prefix_spec (p s : string) :
  String.prefix p s = true <-> exists rest, s = p +:+ rest.
Proof.
  revert s. induction p as [|a p IH]; intros [|b s]; simpl.
  - split; [intros _; by exists "" | reflexivity].
  - split; [intros _; by exists (String b s) | reflexivity].
  - split; [discriminate | intros [rest H]; discriminate].
  - destruct (ascii_dec a b) as [->|Hne].
    + rewrite IH. split; intros [rest H]; exists rest.
      * by rewrite H.
      * by injection H.
    + split; [discriminate | intros [rest H]; injection H; congruence].
Qed.

(** A template without braces has no replacement field: it is returned as
    it is, whatever the keyword arguments. *)
Lemma format_brace_free (t : string) (kw : list (string * string)) :
  brace_free t = true -> py_format t kw = Ok t.
Proof.
  unfold py_format. induction t as [|c t IH]; simpl; [reflexivity|].
  intros H. apply andb_prop in H as [H Ht]. apply andb_prop in H as [Ho Hc].
  apply negb_true_iff in Ho, Hc. rewrite Ho, Hc, (IH Ht). reflexivity.
Qed.

Lemma append_empty (t : string) : "" +:+ t = t.
Proof. reflexivity. Qed.

Lemma append_String (c : ascii) (s t : string) :
  String c s +:+ t = String c (s +:+ t).
Proof. reflexivity. Qed.

(** The retriever template has the one field [query]. *)
Lemma retriever_prompt_format (q : string) :
  exists pre post,
    Frage.RETRIEVER_INSTRUCTIONS = pre +:+ "{query}" +:+ post /\
    brace_free pre = true /\ brace_free post = true /\
    py_format Frage.RETRIEVER_INSTRUCTIONS [("query", q)]
    = Ok (pre +:+ q +:+ post).
Proof.
  exists "
Ich greife direkt auf die pgvector-Datenbank zu, um relevante Chunks zum Thema **", "** zu finden.
Nutze dazu `search`, `think`, `analyze`. Gib deine Antwort exakt so zurück:

Zusammenfassung:
- <Bullet 1>
- … (max. 10 Bullets)
".
  repeat split; vm_compute; reflexivity.
Qed.

(** The template that the module defines for the generators and never
    uses has a field for each keyword that [run] passes, the context among
    them. *)
Lemma base_template_has_the_fields (num q_type difficulty audience ctx : string) :
  exists a b c d e,
    py_format Frage.BASE_GENERATOR_INSTRUCTIONS
      [ ("num", num); ("q_type", q_type); ("difficulty", difficulty);
        ("audience", audience); ("context", ctx) ]
    = Ok (a +:+ num +:+ b +:+ q_type +:+ c +:+ difficulty +:+ d +:+ audience
          +:+ e +:+ ctx +:+ newline).
Proof.
  exists (String "010"%char
     "Du erstellst Frage-Antort-Paare für eine Lernplattform. Formuliere sämtliche Fragen, Antworten und Lösungswege etc. ausschließlich auf Deutsch.

Erstelle "),
    " Aufgaben des Typs **", "** im Schwierigkeitsgrad **",
    "** für die Zielgruppe **",
    "**.
Nutze folgenden Kontext:
".
  vm_compute. reflexivity.
Qed.

(** ** Choice of the generator *)

Lemma generator_cases (s : string) :
  Frage.generator (Frage.QAWorkflow_of s)
  = (if startswith (lower s) "ver"
     then Frage.COMPREHENSION_QA_GENERATOR
     else Frage.CALCULATION_QA_GENERATOR).
Proof. reflexivity. Qed.

Lemma generator_format (s : string) (kw : list (string * string)) :
  py_format (Frage.instructions (Frage.generator (Frage.QAWorkflow_of s))) kw
  = Ok (Frage.instructions (Frage.generator (Frage.QAWorkflow_of s))).
Proof.
  rewrite generator_cases.
  destruct (startswith (lower s) "ver");
    apply format_brace_free; vm_compute; reflexivity.
Qed.

Lemma generator_not_other (s : string) :
  Frage.generator (Frage.QAWorkflow_of s) <> Frage.KNOWLEDGE_RETRIEVER /\
  Frage.generator (Frage.QAWorkflow_of s) <> Frage.QUESTION_REVIEWER.
Proof.
  rewrite generator_cases. destruct (startswith (lower s) "ver"); by split.
Qed.

(** A byte lowercases to a given lowercase letter exactly when it is that
    letter or its capital. *)
Lemma lower_ascii_letter (c : ascii) :
  (lower_ascii c = "v"%char <-> c = "v"%char \/ c = "V"%char) /\
  (lower_ascii c = "e"%char <-> c = "e"%char \/ c = "E"%char) /\
  (lower_ascii c = "r"%char <-> c = "r"%char \/ c = "R"%char).
Proof.
  destruct c as [[|] [|] [|] [|] [|] [|] [|] [|]]; vm_compute;
    (split; [|split]); split; intros H;
    try reflexivity; try discriminate; try (by left); try (by right);
    destruct H as [H|H]; discriminate.
Qed.

(** The lowercased text starts with ver exactly when the text starts with
    these three letters in either case. *)
Lemma lower_starts_with_ver (s : string) :
  (exists rest, lower s = "ver" +:+ rest) <->
  exists c1 c2 c3 rest,
    s = String c1 (String c2 (String c3 rest)) /\
    (c1 = "v"%char \/ c1 = "V"%char) /\
    (c2 = "e"%char \/ c2 = "E"%char) /\
    (c3 = "r"%char \/ c3 = "R"%char).
Proof.
  split.
  - intros [rest H].
    destruct s as [|c1 [|c2 [|c3 t]]]; try discriminate.
    injection H as H1 H2 H3 _.
    exists c1, c2, c3, t. split; [done|].
    split; [by apply (lower_ascii_letter c1)|].
    split; [by apply (lower_ascii_letter c2) | by apply (lower_ascii_letter c3)].
  - intros (c1 & c2 & c3 & t & -> & H1 & H2 & H3).
    exists (lower t). simpl.
    apply (proj1 (lower_ascii_letter c1)) in H1 as ->.
    apply (proj1 (proj2 (lower_ascii_letter c2))) in H2 as ->.
    apply (proj2 (proj2 (lower_ascii_letter c3))) in H3 as ->.
    reflexivity.
Qed.

(** C10. [QAWorkflow.__init__] picks the generator by a case-insensitive
    prefix test: the comprehension generator exactly when the lowercased
    [fragetyp] starts with ver, that is when the text starts with the letters
    v, e, r in either case, and the calculation generator for every other
    text, among them a misspelt Verständnisfragen, the empty text and
    arbitrary words. *)
Theorem generator_selected_by_ver_prefix (s : string) :
  (Frage.generator (Frage.QAWorkflow_of s) = Frage.COMPREHENSION_QA_GENERATOR
   <-> exists rest, lower s = "ver" +:+ rest) /\
  (Frage.generator (Frage.QAWorkflow_of s) = Frage.CALCULATION_QA_GENERATOR
   <-> ~ exists rest, lower s = "ver" +:+ rest) /\
  ((exists rest, lower s = "ver" +:+ rest) <->
   exists c1 c2 c3 rest,
     s = String c1 (String c2 (String c3 rest)) /\
     (c1 = "v"%char \/ c1 = "V"%char) /\
     (c2 = "e"%char \/ c2 = "E"%char) /\
     (c3 = "r"%char \/ c3 = "R"%char)) /\
  Frage.QAWorkflow_init (JStr s) = Ok (Frage.QAWorkflow_of s) /\
  Frage.generator (Frage.QAWorkflow_of "VERSTÄNDNISFRAGEN")
  = Frage.COMPREHENSION_QA_GENERATOR /\
  Frage.generator (Frage.QAWorkflow_of "Vertrag")
  = Frage.COMPREHENSION_QA_GENERATOR /\
  Frage.generator (Frage.QAWorkflow_of "Vrständnisfragen")
  = Frage.CALCULATION_QA_GENERATOR /\
  Frage.generator (Frage.QAWorkflow_of "")
  = Frage.CALCULATION_QA_GENERATOR /\
  Frage.generator (Frage.QAWorkflow_of "Rechenfragen")
  = Frage.CALCULATION_QA_GENERATOR /\
  Frage.generator (Frage.QAWorkflow_of " Verständnisfragen")
  = Frage.CALCULATION_QA_GENERATOR.
Proof.
  split; [|split; [|split; [apply lower_starts_with_ver
                          |repeat split; vm_compute; reflexivity]]];
    rewrite generator_cases; unfold startswith;
    pose proof (prefix_spec "ver" (lower s)) as P;
    destruct (String.prefix "ver" (lower s)); split; try done.
  - intros _. by apply P.
  - intros H. apply P in H. discriminate.
  - intros H. exfalso. apply H. by apply P.
  - intros _ H. apply P in H. discriminate.
Qed.

(** ** The generate-review loop *)

Lemma split_two {A} (a b : A) (t pre : list A) (c : A) (post : list A) :
  a :: b :: t = pre ++ c :: post ->
  (pre = [] /\ c = a /\ post = b :: t) \/
  (pre = [a] /\ c = b /\ post = t) \/
  (exists pre', pre = a :: b :: pre' /\ t = pre' ++ c :: post).
Proof.
  destruct pre as [|x [|y pre]]; simpl; intros E; simplify_eq; eauto 7.
Qed.

Section Loop.
Context {St : Type}.
Variable oracle : Frage.agent -> string -> St -> outcome Frage.content * St.
Variable lib : pylib.
Variable self : Frage.QAWorkflow.

Import Frage.

Hypothesis self_format :
  forall kw, py_format (instructions (generator self)) kw
             = Ok (instructions (generator self)).
Hypothesis self_not_reviewer : generator self <> QUESTION_REVIEWER.
Hypothesis self_not_retriever : generator self <> KNOWLEDGE_RETRIEVER.

(** One round, spelled out on the oracle's answers. *)
Lemma rounds_S (rq : request) (ctx : Frage.content) (n : nat)
    (fb : Frage.content) (last : option document) (st : St) :
  rounds oracle lib self rq ctx (S n) fb last st =
  let p := instructions (generator self) +:+ feedback_suffix lib fb in
  let '(g, s1) := oracle (generator self) p st in
  let cg := Call (generator self) p g in
  match g with
  | Raise e => (Raise e, s1, [cg])
  | Ok gc =>
      let d := qa_document lib gc in
      let '(r, s2) := oracle QUESTION_REVIEWER (review_prompt lib rq d) s1 in
      let cr := Call QUESTION_REVIEWER (review_prompt lib rq d) r in
      match r with
      | Raise e => (Raise e, s2, [cg; cr])
      | Ok rc =>
          match py_in "Review OK" rc with
          | Raise e => (Raise e, s2, [cg; cr])
          | Ok true => (Ok (doc_value d), s2, [cg; cr])
          | Ok false =>
              let '(x, s3, t) :=
                rounds oracle lib self rq ctx n rc (Some d) s2 in
              (x, s3, cg :: cr :: t)
          end
      end
  end.
Proof.
  cbn [rounds]. unfold bind, lift, agent_run, ret.
  rewrite self_format. cbv zeta.
  destruct (oracle (generator self) _ st) as [[gc|e] s1]; [|reflexivity].
  destruct (oracle QUESTION_REVIEWER _ s1) as [[rc|e] s2]; [|reflexivity].
  destruct (py_in "Review OK" rc) as [[|]|e]; try reflexivity.
  destruct (rounds oracle lib self rq ctx n rc _ s2) as [[x s3] t].
  reflexivity.
Qed.

(** Case analysis of one round: the names introduced are the generator's
    answer [gc], the reviewer's answer [rc] and the rest of the loop. *)
Ltac round_cases rq ctx n :=
  rewrite rounds_S; cbv zeta;
  let gc := fresh "gc" in let rc := fresh "rc" in
  let s1 := fresh "s1" in let s2 := fresh "s2" in
  let e := fresh "e" in let Hin := fresh "Hin" in
  match goal with
  | |- context [oracle (generator self) ?p ?st] =>
      destruct (oracle (generator self) p st) as [[gc|e] s1]
  end;
  [ match goal with
    | |- context [oracle QUESTION_REVIEWER ?p ?st] =>
        destruct (oracle QUESTION_REVIEWER p st) as [[rc|e] s2]
    end;
    [ destruct (py_in "Review OK" rc) as [[|]|e] eqn:Hin | ]
  | ].

Ltac count_calls :=
  unfold calls_of in *; cbn [snd calls_to call_agent] in *;
  rewrite ?(bool_decide_true (generator self = generator self)) in * by done;
  rewrite ?(bool_decide_true (QUESTION_REVIEWER = QUESTION_REVIEWER)) in *
    by done;
  rewrite ?(bool_decide_false (generator self = QUESTION_REVIEWER)) in *
    by done;
  rewrite ?(bool_decide_false (generator self = KNOWLEDGE_RETRIEVER)) in *
    by done;
  rewrite ?(bool_decide_false (QUESTION_REVIEWER = KNOWLEDGE_RETRIEVER)) in *
    by done;
  rewrite ?(bool_decide_false (QUESTION_REVIEWER = generator self)) in *
    by done.

Lemma rounds_calls_bounded (rq : request) (ctx : Frage.content) (n : nat) :
  forall fb last st,
    calls_to (generator self)
      (calls_of (rounds oracle lib self rq ctx n fb last st)) <= n /\
    calls_to QUESTION_REVIEWER
      (calls_of (rounds oracle lib self rq ctx n fb last st)) <= n /\
    calls_to KNOWLEDGE_RETRIEVER
      (calls_of (rounds oracle lib self rq ctx n fb last st)) = 0.
Proof.
  induction n as [|n IH]; intros fb last st.
  - destruct last; simpl; lia.
  - round_cases rq ctx n; try (count_calls; simpl; lia).
    specialize (IH rc (Some (qa_document lib gc)) s2).
    destruct (rounds oracle lib self rq ctx n rc _ s2) as [[x s3] t].
    count_calls. simpl. lia.
Qed.

(** A batch that the loop returns is the one of the last generator call. *)
Lemma rounds_returns_last_batch (rq : request) (ctx : Frage.content) (n : nat) :
  forall fb last st j,
    result_of (rounds oracle lib self rq ctx n fb last st) = Ok j ->
    (calls_of (rounds oracle lib self rq ctx n fb last st) = [] /\
     exists d, last = Some d /\ j = doc_value d) \/
    (exists pre p g pr r,
        calls_of (rounds oracle lib self rq ctx n fb last st)
        = pre ++ [Call (generator self) p (Ok g);
                  Call QUESTION_REVIEWER pr (Ok r)] /\
        j = doc_value (qa_document lib g)).
Proof.
  induction n as [|n IH]; intros fb last st j.
  - destruct last as [d|]; simpl; [|discriminate].
    intros [= <-]. left. eauto.
  - round_cases rq ctx n; unfold result_of, calls_of; simpl; try discriminate.
    + intros [= <-]. right. by eexists [], _, gc, _, rc.
    + specialize (IH rc (Some (qa_document lib gc)) s2 j).
      destruct (rounds oracle lib self rq ctx n rc _ s2) as [[x s3] t].
      unfold result_of, calls_of in *. simpl in *. intros ->.
      destruct (IH eq_refl) as [[-> (d & [= <-] & ->)]
                               |(pre & p & g & pr & r & -> & ->)]; right.
      * by eexists [], _, gc, _, rc.
      * eexists (_ :: _ :: pre), p, g, pr, r. by split.
Qed.

(** When no step fails, the loop returns, approved or not. *)
Lemma rounds_answered_returns (rq : request) (ctx : Frage.content) (n : nat) :
  forall fb last st,
    (n = 0 -> last <> None) ->
    Forall (fun c => answered c = true)
      (calls_of (rounds oracle lib self rq ctx n fb last st)) ->
    exists j, result_of (rounds oracle lib self rq ctx n fb last st) = Ok j.
Proof.
  induction n as [|n IH]; intros fb last st Hlast.
  - destruct last as [d|]; [|by destruct Hlast]. simpl. eauto.
  - round_cases rq ctx n; unfold result_of, calls_of; simpl; intros HF.
    + eauto.
    + specialize (IH rc (Some (qa_document lib gc)) s2).
      destruct (rounds oracle lib self rq ctx n rc _ s2) as [[x s3] t].
      unfold result_of, calls_of in *. simpl in *.
      apply IH; [done|]. by inversion HF as [|? ? _ HF']; inversion HF'.
    + inversion HF as [|? ? _ HF']; inversion HF' as [|? ? Hr _].
      unfold answered in Hr. simpl in Hr.
      rewrite Hin in Hr. discriminate.
    + inversion HF as [|? ? _ HF']; inversion HF' as [|? ? Hr _].
      discriminate.
    + inversion HF as [|? ? Hg _]. discriminate.
Qed.

(** Nothing is called after an approving review, and the loop returns. *)
Lemma rounds_stop_at_approval (rq : request) (ctx : Frage.content) (n : nat) :
  forall fb last st pre c post,
    calls_of (rounds oracle lib self rq ctx n fb last st) = pre ++ c :: post ->
    call_agent c = QUESTION_REVIEWER ->
    approves (call_result c) = true ->
    post = [] /\
    exists j, result_of (rounds oracle lib self rq ctx n fb last st) = Ok j.
Proof.
  induction n as [|n IH]; intros fb last st pre c post.
  - destruct last; simpl; by destruct pre.
  - round_cases rq ctx n; unfold result_of, calls_of; simpl.
    + intros E Hc Ha.
      destruct (split_two _ _ _ _ _ _ E)
        as [(-> & -> & ->) | [(-> & -> & ->) | (pre' & -> & Ht)]].
      * by destruct self_not_reviewer.
      * eauto.
      * by destruct pre'.
    + specialize (IH rc (Some (qa_document lib gc)) s2).
      destruct (rounds oracle lib self rq ctx n rc _ s2) as [[x s3] t].
      unfold result_of, calls_of in IH. simpl in IH.
      intros E Hc Ha.
      destruct (split_two _ _ _ _ _ _ E)
        as [(-> & -> & ->) | [(-> & -> & ->) | (pre' & -> & Ht)]].
      * by destruct self_not_reviewer.
      * simpl in Ha. by rewrite Hin in Ha.
      * by eapply IH.
    + intros E Hc Ha.
      destruct (split_two _ _ _ _ _ _ E)
        as [(-> & -> & ->) | [(-> & -> & ->) | (pre' & -> & Ht)]].
      * by destruct self_not_reviewer.
      * simpl in Ha. by rewrite Hin in Ha.
      * by destruct pre'.
    + intros E Hc Ha.
      destruct (split_two _ _ _ _ _ _ E)
        as [(-> & -> & ->) | [(-> & -> & ->) | (pre' & -> & Ht)]].
      * by destruct self_not_reviewer.
      * discriminate.
      * by destruct pre'.
    + intros E Hc Ha. destruct pre as [|a pre].
      * injection E as <- <-. by destruct self_not_reviewer.
      * injection E as <- E. by destruct pre.
Qed.

(** A round opens with the generator, asked with the instructions and
    the feedback section of the review before. *)
Lemma rounds_first_call (rq : request) (ctx : Frage.content) (n : nat)
    (fb : Frage.content) (last : option document) (st : St) :
  exists res t,
    calls_of (rounds oracle lib self rq ctx (S n) fb last st)
    = Call (generator self)
        (instructions (generator self) +:+ feedback_suffix lib fb) res :: t.
Proof.
  round_cases rq ctx n; unfold calls_of; cbn [snd]; eauto.
  destruct (rounds oracle lib self rq ctx n rc _ s2) as [[x s3] t].
  cbn [snd]. eauto.
Qed.

(** What the loop does with a review that came back: it stands right after
    the generator's batch it reviewed; holding the mark it ends the loop,
    which returns that batch; searchable without the mark it is the
    feedback of the next round, or the loop has used up its rounds and
    returns the batch; not searchable it ends the loop with the error of
    the test. *)
Lemma rounds_review_classified (rq : request) (ctx : Frage.content)
    (n : nat) :
  forall fb last st pre pr r post,
    calls_of (rounds oracle lib self rq ctx n fb last st)
    = pre ++ Call QUESTION_REVIEWER pr (Ok r) :: post ->
    exists pre' p g,
      pre = pre' ++ [Call (generator self) p (Ok g)] /\
      pr = review_prompt lib rq (qa_document lib g) /\
      match py_in "Review OK" r with
      | Ok true =>
          post = [] /\
          result_of (rounds oracle lib self rq ctx n fb last st)
          = Ok (doc_value (qa_document lib g))
      | Ok false =>
          (post = [] /\
           result_of (rounds oracle lib self rq ctx n fb last st)
           = Ok (doc_value (qa_document lib g)) /\
           calls_to QUESTION_REVIEWER
             (calls_of (rounds oracle lib self rq ctx n fb last st)) = n) \/
          (exists res post',
              post = Call (generator self)
                       (instructions (generator self)
                        +:+ feedback_suffix lib r) res :: post')
      | Raise e =>
          post = [] /\
          result_of (rounds oracle lib self rq ctx n fb last st) = Raise e
      end.
Proof.
  induction n as [|n IH]; intros fb last st pre pr r post.
  - destruct last; simpl; by destruct pre.
  - pose proof (rounds_first_call rq ctx) as First.
    round_cases rq ctx n; unfold result_of, calls_of; cbn [fst snd].
    + intros E.
      destruct (split_two _ _ _ _ _ _ E)
        as [(-> & Hc & ->) | [(-> & Hc & ->) | (pre' & -> & Ht)]].
      * injection Hc as Hc _ _. by destruct self_not_reviewer.
      * injection Hc as -> ->. eexists [], _, gc.
        split; [done|]. split; [done|]. by rewrite Hin.
      * by destruct pre'.
    + specialize (IH rc (Some (qa_document lib gc)) s2).
      destruct n as [|m].
      * cbn [rounds ret]. intros E.
        destruct (split_two _ _ _ _ _ _ E)
          as [(-> & Hc & ->) | [(-> & Hc & ->) | (pre' & -> & Ht)]].
        -- injection Hc as Hc _ _. by destruct self_not_reviewer.
        -- injection Hc as -> ->. eexists [], _, gc.
           split; [done|]. split; [done|]. rewrite Hin. left.
           split; [done|]. split; [done|]. by count_calls.
        -- by destruct pre'.
      * destruct (First m rc (Some (qa_document lib gc)) s2)
          as (res & t' & Ht').
        destruct (rounds oracle lib self rq ctx (S m) rc _ s2)
          as [[x s3] t].
        unfold result_of, calls_of in *. cbn [fst snd] in *. intros E.
        destruct (split_two _ _ _ _ _ _ E)
          as [(-> & Hc & ->) | [(-> & Hc & ->) | (pre' & -> & Ht)]].
        -- injection Hc as Hc _ _. by destruct self_not_reviewer.
        -- injection Hc as -> ->. eexists [], _, gc.
           split; [done|]. split; [done|]. rewrite Hin. right.
           subst t. eauto.
        -- destruct (IH _ _ _ _ Ht) as (pre0 & p & g & -> & -> & H).
           eexists (_ :: _ :: pre0), p, g.
           split; [done|]. split; [done|].
           destruct (py_in "Review OK" r) as [[|]|e']; [done| |done].
           destruct H as [(-> & -> & Hn)|H]; [left|by right].
           split; [done|]. split; [done|].
           rewrite Ht. count_calls. rewrite <- Hn, Ht. done.
    + intros E.
      destruct (split_two _ _ _ _ _ _ E)
        as [(-> & Hc & ->) | [(-> & Hc & ->) | (pre' & -> & Ht)]].
      * injection Hc as Hc _ _. by destruct self_not_reviewer.
      * injection Hc as -> ->. eexists [], _, gc.
        split; [done|]. split; [done|]. by rewrite Hin.
      * by destruct pre'.
    + intros E.
      destruct (split_two _ _ _ _ _ _ E)
        as [(-> & Hc & ->) | [(-> & Hc & ->) | (pre' & -> & Ht)]].
      * injection Hc as Hc _ _. by destruct self_not_reviewer.
      * discriminate.
      * by destruct pre'.
    + intros E. destruct pre as [|a pre].
      * injection E as Hc _ _. by destruct self_not_reviewer.
      * injection E as _ E. by destruct pre.
Qed.

(** Nothing in the loop depends on the requested count. *)
Lemma rounds_ignores_num_qas (rq rq' : request) (ctx : content) (n : nat) :
  subjects rq = subjects rq' -> keywords rq = keywords rq' ->
  difficulty rq = difficulty rq' -> audience rq = audience rq' ->
  forall fb last st,
    rounds oracle lib self rq ctx n fb last st
    = rounds oracle lib self rq' ctx n fb last st.
Proof.
  intros _ _ Hd Ha. induction n as [|n IH]; intros fb last st; [done|].
  rewrite !rounds_S. cbv zeta.
  assert (Hr : forall d, review_prompt lib rq d = review_prompt lib rq' d)
    by (intros d; unfold review_prompt; by rewrite Hd, Ha).
  destruct (oracle (generator self) _ st) as [[gc|e] s1]; [|done].
  rewrite Hr.
  destruct (oracle QUESTION_REVIEWER _ s1) as [[rc|e] s2]; [|done].
  destruct (py_in "Review OK" rc) as [[|]|e]; try done.
  by rewrite IH.
Qed.

(** [run] asks the retriever once, first, and then loops. *)
Lemma run_rounds_eq (n : nat) (rq : request) (st : St) :
  exists q,
    py_format RETRIEVER_INSTRUCTIONS [("query", search_query lib rq)] = Ok q /\
    run_rounds oracle lib n self rq st =
    let '(c, s1) := oracle KNOWLEDGE_RETRIEVER q st in
    match c with
    | Raise e => (Raise e, s1, [Call KNOWLEDGE_RETRIEVER q c])
    | Ok ctx =>
        let '(x, s2, t) :=
          rounds oracle lib self rq ctx n (CValue JNull) None s1 in
        (x, s2, Call KNOWLEDGE_RETRIEVER q c :: t)
    end.
Proof.
  destruct (retriever_prompt_format (search_query lib rq))
    as (pre & post & _ & _ & _ & E).
  eexists. split; [exact E|].
  unfold run_rounds, bind, lift, agent_run. cbn [instructions]. rewrite E.
  destruct (oracle KNOWLEDGE_RETRIEVER _ st) as [[ctx|e] s1]; [|reflexivity].
  destruct (rounds oracle lib self rq ctx n _ None s1) as [[x s2] t].
  reflexivity.
Qed.

End Loop.

Lemma append_empty_r (s : string) : s +:+ "" = s.
Proof. induction s as [|c s IH]; [reflexivity|]. by rewrite append_String, IH. Qed.

Lemma snoc_two_inj {A} (pre pre' : list A) (a b c : A) :
  pre' ++ [a; b] = pre ++ [c] -> pre = pre' ++ [a] /\ c = b.
Proof.
  intros E.
  assert (E' : (pre' ++ [a]) ++ [b] = pre ++ [c])
    by (rewrite <- E, <- app_assoc; reflexivity).
  apply app_inj_tail in E' as [<- <-]. by split.
Qed.

(** The requested count has no influence on what [run] does: the same
    calls, the same result, whatever [num_qas]. *)
Lemma run_ignores_num_qas {St : Type}
    (oracle : Frage.agent -> string -> St -> outcome Frage.content * St)
    (lib : pylib) (s : string) (rq : Frage.request) (k : Z) (st : St) :
  Frage.run oracle lib (Frage.QAWorkflow_of s) rq st
  = Frage.run oracle lib (Frage.QAWorkflow_of s)
      {| Frage.subjects := Frage.subjects rq;
         Frage.keywords := Frage.keywords rq;
         Frage.num_qas := k;
         Frage.difficulty := Frage.difficulty rq;
         Frage.audience := Frage.audience rq |} st.
Proof.
  unfold Frage.run, Frage.run_rounds, bind, lift, agent_run.
  change (Frage.search_query lib _) with (Frage.search_query lib rq).
  destruct (py_format _ _) as [q|e]; [|done].
  destruct (oracle Frage.KNOWLEDGE_RETRIEVER q st) as [[ctx|e] s1]; [|done].
  by rewrite (rounds_ignores_num_qas oracle lib (Frage.QAWorkflow_of s)
                (generator_format s) rq
                {| Frage.subjects := Frage.subjects rq;
                   Frage.keywords := Frage.keywords rq;
                   Frage.num_qas := k;
                   Frage.difficulty := Frage.difficulty rq;
                   Frage.audience := Frage.audience rq |}).
Qed.

(** ** The claims about [QAWorkflow.run] *)

(** C2. [QAWorkflow.run] runs its generate-review loop at most [max_rounds]
    times (the class sets [MAX_ROUNDS = 1]): the generator and the reviewer
    are each called at most [max_rounds] times; an approving review is the
    last call made and [run] returns the batch generated just before it;
    and when no step fails [run] returns the batch of the last generator
    call, approved or not, instead of raising. *)
Theorem run_bounded_and_returns_last_batch {St : Type}
    (oracle : Frage.agent -> string -> St -> outcome Frage.content * St)
    (lib : pylib) (s : string) (rq : Frage.request) (n : nat) (st : St) :
  1 <= n ->
  let self := Frage.QAWorkflow_of s in
  let x := Frage.run_rounds oracle lib n self rq st in
  Frage.calls_to (Frage.generator self) (calls_of x) <= n /\
  Frage.calls_to Frage.QUESTION_REVIEWER (calls_of x) <= n /\
  (forall pre c post,
      calls_of x = pre ++ c :: post ->
      call_agent c = Frage.QUESTION_REVIEWER ->
      Frage.approves (call_result c) = true ->
      post = [] /\
      exists pre' p g,
        pre = pre' ++ [Call (Frage.generator self) p (Ok g)] /\
        result_of x = Ok (doc_value (Frage.qa_document lib g))) /\
  (Forall (fun c => Frage.answered c = true) (calls_of x) ->
   exists pre p g pr r,
     calls_of x = pre ++ [Call (Frage.generator self) p (Ok g);
                          Call Frage.QUESTION_REVIEWER pr (Ok r)] /\
     result_of x = Ok (doc_value (Frage.qa_document lib g))).
Proof.
  intros Hn self x.
  destruct (generator_not_other s) as [Hret Hrev].
  pose proof (generator_format s) as Hfmt.
  destruct (run_rounds_eq oracle lib self n rq st) as (q & _ & E).
  subst x. rewrite E. clear E.
  destruct (oracle Frage.KNOWLEDGE_RETRIEVER q st) as [[ctx|e] s1].
  - pose proof (rounds_calls_bounded oracle lib self Hfmt Hrev Hret rq ctx n
                  (CValue JNull) None s1) as (B1 & B2 & _).
    pose proof (rounds_returns_last_batch oracle lib self Hfmt rq ctx n
                  (CValue JNull) None s1) as L.
    pose proof (rounds_answered_returns oracle lib self Hfmt rq ctx n
                  (CValue JNull) None s1) as A.
    pose proof (rounds_stop_at_approval oracle lib self Hfmt Hrev rq ctx n
                  (CValue JNull) None s1) as P.
    destruct (Frage.rounds oracle lib self rq ctx n _ None s1) as [[y s2] t].
    unfold calls_of, result_of in *. simpl in *.
    rewrite ?(bool_decide_false (Frage.KNOWLEDGE_RETRIEVER = _)) by done.
    split; [simpl; lia|]. split; [simpl; lia|].
    split; [intros pre c post H Hc Ha | intros HF].
    + destruct pre as [|a pre]; simpl in H; injection H as <- Ht;
        [discriminate|].
      destruct (P pre c post Ht Hc Ha) as (-> & j & ->).
      split; [done|].
      destruct (L j eq_refl) as [[-> _]|(pre' & p & g & pr & r & Et & ->)];
        [by destruct pre|].
      rewrite Et in Ht. apply snoc_two_inj in Ht as [-> _].
      by eexists (_ :: pre'), p, g.
    + inversion HF as [|? ? _ HF']. subst.
      destruct (A ltac:(lia) HF') as [j ->].
      destruct (L j eq_refl) as [[-> (d & [=] & _)]
                                |(pre' & p & g & pr & r & -> & ->)].
      by eexists (_ :: pre'), p, g, pr, r.
  - unfold calls_of, result_of. simpl.
    rewrite ?(bool_decide_false (Frage.KNOWLEDGE_RETRIEVER = _)) by done.
    split; [simpl; lia|]. split; [simpl; lia|].
    split; [intros pre c post H Hc Ha | intros HF].
    + destruct pre as [|a pre]; simpl in H; injection H as <- Ht;
        [discriminate | by destruct pre].
    + inversion HF as [|? ? Hc _]. discriminate.
Qed.

(** With the class value of [MAX_ROUNDS] and a reviewer that does not approve,
    [run] still returns the generated batch. *)
Lemma run_bounded_and_returns_last_batch_witness :
  1 <= Frage.MAX_ROUNDS /\
  exists pre p g pr r,
    calls_of (Frage.run scripted sample_lib
                (Frage.QAWorkflow_of "Verständnisfragen") sample_request
                script_unapproved)
    = pre ++ [Call Frage.COMPREHENSION_QA_GENERATOR p (Ok g);
              Call Frage.QUESTION_REVIEWER pr (Ok r)] /\
    result_of (Frage.run scripted sample_lib
                 (Frage.QAWorkflow_of "Verständnisfragen") sample_request
                 script_unapproved)
    = Ok (doc_value (Frage.qa_document sample_lib g)).
Proof.
  split; [apply le_n|].
  apply (run_bounded_and_returns_last_batch scripted sample_lib
           "Verständnisfragen" sample_request Frage.MAX_ROUNDS
           script_unapproved (le_n 1)).
  vm_compute. repeat constructor.
Defined.

(** C3 as stated fails: the generator answers with one question where three
    were asked for, the reviewer approves, and [run] returns that batch. *)
Lemma batch_shorter_than_requested :
  Frage.num_qas sample_request = 3%Z /\
  ~ (forall j,
        result_of (Frage.run scripted sample_lib
                     (Frage.QAWorkflow_of "Verständnisfragen") sample_request
                     script_approved) = Ok j ->
        batch_length j = Some 3).
Proof.
  split; [reflexivity|]. intros H.
  specialize (H _ eq_refl). vm_compute in H. discriminate.
Qed.

(** C3, amended. A batch that [run] returns is the answer of its last
    generator call, as it came: the coordinator neither shortens nor
    extends it and does not compare its length with [num_qas]; the batch of
    a [QuestionResponse] has as many entries as that response has
    questions. *)
Theorem returned_batch_is_generator_output {St : Type}
    (oracle : Frage.agent -> string -> St -> outcome Frage.content * St)
    (lib : pylib) (s : string) (rq : Frage.request) (n : nat) (st : St)
    (j : json) :
  let self := Frage.QAWorkflow_of s in
  let x := Frage.run_rounds oracle lib n self rq st in
  result_of x = Ok j ->
  exists pre p g pr r,
    calls_of x = pre ++ [Call (Frage.generator self) p (Ok g);
                         Call Frage.QUESTION_REVIEWER pr (Ok r)] /\
    j = doc_value (Frage.qa_document lib g) /\
    (forall qr, g = CModel qr ->
                batch_length j = Some (length (questions qr))).
Proof.
  intros self x. subst x.
  pose proof (generator_format s) as Hfmt.
  destruct (run_rounds_eq oracle lib self n rq st) as (q & _ & ->).
  destruct (oracle Frage.KNOWLEDGE_RETRIEVER q st) as [[ctx|e] s1];
    [|discriminate].
  pose proof (rounds_returns_last_batch oracle lib self Hfmt rq ctx n
                (CValue JNull) None s1 j) as L.
  destruct (Frage.rounds oracle lib self rq ctx n _ None s1) as [[y s2] t].
  unfold calls_of, result_of in *. simpl in *. intros ->.
  destruct (L eq_refl) as [[-> (d & [=] & _)]
                          |(pre' & p & g & pr & r & -> & ->)].
  eexists (_ :: pre'), p, g, pr, r. split; [done|]. split; [done|].
  intros qr ->. simpl. by rewrite length_map.
Qed.

(** The batch of an approved sample run is the generator's answer. *)
Lemma returned_batch_is_generator_output_witness :
  exists pre p g pr r,
    calls_of (Frage.run scripted sample_lib
                (Frage.QAWorkflow_of "Rechenfragen") sample_request
                script_approved)
    = pre ++ [Call Frage.CALCULATION_QA_GENERATOR p (Ok g);
              Call Frage.QUESTION_REVIEWER pr (Ok r)] /\
    model_dump (MQuestionResponse {| questions := [sample_question] |})
    = doc_value (Frage.qa_document sample_lib g) /\
    (forall qr, g = CModel qr ->
                batch_length
                  (model_dump
                     (MQuestionResponse {| questions := [sample_question] |}))
                = Some (length (questions qr))).
Proof.
  apply (returned_batch_is_generator_output scripted sample_lib
           "Rechenfragen" sample_request Frage.MAX_ROUNDS script_approved
           (model_dump (MQuestionResponse {| questions := [sample_question] |}))).
  vm_compute. reflexivity.
Defined.

(** C4 as stated fails: an answer of the reviewer that is neither of the
    two outcomes is no error.  The empty text is no approval and gives the
    generator no feedback, and [run] returns the batch; a text that
    criticises a question and still holds the mark is taken for approval,
    and the second round that was left is not run. *)
Lemma neither_outcome_is_no_error :
  result_of (Frage.run scripted sample_lib (Frage.QAWorkflow_of "Rechenfragen")
               sample_request
               [Ok sample_context; Ok sample_batch; Ok (CValue (JStr ""))])
  = Ok (doc_value (Frage.qa_document sample_lib sample_batch)) /\
  ~ (forall r : Frage.content,
        r <> CValue (JStr "Review OK") ->
        Frage.feedback_suffix sample_lib r = "" ->
        forall j,
          result_of (Frage.run scripted sample_lib
                       (Frage.QAWorkflow_of "Rechenfragen") sample_request
                       [Ok sample_context; Ok sample_batch; Ok r])
          <> Ok j) /\
  (let x := Frage.run_rounds scripted sample_lib 2
              (Frage.QAWorkflow_of "Rechenfragen") sample_request
              [Ok sample_context; Ok sample_batch;
               Ok (CValue (JStr "Frage 2 ist unklar, sonst Review OK"));
               Ok sample_batch; Ok (CValue (JStr "Review OK"))] in
   result_of x = Ok (doc_value (Frage.qa_document sample_lib sample_batch)) /\
   Frage.calls_to Frage.CALCULATION_QA_GENERATOR (calls_of x) = 1 /\
   last (calls_of x)
   = Some (Call Frage.QUESTION_REVIEWER
             (Frage.review_prompt sample_lib sample_request
                (Frage.qa_document sample_lib sample_batch))
             (Ok (CValue (JStr "Frage 2 ist unklar, sonst Review OK"))))).
Proof.
  split; [vm_compute; reflexivity|].
  split; [|cbv zeta; split_and!; vm_compute; reflexivity].
  intros H.
  apply (H (CValue (JStr "")) ltac:(discriminate) eq_refl
           (doc_value (Frage.qa_document sample_lib sample_batch))).
  vm_compute. reflexivity.
Qed.

(** C4, amended. The reviewer's answer is classified by one test, whether
    it holds the mark Review OK, and every answer that can be searched
    falls on one side.  A review in the log of [run] stands right after the
    batch it reviewed.  If it holds the mark, it is the last call and [run]
    returns that batch.  If it can be searched and does not hold the mark,
    it is feedback: the next call goes to the generator with the
    instructions followed by the feedback section of this review, or no
    round is left and [run] returns the batch.  Only an answer that cannot
    be searched is an error: the test raises, and so does [run].  A text
    is searched for the mark as a substring and is never an error; its
    feedback section holds the text as it is, and is absent for the empty
    text; a model holds no mark; [None] cannot be searched. *)
Theorem review_classified_by_the_mark {St : Type}
    (oracle : Frage.agent -> string -> St -> outcome Frage.content * St)
    (lib : pylib) (s : string) (rq : Frage.request) (n : nat) (st : St)
    (pre post : list (call Frage.agent QuestionResponse))
    (pr : string) (r : Frage.content) :
  let self := Frage.QAWorkflow_of s in
  let x := Frage.run_rounds oracle lib n self rq st in
  calls_of x = pre ++ Call Frage.QUESTION_REVIEWER pr (Ok r) :: post ->
  (exists pre' p g,
      pre = pre' ++ [Call (Frage.generator self) p (Ok g)] /\
      pr = Frage.review_prompt lib rq (Frage.qa_document lib g) /\
      match py_in "Review OK" r with
      | Ok true =>
          post = [] /\
          result_of x = Ok (doc_value (Frage.qa_document lib g))
      | Ok false =>
          (post = [] /\
           result_of x = Ok (doc_value (Frage.qa_document lib g)) /\
           Frage.calls_to Frage.QUESTION_REVIEWER (calls_of x) = n) \/
          (exists res post',
              post = Call (Frage.generator self)
                       (Frage.instructions (Frage.generator self)
                        +:+ Frage.feedback_suffix lib r) res :: post')
      | Raise e => post = [] /\ result_of x = Raise e
      end) /\
  (forall t, r = CValue (JStr t) ->
     py_in "Review OK" r = Ok (contains "Review OK" t) /\
     Frage.feedback_suffix lib r
     = if String.eqb t "" then ""
       else newline +:+ "Vorheriges Feedback:" +:+ newline +:+ t
            +:+ newline) /\
  (forall m, r = CModel m -> py_in "Review OK" r = Ok false) /\
  (r = CValue JNull ->
   py_in "Review OK" r
   = Raise (Exn TypeError "argument of type 'NoneType' is not iterable")).
Proof.
  intros self x E.
  split; [|split; [|split]].
  2:{ intros t ->. split; [reflexivity|].
      unfold Frage.feedback_suffix. cbn.
      by destruct (String.eqb t ""). }
  2:{ by intros m ->. }
  2:{ by intros ->. }
  subst x. destruct (generator_not_other s) as [Hret Hrev].
  pose proof (generator_format s) as Hfmt.
  destruct (run_rounds_eq oracle lib self n rq st) as (q & _ & R).
  fold self in Hret, Hrev, Hfmt. rewrite R in E |- *. clear R.
  destruct (oracle Frage.KNOWLEDGE_RETRIEVER q st) as [[ctx|e0] s1].
  - pose proof (rounds_review_classified oracle lib self Hfmt Hrev rq ctx n
                  (CValue JNull) None s1) as L.
    destruct (Frage.rounds oracle lib self rq ctx n _ None s1)
      as [[y s2] t].
    unfold result_of, calls_of in *. cbn [fst snd] in *.
    destruct pre as [|c0 pre0]; [discriminate|]. injection E as <- E.
    destruct (L pre0 pr r post E) as (pre' & p & g & -> & -> & H).
    eexists (_ :: pre'), p, g. split; [done|]. split; [done|].
    destruct (py_in "Review OK" r) as [[|]|e']; [done| |done].
    destruct H as [(-> & -> & Hn)|H]; [left|by right].
    split; [done|]. split; [done|].
    cbn [Frage.calls_to call_agent].
    rewrite (bool_decide_false (Frage.KNOWLEDGE_RETRIEVER = _)) by done.
    exact Hn.
  - unfold calls_of in E. cbn [snd] in E.
    destruct pre as [|c0 [|c1 pre0]]; discriminate.
Qed.

(** Two rounds: the first review is feedback and opens the second round,
    whose generator prompt carries it. *)
Lemma review_classified_by_the_mark_witness :
  exists res post',
    skipn 3 (calls_of (Frage.run_rounds scripted sample_lib 2
                         (Frage.QAWorkflow_of "Verständnisfragen")
                         sample_request script_two_rounds))
    = Call Frage.COMPREHENSION_QA_GENERATOR
        (Frage.COMPREHENSION_INSTRUCTIONS
         +:+ newline +:+ "Vorheriges Feedback:" +:+ newline
         +:+ "Frage 1 ist zu allgemein formuliert." +:+ newline) res
      :: post'.
Proof.
  pose (x := Frage.run_rounds scripted sample_lib 2
               (Frage.QAWorkflow_of "Verständnisfragen") sample_request
               script_two_rounds).
  destruct (review_classified_by_the_mark scripted sample_lib
              "Verständnisfragen" sample_request 2 script_two_rounds
              (firstn 2 (calls_of x)) (skipn 3 (calls_of x))
              (Frage.review_prompt sample_lib sample_request
                 (Frage.qa_document sample_lib sample_batch))
              sample_feedback)
    as [(pre' & p & g & _ & _ & H) _].
  { vm_compute. reflexivity. }
  cbn [py_in sample_feedback] in H.
  destruct H as [(H & _)|(res & post' & H)].
  - vm_compute in H. discriminate.
  - exists res, post'. exact H.
Defined.

(** C5 on the code.  [run] asks the retriever exactly once, first, with the
    template filled with the stripped [subjects keywords] query.  But the
    generator's prompt is the generator's instructions as they stand: they
    hold no replacement field, so [format] leaves out the retrieved context
    (and the count, the difficulty and the audience with it). *)
Theorem generator_prompt_lacks_context {St : Type}
    (oracle : Frage.agent -> string -> St -> outcome Frage.content * St)
    (lib : pylib) (s : string) (rq : Frage.request) (st : St) :
  let self := Frage.QAWorkflow_of s in
  let x := Frage.run oracle lib self rq st in
  (exists pre post tail,
      Frage.RETRIEVER_INSTRUCTIONS = pre +:+ "{query}" +:+ post /\
      calls_of x
      = Call Frage.KNOWLEDGE_RETRIEVER
          (pre +:+ Frage.search_query lib rq +:+ post)
          (oracle Frage.KNOWLEDGE_RETRIEVER
             (pre +:+ Frage.search_query lib rq +:+ post) st).1 :: tail /\
      Frage.calls_to Frage.KNOWLEDGE_RETRIEVER tail = 0) /\
  Forall (fun c => call_agent c = Frage.generator self ->
                   call_prompt c = Frage.instructions (Frage.generator self))
         (calls_of x) /\
  brace_free (Frage.instructions (Frage.generator self)) = true /\
  contains "Varianz"
    (Frage.instructions (Frage.generator self)) = false /\
  map call_prompt
    (filter (fun c => call_agent c = Frage.COMPREHENSION_QA_GENERATOR)
       (calls_of (Frage.run scripted sample_lib
                    (Frage.QAWorkflow_of "Verständnisfragen") sample_request
                    script_approved)))
  = [Frage.COMPREHENSION_INSTRUCTIONS].
Proof.
  intros self x.
  destruct (generator_not_other s) as [Hret Hrev].
  pose proof (generator_format s) as Hfmt.
  assert (Hbf : brace_free (Frage.instructions (Frage.generator self)) = true
                /\ contains "Varianz"
                     (Frage.instructions (Frage.generator self)) = false).
  { subst self. rewrite generator_cases.
    destruct (startswith (lower s) "ver"); split; vm_compute; reflexivity. }
  destruct Hbf as [Hbf Hvar].
  split; [|split; [|split; [exact Hbf|split; [exact Hvar|]]]].
  - destruct (retriever_prompt_format (Frage.search_query lib rq))
      as (pre & post & E & _ & _ & Eq).
    exists pre, post.
    destruct (run_rounds_eq oracle lib self Frage.MAX_ROUNDS rq st)
      as (q & Eq' & Ex).
    rewrite Eq in Eq'. injection Eq' as <-.
    subst x. unfold Frage.run. rewrite Ex. clear Ex.
    destruct (oracle Frage.KNOWLEDGE_RETRIEVER _ st) as [[ctx|e] s1].
    + pose proof (rounds_calls_bounded oracle lib self Hfmt Hrev Hret rq ctx
                    Frage.MAX_ROUNDS (CValue JNull) None s1) as (_ & _ & B).
      destruct (Frage.rounds oracle lib self rq ctx _ _ None s1)
        as [[y s2] t].
      exists t. by repeat split.
    + exists []. by repeat split.
  - destruct (run_rounds_eq oracle lib self Frage.MAX_ROUNDS rq st)
      as (q & _ & Ex).
    subst x. unfold Frage.run. rewrite Ex. clear Ex.
    destruct (oracle Frage.KNOWLEDGE_RETRIEVER q st) as [[ctx|e] s1];
      [|by repeat constructor].
    unfold Frage.MAX_ROUNDS.
    rewrite (rounds_S oracle lib self Hfmt). cbv zeta.
    assert (Ep : Frage.instructions (Frage.generator self)
                 +:+ Frage.feedback_suffix lib (CValue JNull)
                 = Frage.instructions (Frage.generator self))
      by apply append_empty_r.
    rewrite Ep.
    destruct (oracle (Frage.generator self) _ s1) as [[gc|e] s2];
      [|by repeat constructor].
    destruct (oracle Frage.QUESTION_REVIEWER _ s2) as [[rc|e] s3];
      [|by repeat constructor].
    destruct (py_in "Review OK" rc) as [[|]|e]; by repeat constructor.
  - vm_compute. reflexivity.
Qed.

(** ** Facts about the effect monad *)

Section MonadFacts.
Context {Ag Mo St : Type}.
Implicit Types st : St.

Lemma bind_lift_eq {A B} (o : outcome A) (f : A -> M Ag Mo St B) st :
  bind (lift o) f st
  = match o with Ok a => f a st | Raise e => (Raise e, st, []) end.
Proof.
  unfold bind, lift. destruct o as [a|e]; [|reflexivity].
  by destruct (f a st) as [[r s'] t].
Qed.

Lemma calls_bind_Forall {A B} (P : call Ag Mo -> Prop)
    (m : M Ag Mo St A) (f : A -> M Ag Mo St B) st :
  Forall P (calls_of (m st)) ->
  (forall a s', Forall P (calls_of (f a s'))) ->
  Forall P (calls_of (bind m f st)).
Proof.
  intros Hm Hf. unfold bind, calls_of in *.
  destruct (m st) as [[[a|e] s1] t1]; simpl in *; [|done].
  specialize (Hf a s1). destruct (f a s1) as [[r2 s2] t2]. simpl in *.
  by apply Forall_app.
Qed.

Lemma calls_lift {A} (o : outcome A) st :
  calls_of (lift (Ag := Ag) (Mo := Mo) o st) = [].
Proof. reflexivity. Qed.

(** A handler that only builds a response turns every exception into that
    response and calls no agent of its own. *)
Lemma try_except_ret {A} (m : M Ag Mo St A) (k : exn -> A) st :
  result_of (try_except m (fun e => ret (k e)) st)
  = Ok (match result_of (m st) with Ok a => a | Raise e => k e end) /\
  calls_of (try_except m (fun e => ret (k e)) st) = calls_of (m st).
Proof.
  unfold try_except, ret, result_of, calls_of.
  destruct (m st) as [[[a|e] s1] t1]; simpl; [done|].
  by rewrite app_nil_r.
Qed.

Lemma bind_ok_inv {A B} (m : M Ag Mo St A) (f : A -> M Ag Mo St B) st
    (b : B) :
  result_of (bind m f st) = Ok b ->
  exists a s1, result_of (m st) = Ok a /\ result_of (f a s1) = Ok b.
Proof.
  unfold bind, result_of.
  destruct (m st) as [[[a|e] s1] t1]; simpl; [|discriminate].
  intros H. exists a, s1. split; [done|].
  by destruct (f a s1) as [[r2 s2] t2].
Qed.

End MonadFacts.

(** ** Answer validation *)

Section ValidationFacts.
Context {St : Type}.
Variable oracle : Antwort.agent -> string -> St -> outcome Antwort.content * St.
Variable lib : pylib.

Import Antwort.

(** A value of the request body is no member of the enumeration: the
    arbiter is asked, once, and its answer is passed on. *)
Lemma validate_json (message : string) (v : json) (st : St) :
  validate oracle message (PJson v) st
  = ((oracle master_answer_validator message st).1,
     (oracle master_answer_validator message st).2,
     [Call master_answer_validator message
        (oracle master_answer_validator message st).1]).
Proof.
  unfold validate, bind, agent_run, ret. simpl.
  destruct (oracle master_answer_validator message st) as [[c|e] s'];
    reflexivity.
Qed.

(** With the member itself the team is asked. *)
Lemma validate_member (message : string) (st : St) :
  calls_of (validate oracle message (PEnum COMPREHENSION_QUESTION) st)
  = [Call agent_team message (oracle agent_team message st).1].
Proof.
  unfold validate, bind, agent_run, ret, lift, calls_of. simpl.
  destruct (oracle agent_team message st) as [[c|e] s']; [|reflexivity].
  simpl. by destruct (py_in "Consensus not reached" c).
Qed.

Lemma process_calls_arbiter (body_decoded : string + json) (st : St) :
  Forall (fun c => call_agent c = master_answer_validator)
    (calls_of (process oracle lib body_decoded st)).
Proof.
  unfold process.
  do 6 (apply calls_bind_Forall; [by rewrite calls_lift | intros ? ?]).
  apply calls_bind_Forall.
  - rewrite validate_json. by repeat constructor.
  - intros c ?. apply calls_bind_Forall; [by rewrite calls_lift|].
    intros ? ?. by constructor.
Qed.

Lemma lambda_handler_calls_arbiter (event : json) (st : St) :
  Forall (fun c => call_agent c = master_answer_validator)
    (calls_of (lambda_handler oracle lib event st)).
Proof.
  unfold lambda_handler.
  apply calls_bind_Forall; [by rewrite calls_lift | intros raw_body ?].
  apply calls_bind_Forall; [by rewrite calls_lift | intros flag s0].
  apply calls_bind_Forall.
  - destruct (truthy flag); [|by constructor].
    apply calls_bind_Forall; [by rewrite calls_lift|]. intros ? ?.
    by constructor.
  - intros bd s2.
    destruct (try_except_ret (process oracle lib bd)
                (fun e => {| statusCode := 500; headers := [];
                             body := JStr ("Fehler: " +:+ exn_msg e) |}) s2)
      as [_ ->].
    apply process_calls_arbiter.
Qed.

(** What [process] answers with status 200 is the arbiter's
    [ValidationResult]. *)
Lemma process_ok (body_decoded : string + json) (st : St) (resp : response) :
  result_of (process oracle lib body_decoded st) = Ok resp ->
  exists vr p,
    resp = {| statusCode := 200; headers := ok_headers;
              body := ValidationResult_dump vr |} /\
    calls_of (process oracle lib body_decoded st)
    = [Call master_answer_validator p (Ok (CModel vr))].
Proof.
  remember (process oracle lib body_decoded st) as x eqn:Hx.
  unfold process in Hx.
  repeat (rewrite bind_lift_eq in Hx;
          match type of Hx with
          | context [match ?o with Ok _ => _ | Raise _ => _ end] =>
              destruct o; [|by subst x]
          end).
  unfold bind at 1 in Hx. rewrite validate_json in Hx.
  destruct (oracle master_answer_validator _ st) as [[c|e] s'];
    simpl in Hx; [|by subst x].
  rewrite bind_lift_eq in Hx.
  destruct c as [vr|v]; simpl in Hx; [|by subst x].
  subst x. unfold ret, result_of, calls_of. simpl. intros [= <-]. eauto.
Qed.

(** The handler, spelled out: the three steps before the [try] may raise;
    from the [try] on there is always a response. *)
Lemma lambda_handler_eq (event : json) (st : St) :
  lambda_handler oracle lib event st =
  match py_getitem event "body" with
  | Raise e => (Raise e, st, [])
  | Ok raw_body =>
      match py_get event "isBase64Encoded" (JBool false) with
      | Raise e => (Raise e, st, [])
      | Ok flag =>
          match (if truthy flag
                 then obind (b64decode_value lib raw_body) (fun b => Ok (inl b))
                 else Ok (inr raw_body)) with
          | Raise e => (Raise e, st, [])
          | Ok body_decoded =>
              (Ok (match result_of (process oracle lib body_decoded st) with
                   | Ok resp => resp
                   | Raise e => {| statusCode := 500; headers := [];
                                   body := JStr ("Fehler: " +:+ exn_msg e) |}
                   end),
               state_of (process oracle lib body_decoded st),
               calls_of (process oracle lib body_decoded st))
          end
      end
  end.
Proof.
  unfold lambda_handler, bind, lift, ret, try_except, result_of, state_of,
    calls_of.
  destruct (py_getitem event "body") as [raw|e]; [|reflexivity].
  destruct (py_get event "isBase64Encoded" (JBool false)) as [flag|e];
    [|reflexivity].
  destruct (truthy flag); simpl.
  - destruct (b64decode_value lib raw) as [b|e]; simpl; [|reflexivity].
    destruct (process oracle lib (inl b) st) as [[[resp|e] s] t]; simpl;
      by rewrite ?app_nil_r.
  - destruct (process oracle lib (inr raw) st) as [[[resp|e] s] t]; simpl;
      by rewrite ?app_nil_r.
Qed.

(** A response of the handler has status 500, or status 200 and the
    arbiter's result as body. *)
Lemma lambda_handler_ok (event : json) (st : St) (resp : response) :
  result_of (lambda_handler oracle lib event st) = Ok resp ->
  statusCode resp = 500%Z \/
  (statusCode resp = 200%Z /\
   exists vr p,
     body resp = ValidationResult_dump vr /\
     calls_of (lambda_handler oracle lib event st)
     = [Call master_answer_validator p (Ok (CModel vr))]).
Proof.
  rewrite lambda_handler_eq.
  destruct (py_getitem event "body") as [raw|e]; [|discriminate].
  destruct (py_get event "isBase64Encoded" (JBool false)) as [flag|e];
    [|discriminate].
  match goal with
  | |- context [match ?o with Ok _ => _ | Raise _ => _ end] =>
      destruct o as [bd|e]; [|discriminate]
  end.
  unfold result_of at 1, calls_of at 1. simpl.
  destruct (result_of (process oracle lib bd st)) as [r|e] eqn:E.
  - intros [= <-]. right.
    destruct (process_ok bd st r E) as (vr & p & -> & Hc). eauto.
  - intros [= <-]. by left.
Qed.



End ValidationFacts.

(** The prompt template has the three fields, and [format] puts the texts
    in as they are. *)
Lemma prompt_template_format (q a c : string) :
  exists pre m1 m2 post,
    Antwort.prompt_template
    = pre +:+ "{question}" +:+ m1 +:+ "{student_answer}" +:+ m2
      +:+ "{correct_answer}" +:+ post /\
    brace_free (pre +:+ m1 +:+ m2 +:+ post) = true /\
    py_format Antwort.prompt_template
      [ ("question", q); ("student_answer", a); ("correct_answer", c) ]
    = Ok (pre +:+ q +:+ m1 +:+ a +:+ m2 +:+ c +:+ post).
Proof.
  exists (String "010"%char
     "    Werte die Antwort des Studenten aus dem gegebenen Frage-Antwort-Paar hinsichtlich ihrer inhaltlichen Korrektheit aus, indem du die Stundentenantwort mit der übergebenen richtigen Antwort inhaltlich und sinngemäß vergleichst.

    Frage:
    "),
    "

    Studentenantwort:
    ", "

    Richtige Antwort:
    ", newline.
  repeat split; vm_compute; reflexivity.
Qed.

Section ValidationMore.
Context {St : Type}.
Variable oracle : Antwort.agent -> string -> St -> outcome Antwort.content * St.
Variable lib : pylib.

Import Antwort.

(** The [try] block either raises before any agent is asked, or the body
    has parsed to a dict and the arbiter is asked once, with the template
    filled from the dict. *)
Lemma process_cases (body_decoded : string + json) (st : St) :
  (exists e, process oracle lib body_decoded st = (Raise e, st, [])) \/
  (exists kv prompt,
      match body_decoded with
      | inl raw => json_loads_bytes lib raw
      | inr v => loads_value lib v
      end = Ok (JObj kv) /\
      py_format prompt_template
        [ ("question",
           py_str lib (match assoc "question_text" kv with
                       | Some x => x | None => JStr "" end));
          ("student_answer",
           py_str lib (match assoc "student_answer" kv with
                       | Some x => x | None => JStr "" end));
          ("correct_answer",
           py_str lib (match assoc "correct_answer" kv with
                       | Some x => x | None => JNull end)) ]
      = Ok prompt /\
      calls_of (process oracle lib body_decoded st)
      = [Call master_answer_validator prompt
           (oracle master_answer_validator prompt st).1]).
Proof.
  unfold process. rewrite bind_lift_eq.
  destruct (match body_decoded with
            | inl raw => json_loads_bytes lib raw
            | inr v => loads_value lib v
            end) as [payload|e] eqn:Ev; [|left; eauto].
  destruct payload as [| | | | |l|kv];
    try (left; eexists; unfold bind, lift; reflexivity).
  unfold bind, lift, ret. cbn [py_get]. cbv beta iota.
  destruct (py_format prompt_template _) as [prompt|e] eqn:Ep;
    [|left; eauto].
  right. exists kv, prompt. split; [done|]. split; [done|].
  cbv beta iota.
  unfold validate, bind, agent_run, ret, calls_of. simpl.
  destruct (oracle master_answer_validator prompt st) as [[c|e] s'];
    simpl; [|reflexivity].
  by destruct (content_json c).
Qed.


End ValidationMore.

(** ** The claims about the validation lambda *)

(** C1 on the code.  The handler passes the [question_style] of the request
    body, a JSON value, and [validate] compares it with the enumeration
    member; no JSON value equals the member.  So for the text
    Verständnisfragen, as for every other value, [validate] asks the arbiter
    and only the arbiter, and no request to the handler reaches the team.
    The team is asked only when the member itself is passed. *)
Theorem comprehension_text_routed_to_arbiter {St : Type}
    (oracle : Antwort.agent -> string -> St -> outcome Antwort.content * St)
    (lib : pylib) (message : string) (event v : json) (st : St) :
  calls_of (Antwort.validate oracle message
              (Antwort.PJson (JStr "Verständnisfragen")) st)
  = [Call Antwort.master_answer_validator message
       (oracle Antwort.master_answer_validator message st).1] /\
  calls_of (Antwort.validate oracle message (Antwort.PJson v) st)
  = [Call Antwort.master_answer_validator message
       (oracle Antwort.master_answer_validator message st).1] /\
  Forall (fun c => call_agent c = Antwort.master_answer_validator)
    (calls_of (Antwort.lambda_handler oracle lib event st)) /\
  calls_of (Antwort.validate oracle message
              (Antwort.PEnum Antwort.COMPREHENSION_QUESTION) st)
  = [Call Antwort.agent_team message
       (oracle Antwort.agent_team message st).1].
Proof.
  rewrite !validate_json. repeat split.
  - apply lambda_handler_calls_arbiter.
  - apply validate_member.
Qed.




(** C8 as stated fails: the arbiter answers incorrect with an empty reason,
    and that is the [ValidationResult] the caller gets, with status 200. *)
Lemma empty_reason_is_returned :
  result_of (Antwort.lambda_handler scripted sample_lib
               (JObj [ ("body", JStr "{}") ]) [Ok (CModel empty_reason)])
  = Ok {| statusCode := 200; headers := Antwort.ok_headers;
          body := JObj [ ("is_correct", JBool false); ("reason", JStr "") ] |}
  /\
  ~ (forall vr,
        result_of (Antwort.validate scripted "Frage"
                     (Antwort.PJson (JStr "Rechenfragen"))
                     [Ok (CModel empty_reason)]) = Ok (CModel vr) ->
        is_correct vr = false -> reason vr <> "").
Proof.
  split; [vm_compute; reflexivity|].
  intros H. by apply (H empty_reason).
Qed.

(** C8, amended. A [ValidationResult] that [validate] returns is the one
    the agent it asked returned, both fields as they came; the reason is
    whatever text the agent wrote, the empty text included. *)
Theorem validate_returns_agent_result {St : Type}
    (oracle : Antwort.agent -> string -> St -> outcome Antwort.content * St)
    (message : string) (question_type : Antwort.pyvalue) (st : St)
    (vr : ValidationResult) :
  result_of (Antwort.validate oracle message question_type st)
  = Ok (CModel vr) ->
  exists a,
    calls_of (Antwort.validate oracle message question_type st)
    = [Call a message (Ok (CModel vr))].
Proof.
  unfold Antwort.validate.
  destruct (Antwort.eq_member question_type Antwort.COMPREHENSION_QUESTION);
    intros H.
  - exists Antwort.agent_team. revert H.
    unfold bind, agent_run, lift, ret, result_of, calls_of.
    destruct (oracle Antwort.agent_team message st) as [[c|e] s'];
      simpl; [|discriminate].
    destruct (py_in "Consensus not reached" c); simpl; [|discriminate].
    by intros [= ->].
  - exists Antwort.master_answer_validator. revert H.
    unfold bind, agent_run, lift, ret, result_of, calls_of.
    destruct (oracle Antwort.master_answer_validator message st)
      as [[c|e] s']; simpl; [|discriminate].
    by intros [= ->].
Qed.

(** The result with the empty reason is the one the arbiter gave. *)
Lemma validate_returns_agent_result_witness :
  exists a,
    calls_of (Antwort.validate scripted "Frage"
                (Antwort.PJson (JStr "Rechenfragen"))
                [Ok (CModel empty_reason)])
    = [Call a "Frage" (Ok (CModel empty_reason))].
Proof.
  apply (validate_returns_agent_result scripted "Frage"
           (Antwort.PJson (JStr "Rechenfragen")) [Ok (CModel empty_reason)]
           empty_reason).
  reflexivity.
Defined.

(** ** Errors at the request boundary *)

Section HandlerFacts.
Context {St : Type}.
Variable oracle : Frage.agent -> string -> St -> outcome Frage.content * St.
Variable lib : pylib.

Import Frage.

(** A response built by the [try] block has status 200 and wraps what
    [run] returned. *)
Lemma attempt_ok (event : json) (st : St) (resp : response) :
  result_of (attempt oracle lib event st) = Ok resp ->
  exists j, resp = {| statusCode := 200; headers := ok_headers;
                      body := JObj [ ("questions", j) ] |}.
Proof.
  unfold attempt. intros H.
  apply bind_ok_inv in H as (b & s0 & _ & H).
  apply bind_ok_inv in H as (flag & s1 & _ & H).
  apply bind_ok_inv in H as (body' & s2 & _ & H).
  apply bind_ok_inv in H as (payload & s3 & _ & H).
  apply bind_ok_inv in H as (result & s4 & Hr & H).
  injection H as <-.
  unfold handle_request in Hr.
  do 9 (apply bind_ok_inv in Hr as (? & ? & _ & Hr)).
  injection Hr as <-. eauto.
Qed.

End HandlerFacts.

(** C7 on the code.  The generation handler keeps every step inside its
    [try]: whatever the event, it returns a response, the one with status
    200 that the steps built or, when a step raised, status 500 with the
    error text as body, and it asks no agent again.  The validation handler
    answers 200 or 500 from its [try] on, but it reads and base64-decodes
    the body before the [try]: an exception of these steps leaves the
    handler.  An event without a body, or a null body marked as base64,
    makes it raise instead of answering 500. *)
Theorem handlers_at_the_request_boundary {St St' : Type}
    (oracle : Frage.agent -> string -> St -> outcome Frage.content * St)
    (oracle' : Antwort.agent -> string -> St' -> outcome Antwort.content * St')
    (lib : pylib) (event : json) (st : St) (st' : St') :
  match result_of (Frage.attempt oracle lib event st) with
  | Ok resp =>
      result_of (Frage.lambda_handler oracle lib event st) = Ok resp /\
      statusCode resp = 200%Z
  | Raise e =>
      result_of (Frage.lambda_handler oracle lib event st)
      = Ok {| statusCode := 500; headers := Frage.error_headers;
              body := JObj [ ("error", JStr (exn_msg e)) ] |}
  end /\
  calls_of (Frage.lambda_handler oracle lib event st)
  = calls_of (Frage.attempt oracle lib event st) /\
  match result_of (Antwort.lambda_handler oracle' lib event st') with
  | Ok resp => statusCode resp = 200%Z \/ statusCode resp = 500%Z
  | Raise e =>
      py_getitem event "body" = Raise e \/
      py_get event "isBase64Encoded" (JBool false) = Raise e \/
      exists raw_body,
        py_getitem event "body" = Ok raw_body /\
        b64decode_value lib raw_body = Raise e
  end /\
  Antwort.lambda_handler oracle' lib (JObj []) st'
  = (Raise (Exn KeyError "'body'"), st', []) /\
  Antwort.lambda_handler oracle' lib
    (JObj [ ("body", JNull); ("isBase64Encoded", JBool true) ]) st'
  = (Raise (Exn TypeError
              "argument should be a bytes-like object or ASCII string, not 'NoneType'"),
     st', []).
Proof.
  split; [|split; [|split; [|split; reflexivity]]].
  - unfold Frage.lambda_handler.
    destruct (try_except_ret (Frage.attempt oracle lib event)
                (fun exc => {| statusCode := 500;
                               headers := Frage.error_headers;
                               body := JObj [ ("error", JStr (exn_msg exc)) ] |})
                st) as [-> _].
    destruct (result_of (Frage.attempt oracle lib event st)) as [resp|e] eqn:E;
      [|done].
    split; [done|].
    by destruct (attempt_ok oracle lib event st resp E) as [j ->].
  - unfold Frage.lambda_handler.
    by destruct (try_except_ret (Frage.attempt oracle lib event)
                (fun exc => {| statusCode := 500;
                               headers := Frage.error_headers;
                               body := JObj [ ("error", JStr (exn_msg exc)) ] |})
                st) as [_ ->].
  - destruct (result_of (Antwort.lambda_handler oracle' lib event st'))
      as [resp|e] eqn:E.
    + destruct (lambda_handler_ok oracle' lib event st' resp E)
        as [H|[H _]]; auto.
    + revert E. rewrite lambda_handler_eq.
      destruct (py_getitem event "body") as [raw|e0];
        [|intros [= ->]; by left].
      destruct (py_get event "isBase64Encoded" (JBool false)) as [flag|e0];
        [|intros [= ->]; right; by left].
      destruct (truthy flag); [|discriminate].
      destruct (b64decode_value lib raw) as [b|e0] eqn:Eb; [discriminate|].
      intros [= ->]. right. right. eauto.
Qed.

(** The same on a request: an event without [body] leaves the validation
    handler by an exception, the generation handler answers it. *)
Example event_without_body :
  result_of (Antwort.lambda_handler scripted sample_lib (JObj []) [])
  = Raise (Exn KeyError "'body'") /\
  exists resp,
    result_of (Frage.lambda_handler scripted sample_lib (JObj []) [])
    = Ok resp /\ statusCode resp = 500%Z.
Proof. split; [reflexivity|]. eexists. split; vm_compute; reflexivity. Qed.

(** ** Upload *)

Section UploadFacts.
Import Upload.
Implicit Types (w : world) (files : list (string * string)).

Lemma save_snoc bucket files (x : string * string) w :
  save_files_to_s3 bucket (files ++ [x]) w
  = put_object bucket x.1 x.2 (save_files_to_s3 bucket files w).
Proof. unfold save_files_to_s3. by rewrite foldl_app. Qed.

(** The puts of an upload, one per file, in the order of the files. *)
Lemma save_trace bucket files w :
  trace (save_files_to_s3 bucket files w)
  = trace w
    ++ map (fun f => PutObject bucket f.1 f.2 "application/pdf") files.
Proof.
  induction files as [|x files IH] using rev_ind.
  - cbn. by rewrite app_nil_r.
  - rewrite save_snoc. cbn [put_object trace]. rewrite IH, map_app.
    by rewrite <- app_assoc.
Qed.

Lemma loads_app_put (t : list storage_call) bucket files :
  omap (fun c => match c with
                 | Aload l => Some l
                 | PutObject _ _ _ _ => None
                 end)
    (t ++ map (fun f => PutObject bucket f.1 f.2 "application/pdf") files)
  = omap (fun c => match c with
                   | Aload l => Some l
                   | PutObject _ _ _ _ => None
                   end) t.
Proof.
  rewrite omap_app.
  assert (E : omap (fun c => match c with
                             | Aload l => Some l
                             | PutObject _ _ _ _ => None
                             end)
                (map (fun f : string * string =>
                        PutObject bucket f.1 f.2 "application/pdf") files)
              = []) by (induction files; [done|by cbn]).
  by rewrite E, app_nil_r.
Qed.

Lemma save_preserves bucket files w :
  table_exists (save_files_to_s3 bucket files w) = table_exists w /\
  loads (save_files_to_s3 bucket files w) = loads w.
Proof.
  split.
  - induction files as [|x files IH] using rev_ind; [done|].
    rewrite save_snoc. simpl. exact IH.
  - unfold loads. rewrite save_trace. apply loads_app_put.
Qed.

Lemma save_lookup_other bucket files w (b k : string) :
  b <> bucket \/ k ∉ map fst files ->
  s3 (save_files_to_s3 bucket files w) !! (b, k) = s3 w !! (b, k).
Proof.
  induction files as [|x files IH] using rev_ind; [done|].
  intros H. rewrite save_snoc. simpl.
  rewrite lookup_insert_ne.
  - apply IH. destruct H as [H|H]; [by left|right].
    rewrite map_app in H. intros Hk. apply H, elem_of_app. by left.
  - intros [= <- <-]. destruct H as [H|H]; [done|].
    apply H. rewrite map_app. apply elem_of_app. right.
    by apply list_elem_of_singleton.
Qed.


Lemma save_lookup_distinct bucket files w (f c : string) :
  NoDup (map fst files) ->
  (f, c) ∈ files ->
  s3 (save_files_to_s3 bucket files w) !! (bucket, f)
  = Some {| object_body := c; content_type := "application/pdf" |}.
Proof.
  induction files as [|x files IH] using rev_ind;
    [by intros _ ?%elem_of_nil|].
  rewrite map_app. intros ND H. apply NoDup_app in ND as (ND & Hx & _).
  rewrite save_snoc. simpl.
  apply elem_of_app in H as [H|H].
  - rewrite lookup_insert_ne; [by apply IH|].
    intros [= E]. apply (Hx f).
    + apply list_elem_of_fmap. by exists (f, c).
    + simpl. apply list_elem_of_singleton. by rewrite E.
  - apply list_elem_of_singleton in H. subst x. simpl.
    by rewrite lookup_insert_eq.
Qed.

Lemma main_s3 base bucket files w :
  s3 (main base bucket files w) = s3 (save_files_to_s3 bucket files w).
Proof. reflexivity. Qed.

Lemma main_table_exists base bucket files w :
  table_exists (main base bucket files w) = true.
Proof. reflexivity. Qed.

(** The puts of [main] come first, its load last. *)
Lemma main_trace base bucket files w :
  trace (main base bucket files w)
  = trace w
    ++ map (fun f => PutObject bucket f.1 f.2 "application/pdf") files
    ++ [ Aload {| load_urls := map (object_url base) (map fst files);
                  load_table := "pdf_documents";
                  load_recreate := negb (table_exists w);
                  load_upsert := true |} ].
Proof.
  unfold main, load_files_from_s3_to_knowledge_base. cbn [trace].
  rewrite save_trace, <- app_assoc.
  by destruct (save_preserves bucket files w) as [-> _].
Qed.

Lemma main_loads base bucket files w :
  loads (main base bucket files w)
  = loads w
    ++ [ {| load_urls := map (object_url base) (map fst files);
            load_table := "pdf_documents";
            load_recreate := negb (table_exists w);
            load_upsert := true |} ].
Proof.
  unfold loads. rewrite main_trace, app_assoc, omap_app.
  by rewrite loads_app_put.
Qed.



End UploadFacts.




(** * Further properties of the code *)

(** ** The loop: failures, feedback, zero rounds *)

Section LoopMore.
Context {St : Type}.
Variable oracle : Frage.agent -> string -> St -> outcome Frage.content * St.
Variable lib : pylib.
Variable self : Frage.QAWorkflow.

Import Frage.

Hypothesis self_format :
  forall kw, py_format (instructions (generator self)) kw
             = Ok (instructions (generator self)).
Hypothesis self_not_reviewer : generator self <> QUESTION_REVIEWER.

Ltac one_round :=
  rewrite (rounds_S oracle lib self self_format); cbv zeta;
  let gc := fresh "gc" in let rc := fresh "rc" in
  let s1 := fresh "s1" in let s2 := fresh "s2" in
  let e := fresh "e" in let Hin := fresh "Hin" in
  match goal with
  | |- context [oracle (generator self) ?p ?st] =>
      destruct (oracle (generator self) p st) as [[gc|e] s1]
  end;
  [ match goal with
    | |- context [oracle QUESTION_REVIEWER ?p ?st] =>
        destruct (oracle QUESTION_REVIEWER p st) as [[rc|e] s2]
    end;
    [ destruct (py_in "Review OK" rc) as [[|]|e] eqn:Hin | ]
  | ].

(** A call that raises is the last call, and the loop raises what it
    raised. *)
Lemma rounds_raise_is_last (rq : request) (ctx : content) (n : nat) :
  forall fb last st pre c post e,
    calls_of (rounds oracle lib self rq ctx n fb last st) = pre ++ c :: post ->
    call_result c = Raise e ->
    post = [] /\
    result_of (rounds oracle lib self rq ctx n fb last st) = Raise e.
Proof.
  induction n as [|n IH]; intros fb last st pre c post e0.
  - destruct last; simpl; by destruct pre.
  - one_round; unfold result_of, calls_of; simpl.
    + intros E Hc.
      destruct (split_two _ _ _ _ _ _ E)
        as [(-> & -> & ->) | [(-> & -> & ->) | (pre' & -> & Ht)]];
        try discriminate. by destruct pre'.
    + specialize (IH rc (Some (qa_document lib gc)) s2).
      destruct (rounds oracle lib self rq ctx n rc _ s2) as [[x s3] t].
      unfold result_of, calls_of in IH. simpl in IH.
      intros E Hc.
      destruct (split_two _ _ _ _ _ _ E)
        as [(-> & -> & ->) | [(-> & -> & ->) | (pre' & -> & Ht)]];
        try discriminate. by eapply IH.
    + intros E Hc.
      destruct (split_two _ _ _ _ _ _ E)
        as [(-> & -> & ->) | [(-> & -> & ->) | (pre' & -> & Ht)]];
        try discriminate. by destruct pre'.
    + intros E Hc.
      destruct (split_two _ _ _ _ _ _ E)
        as [(-> & -> & ->) | [(-> & -> & ->) | (pre' & -> & Ht)]];
        try discriminate.
      * by injection Hc as ->.
      * by destruct pre'.
    + intros E Hc. destruct pre as [|a pre].
      * injection E as <- <-. by injection Hc as ->.
      * injection E as <- E. by destruct pre.
Qed.

(** The generator's prompt is its instructions followed by the feedback
    section built from the review of the round before. *)
Lemma rounds_feedback_handed_over (rq : request) (ctx : content) (n : nat) :
  forall fb last st,
    (forall c rest,
        calls_of (rounds oracle lib self rq ctx n fb last st) = c :: rest ->
        call_agent c = generator self /\
        call_prompt c = instructions (generator self)
                        +:+ feedback_suffix lib fb) /\
    (forall pre c1 c2 post,
        calls_of (rounds oracle lib self rq ctx n fb last st)
        = pre ++ c1 :: c2 :: post ->
        call_agent c1 = QUESTION_REVIEWER ->
        exists r,
          call_result c1 = Ok r /\
          py_in "Review OK" r = Ok false /\
          call_agent c2 = generator self /\
          call_prompt c2 = instructions (generator self)
                           +:+ feedback_suffix lib r).
Proof.
  induction n as [|n IH]; intros fb last st.
  - destruct last; simpl; split; try done; intros pre; by destruct pre.
  - one_round; unfold calls_of; simpl;
      try specialize (IH rc (Some (qa_document lib gc)) s2) as [IH1 IH2];
      try destruct (rounds oracle lib self rq ctx n rc _ s2) as [[x s3] t];
      unfold calls_of in *; simpl in *;
      (split; [by intros c rest [= <- _]|]); intros pre c1 c2 post E Hc.
    + destruct pre as [|a [|b pre]]; simplify_eq/=. by destruct pre.
    + destruct pre as [|a [|b pre]]; simplify_eq/=.
      * destruct (IH1 _ _ eq_refl) as [Ha Hp]. eauto.
      * by eapply IH2.
    + destruct pre as [|a [|b pre]]; simplify_eq/=. by destruct pre.
    + destruct pre as [|a [|b pre]]; simplify_eq/=. by destruct pre.
    + destruct pre as [|a pre]; simplify_eq/=. by destruct pre.
Qed.

End LoopMore.

(** X1. [run] fails fast and retries nothing: a call of an agent that
    raises is the last call [run] makes, and [run] raises that
    exception. *)
Theorem run_fails_fast {St : Type}
    (oracle : Frage.agent -> string -> St -> outcome Frage.content * St)
    (lib : pylib) (s : string) (rq : Frage.request) (n : nat) (st : St)
    (pre post : list (call Frage.agent QuestionResponse))
    (c : call Frage.agent QuestionResponse) (e : exn) :
  calls_of (Frage.run_rounds oracle lib n (Frage.QAWorkflow_of s) rq st)
  = pre ++ c :: post ->
  call_result c = Raise e ->
  post = [] /\
  result_of (Frage.run_rounds oracle lib n (Frage.QAWorkflow_of s) rq st)
  = Raise e.
Proof.
  destruct (generator_not_other s) as [_ Hrev].
  pose proof (generator_format s) as Hfmt.
  destruct (run_rounds_eq oracle lib (Frage.QAWorkflow_of s) n rq st)
    as (q & _ & ->).
  destruct (oracle Frage.KNOWLEDGE_RETRIEVER q st) as [[ctx|e0] s1].
  - pose proof (rounds_raise_is_last oracle lib (Frage.QAWorkflow_of s)
                  Hfmt rq ctx n (CValue JNull) None s1) as L.
    destruct (Frage.rounds oracle lib _ rq ctx n _ None s1) as [[y s2] t].
    unfold calls_of, result_of in *. simpl in *.
    destruct pre as [|a pre]; intros [= <- E] Hc; [discriminate|].
    by eapply L.
  - unfold calls_of, result_of. simpl.
    destruct pre as [|a pre]; intros [= <- E] Hc.
    + by injection Hc as ->.
    + by destruct pre.
Qed.

(** When the generator fails, the reviewer is not asked and the error
    surfaces. *)
Lemma run_fails_fast_witness :
  @nil (call Frage.agent QuestionResponse) = [] /\
  result_of (Frage.run scripted sample_lib
               (Frage.QAWorkflow_of "Rechenfragen") sample_request
               script_generator_fails)
  = Raise (Exn UpstreamError "model unavailable").
Proof.
  apply (run_fails_fast scripted sample_lib "Rechenfragen" sample_request
           Frage.MAX_ROUNDS script_generator_fails
           [Call Frage.KNOWLEDGE_RETRIEVER
              (match py_format Frage.RETRIEVER_INSTRUCTIONS
                       [("query", Frage.search_query sample_lib sample_request)]
               with Ok q => q | Raise _ => "" end)
              (Ok sample_context)]
           []
           (Call Frage.CALCULATION_QA_GENERATOR Frage.CALCULATION_INSTRUCTIONS
              (Raise (Exn UpstreamError "model unavailable")))
           (Exn UpstreamError "model unavailable")).
  - vm_compute. reflexivity.
  - reflexivity.
Defined.

(** X2. Feedback is handed from one round to the next.  The first generator
    call gets the bare instructions.  A review that is followed by another
    call did not approve, the call after it goes to the generator, and its
    prompt is the instructions followed by the feedback section with the
    text of that review; an empty review adds no section. *)
Theorem feedback_handed_to_next_round {St : Type}
    (oracle : Frage.agent -> string -> St -> outcome Frage.content * St)
    (lib : pylib) (s : string) (rq : Frage.request) (n : nat) (st : St)
    (pre post : list (call Frage.agent QuestionResponse))
    (c1 c2 : call Frage.agent QuestionResponse) :
  let self := Frage.QAWorkflow_of s in
  calls_of (Frage.run_rounds oracle lib n self rq st)
  = pre ++ c1 :: c2 :: post ->
  (call_agent c1 = Frage.KNOWLEDGE_RETRIEVER ->
   pre = [] /\
   call_agent c2 = Frage.generator self /\
   call_prompt c2 = Frage.instructions (Frage.generator self)) /\
  (call_agent c1 = Frage.QUESTION_REVIEWER ->
   exists r,
     call_result c1 = Ok r /\
     py_in "Review OK" r = Ok false /\
     call_agent c2 = Frage.generator self /\
     call_prompt c2 = Frage.instructions (Frage.generator self)
                      +:+ Frage.feedback_suffix lib r) /\
  (forall text,
      Frage.feedback_suffix lib (CValue (JStr text))
      = if String.eqb text "" then ""
        else newline +:+ "Vorheriges Feedback:" +:+ newline
             +:+ text +:+ newline).
Proof.
  intros self.
  destruct (generator_not_other s) as [Hret Hrev].
  pose proof (generator_format s) as Hfmt.
  destruct (run_rounds_eq oracle lib self n rq st) as (q & _ & ->).
  destruct (oracle Frage.KNOWLEDGE_RETRIEVER q st) as [[ctx|e0] s1].
  - pose proof (rounds_feedback_handed_over oracle lib self Hfmt Hrev rq ctx n
                  (CValue JNull) None s1) as [F1 F2].
    pose proof (rounds_calls_bounded oracle lib self Hfmt Hrev Hret rq ctx n
                  (CValue JNull) None s1) as (_ & _ & B).
    destruct (Frage.rounds oracle lib self rq ctx n _ None s1) as [[y s2] t].
    unfold calls_of in *. cbn [fst snd] in *. intros E.
    split; [|split].
    + intros Hc. destruct pre as [|a pre].
      * injection E as <- E. split; [done|].
        destruct (F1 c2 post E) as [Ha Hp]. split; [done|].
        rewrite Hp. apply append_empty_r.
      * injection E as <- E. exfalso. subst t. clear F1 F2. revert B.
        induction pre as [|b pre IHp]; cbn [app Frage.calls_to].
        -- by rewrite Hc, bool_decide_true.
        -- intros B. apply IHp. lia.
    + intros Hc. destruct pre as [|a pre]; injection E as <- E;
        [discriminate|]. by eapply F2.
    + intros text. unfold Frage.feedback_suffix. simpl.
      by destruct (String.eqb text "").
  - unfold calls_of. simpl. intros E.
    destruct pre as [|a pre]; [discriminate|]. by destruct pre.
Qed.

(** Two rounds: the second generator call carries the first review. *)
Lemma feedback_handed_to_next_round_witness :
  exists r,
    Ok sample_feedback = Ok r /\
    py_in "Review OK" r = Ok false /\
    Frage.COMPREHENSION_QA_GENERATOR = Frage.COMPREHENSION_QA_GENERATOR /\
    Frage.COMPREHENSION_INSTRUCTIONS
    +:+ Frage.feedback_suffix sample_lib sample_feedback
    = Frage.COMPREHENSION_INSTRUCTIONS
      +:+ Frage.feedback_suffix sample_lib r.
Proof.
  pose (x := Frage.run_rounds scripted sample_lib 2
               (Frage.QAWorkflow_of "Verständnisfragen") sample_request
               script_two_rounds).
  refine (proj1 (proj2
    (feedback_handed_to_next_round scripted sample_lib "Verständnisfragen"
       sample_request 2 script_two_rounds
       (firstn 2 (calls_of x)) (skipn 4 (calls_of x))
       (Call Frage.QUESTION_REVIEWER
          (Frage.review_prompt sample_lib sample_request
             (Frage.qa_document sample_lib sample_batch))
          (Ok sample_feedback))
       (Call Frage.COMPREHENSION_QA_GENERATOR
          (Frage.COMPREHENSION_INSTRUCTIONS
           +:+ Frage.feedback_suffix sample_lib sample_feedback)
          (Ok sample_batch))
       _)) eq_refl).
  vm_compute. reflexivity.
Defined.

(** X3. The loop needs a round: with [max_rounds = 0] no batch is ever
    generated, and once the retriever has answered [run] ends in the
    [UnboundLocalError] of the [return] after the loop. *)
Theorem zero_rounds_never_return {St : Type}
    (oracle : Frage.agent -> string -> St -> outcome Frage.content * St)
    (lib : pylib) (s : string) (rq : Frage.request) (st : St) :
  let x := Frage.run_rounds oracle lib 0 (Frage.QAWorkflow_of s) rq st in
  (forall j, result_of x <> Ok j) /\
  Frage.calls_to (Frage.generator (Frage.QAWorkflow_of s)) (calls_of x) = 0 /\
  (Forall (fun c => is_ok (call_result c) = true) (calls_of x) ->
   exists msg, result_of x = Raise (Exn UnboundLocalError msg)).
Proof.
  intros x. subst x.
  destruct (generator_not_other s) as [Hret _].
  destruct (run_rounds_eq oracle lib (Frage.QAWorkflow_of s) 0 rq st)
    as (q & _ & ->).
  destruct (oracle Frage.KNOWLEDGE_RETRIEVER q st) as [[ctx|e0] s1];
    unfold result_of, calls_of; simpl;
    rewrite (bool_decide_false (Frage.KNOWLEDGE_RETRIEVER = _)) by done.
  - split; [done|]. split; [done|]. eauto.
  - split; [done|]. split; [done|]. intros HF.
    inversion HF as [|? ? Hc _]. discriminate.
Qed.

Lemma zero_rounds_never_return_witness :
  exists msg,
    result_of (Frage.run_rounds scripted sample_lib 0
                 (Frage.QAWorkflow_of "Rechenfragen") sample_request
                 script_approved)
    = Raise (Exn UnboundLocalError msg).
Proof.
  apply (zero_rounds_never_return scripted sample_lib "Rechenfragen"
           sample_request script_approved).
  vm_compute. repeat constructor.
Defined.

(** ** The generation handler *)

Section GenerationHandler.
Context {St : Type}.
Variable oracle : Frage.agent -> string -> St -> outcome Frage.content * St.
Variable lib : pylib.

Import Frage.

(** The [try] block either raises before any agent is asked, or it has
    parsed the body to a dict whose [anzahl_fragen] converts to an [int] and
    whose [fragetyp] is a text, and then it is [run] on the request built
    from the dict and the defaults, its result wrapped into the response. *)
Lemma attempt_cases (event : json) (st : St) :
  (exists e, attempt oracle lib event st = (Raise e, st, [])) \/
  (exists v kv s z,
      loads_value lib v = Ok (JObj kv) /\
      py_get (JObj kv) "fragetyp" (JStr "Verständnisfragen") = Ok (JStr s) /\
      obind (py_get (JObj kv) "anzahl_fragen" (JInt 3)) (py_int lib) = Ok z /\
      attempt oracle lib event st
      = let '(r, s', t) :=
          run oracle lib (QAWorkflow_of s)
            {| subjects := match assoc "thema" kv with
                           | Some x => x | None => JStr "" end;
               keywords := match assoc "keywords" kv with
                           | Some x => x | None => JStr "" end;
               num_qas := z;
               difficulty := match assoc "schwierigkeitsgrad" kv with
                             | Some x => x | None => JStr "mittel" end;
               audience := match assoc "zielgruppe" kv with
                           | Some x => x | None => JStr "" end |} st in
        (match r with
         | Ok j => Ok {| statusCode := 200; headers := ok_headers;
                         body := JObj [ ("questions", j) ] |}
         | Raise e => Raise e
         end, s', t)).
Proof.
  unfold attempt. rewrite bind_lift_eq.
  destruct (py_get event "body" JNull) as [b|e]; [|left; eauto].
  rewrite bind_lift_eq.
  destruct (py_get event "isBase64Encoded" JNull) as [flag|e]; [|left; eauto].
  set (body0 := if truthy b then b else JStr "{}").
  assert (Hbody :
    (exists e, forall B (k : json -> M agent QuestionResponse St B),
        bind (if truthy flag
              then let* raw := lift (b64decode_value lib body0) in
                   let* text := lift (bytes_decode lib raw) in
                   ret (JStr text)
              else ret body0) k st = (Raise e, st, [])) \/
    (exists v, forall B (k : json -> M agent QuestionResponse St B),
        bind (if truthy flag
              then let* raw := lift (b64decode_value lib body0) in
                   let* text := lift (bytes_decode lib raw) in
                   ret (JStr text)
              else ret body0) k st = k v st)).
  { destruct (truthy flag).
    - destruct (b64decode_value lib body0) as [raw|e];
        [|left; exists e; intros; reflexivity].
      destruct (bytes_decode lib raw) as [text|e] eqn:E2.
      + right. exists (JStr text). intros. unfold bind, lift, ret.
        rewrite E2. by destruct (k (JStr text) st) as [[? ?] ?].
      + left. exists e. intros. unfold bind, lift, ret. by rewrite E2.
    - right. exists body0. intros. unfold bind, ret.
      by destruct (k body0 st) as [[? ?] ?]. }
  destruct Hbody as [[e He]|[v Hv]]; [left; exists e; apply He|].
  rewrite Hv. rewrite bind_lift_eq.
  destruct (loads_value lib v) as [payload|e] eqn:Ev; [|left; eauto].
  unfold handle_request.
  destruct payload as [| | | | |l|kv];
    try (left; eexists; unfold bind, lift; reflexivity).
  unfold bind, lift, ret. cbn [py_get]. cbv beta iota.
  destruct (py_int lib _) as [z|e] eqn:Ez; [|left; eauto].
  cbv beta iota.
  destruct (match assoc "fragetyp" kv with
            | Some x => x
            | None => JStr "Verständnisfragen"
            end) as [| | | |s| |] eqn:Es;
    try (left; eexists; reflexivity).
  right. exists v, kv, s, z.
  split; [done|]. split; [by rewrite Es|]. split; [done|].
  cbn [QAWorkflow_init]. cbv beta iota.
  destruct (run oracle lib (QAWorkflow_of s) _ st) as [[[j|e] s'] t];
    cbv beta iota; by rewrite ?app_nil_r.
Qed.

(** The handler, on the two cases of its [try] block. *)
Lemma lambda_handler_of_attempt (event : json) (st : St) :
  result_of (lambda_handler oracle lib event st)
  = Ok (match result_of (attempt oracle lib event st) with
        | Ok resp => resp
        | Raise e => {| statusCode := 500; headers := error_headers;
                        body := JObj [ ("error", JStr (exn_msg e)) ] |}
        end) /\
  calls_of (lambda_handler oracle lib event st)
  = calls_of (attempt oracle lib event st).
Proof. apply try_except_ret. Qed.

End GenerationHandler.

(** X4. The generation handler asks an agent only for a well-formed
    payload: when it makes any call, the body has parsed to a dict whose
    [fragetyp] (default Verständnisfragen) is a text and whose
    [anzahl_fragen] (default 3) converts to an [int]; the calls are then
    those of [run] on the request built from the dict, with the defaults for
    absent keys (topic, keywords and audience empty, difficulty mittel), and
    the answer is 200 with the result of [run] or 500 with its error. *)
Theorem generation_calls_need_wellformed_payload {St : Type}
    (oracle : Frage.agent -> string -> St -> outcome Frage.content * St)
    (lib : pylib) (event : json) (st : St) :
  calls_of (Frage.lambda_handler oracle lib event st) <> [] ->
  exists v kv s z,
    loads_value lib v = Ok (JObj kv) /\
    py_get (JObj kv) "fragetyp" (JStr "Verständnisfragen") = Ok (JStr s) /\
    obind (py_get (JObj kv) "anzahl_fragen" (JInt 3)) (py_int lib) = Ok z /\
    let rq :=
      {| Frage.subjects := match assoc "thema" kv with
                           | Some x => x | None => JStr "" end;
         Frage.keywords := match assoc "keywords" kv with
                           | Some x => x | None => JStr "" end;
         Frage.num_qas := z;
         Frage.difficulty := match assoc "schwierigkeitsgrad" kv with
                             | Some x => x | None => JStr "mittel" end;
         Frage.audience := match assoc "zielgruppe" kv with
                           | Some x => x | None => JStr "" end |} in
    calls_of (Frage.lambda_handler oracle lib event st)
    = calls_of (Frage.run oracle lib (Frage.QAWorkflow_of s) rq st) /\
    result_of (Frage.lambda_handler oracle lib event st)
    = Ok (match result_of (Frage.run oracle lib (Frage.QAWorkflow_of s) rq st)
          with
          | Ok j => {| statusCode := 200; headers := Frage.ok_headers;
                       body := JObj [ ("questions", j) ] |}
          | Raise e => {| statusCode := 500; headers := Frage.error_headers;
                          body := JObj [ ("error", JStr (exn_msg e)) ] |}
          end).
Proof.
  destruct (lambda_handler_of_attempt oracle lib event st) as [-> ->].
  destruct (attempt_cases oracle lib event st)
    as [[e ->]|(v & kv & s & z & Hv & Hs & Hz & ->)]; [done|].
  intros _. exists v, kv, s, z. split; [done|]. split; [done|].
  split; [done|]. cbv zeta.
  destruct (Frage.run oracle lib (Frage.QAWorkflow_of s) _ st)
    as [[[j|e] s'] t]; by split.
Qed.

(** An event without a body is the empty payload: all defaults. *)
Lemma generation_calls_need_wellformed_payload_witness :
  exists v kv s z,
    loads_value sample_lib v = Ok (JObj kv) /\
    py_get (JObj kv) "fragetyp" (JStr "Verständnisfragen") = Ok (JStr s) /\
    obind (py_get (JObj kv) "anzahl_fragen" (JInt 3)) (py_int sample_lib)
    = Ok z /\
    let rq :=
      {| Frage.subjects := match assoc "thema" kv with
                           | Some x => x | None => JStr "" end;
         Frage.keywords := match assoc "keywords" kv with
                           | Some x => x | None => JStr "" end;
         Frage.num_qas := z;
         Frage.difficulty := match assoc "schwierigkeitsgrad" kv with
                             | Some x => x | None => JStr "mittel" end;
         Frage.audience := match assoc "zielgruppe" kv with
                           | Some x => x | None => JStr "" end |} in
    calls_of (Frage.lambda_handler scripted sample_lib (JObj [])
                script_approved)
    = calls_of (Frage.run scripted sample_lib (Frage.QAWorkflow_of s) rq
                  script_approved) /\
    result_of (Frage.lambda_handler scripted sample_lib (JObj [])
                 script_approved)
    = Ok (match result_of (Frage.run scripted sample_lib
                             (Frage.QAWorkflow_of s) rq script_approved)
          with
          | Ok j => {| statusCode := 200; headers := Frage.ok_headers;
                       body := JObj [ ("questions", j) ] |}
          | Raise e => {| statusCode := 500; headers := Frage.error_headers;
                          body := JObj [ ("error", JStr (exn_msg e)) ] |}
          end).
Proof.
  apply (generation_calls_need_wellformed_payload scripted sample_lib
           (JObj []) script_approved).
  vm_compute. discriminate.
Defined.

(** X5. A response with status 200 of the generation handler wraps what
    [run] returned under the key questions: the body is
    [{"questions": batch}] with the batch of the last generator call, so
    for a generator that answered with a [QuestionResponse] the question
    list sits two levels deep, under questions.questions. *)
Theorem generation_response_wraps_batch {St : Type}
    (oracle : Frage.agent -> string -> St -> outcome Frage.content * St)
    (lib : pylib) (event : json) (st : St) (resp : response) :
  result_of (Frage.lambda_handler oracle lib event st) = Ok resp ->
  statusCode resp = 200%Z ->
  exists gen pre p g pr r,
    (gen = Frage.COMPREHENSION_QA_GENERATOR \/
     gen = Frage.CALCULATION_QA_GENERATOR) /\
    calls_of (Frage.lambda_handler oracle lib event st)
    = pre ++ [Call gen p (Ok g); Call Frage.QUESTION_REVIEWER pr (Ok r)] /\
    body resp = JObj [ ("questions", doc_value (Frage.qa_document lib g)) ] /\
    (forall qr, g = CModel qr ->
       body resp
       = JObj [ ("questions",
                 JObj [ ("questions",
                         JArr (map Question_dump (questions qr))) ]) ]).
Proof.
  destruct (lambda_handler_of_attempt oracle lib event st) as [-> ->].
  destruct (attempt_cases oracle lib event st)
    as [[e ->]|(v & kv & s & z & _ & _ & _ & ->)].
  { unfold result_of. simpl. by intros [= <-]. }
  set (rq := {| Frage.subjects := _ |}).
  pose proof (generator_format s) as Hfmt.
  unfold Frage.run.
  destruct (run_rounds_eq oracle lib (Frage.QAWorkflow_of s)
              Frage.MAX_ROUNDS rq st) as (q & _ & ->).
  destruct (oracle Frage.KNOWLEDGE_RETRIEVER q st) as [[ctx|e] s1];
    [|unfold result_of; simpl; by intros [= <-]].
  pose proof (rounds_returns_last_batch oracle lib (Frage.QAWorkflow_of s)
                Hfmt rq ctx Frage.MAX_ROUNDS (CValue JNull) None s1) as L.
  destruct (Frage.rounds oracle lib _ rq ctx _ _ None s1) as [[[j|e] s2] t];
    unfold result_of, calls_of in *; cbn [fst snd] in *;
    [|by intros [= <-]].
  intros [= <-] _.
  destruct (L j eq_refl) as [[-> (d & [=] & _)]
                            |(pre' & p & g & pr & r & -> & ->)].
  eexists (Frage.generator (Frage.QAWorkflow_of s)), (_ :: pre'), p, g, pr, r.
  split; [|split; [done|split; [done|by intros qr ->]]].
  rewrite generator_cases. destruct (startswith (lower s) "ver"); auto.
Qed.

Lemma generation_response_wraps_batch_witness :
  exists gen pre p g pr r,
    (gen = Frage.COMPREHENSION_QA_GENERATOR \/
     gen = Frage.CALCULATION_QA_GENERATOR) /\
    calls_of (Frage.lambda_handler scripted sample_lib (JObj [])
                script_approved)
    = pre ++ [Call gen p (Ok g); Call Frage.QUESTION_REVIEWER pr (Ok r)] /\
    JObj [ ("questions",
            JObj [ ("questions", JArr [Question_dump sample_question]) ]) ]
    = JObj [ ("questions", doc_value (Frage.qa_document sample_lib g)) ] /\
    (forall qr, g = CModel qr ->
       JObj [ ("questions",
               JObj [ ("questions", JArr [Question_dump sample_question]) ]) ]
       = JObj [ ("questions",
                 JObj [ ("questions",
                         JArr (map Question_dump (questions qr))) ]) ]).
Proof.
  apply (generation_response_wraps_batch scripted sample_lib (JObj [])
           script_approved
           {| statusCode := 200; headers := Frage.ok_headers;
              body := JObj [ ("questions",
                              JObj [ ("questions",
                                      JArr [Question_dump sample_question]) ]) ] |}).
  - vm_compute. reflexivity.
  - reflexivity.
Defined.

(** ** The search query *)

Lemma rev_app_append (s t acc : string) :
  String.rev_app (s +:+ t) acc = String.rev_app t (String.rev_app s acc).
Proof.
  revert acc. induction s as [|c s IH]; intros acc; [reflexivity|].
  rewrite append_String. simpl. apply IH.
Qed.

Lemma space2_blank (c : ascii) : space2 c " "%char = false.
Proof. unfold space2. simpl. by rewrite andb_false_r. Qed.

Lemma space3_blank (c d : ascii) : space3 c d " "%char = false.
Proof.
  unfold space3. simpl.
  by rewrite !andb_false_r.
Qed.

(** Stripping the front of a text with a blank appended: the blank goes
    when the text was all white space, and stays otherwise. *)
Lemma strip_front_append_blank (n : nat) :
  forall s, String.length s <= n ->
    strip_front false (s +:+ " ")
    = match strip_front false s with
      | EmptyString => EmptyString
      | String c t => String c t +:+ " "
      end.
Proof.
  induction n as [|n IH]; intros s Hn.
  - destruct s; [reflexivity|simpl in Hn; lia].
  - destruct s as [|c [|d [|e s]]].
    + reflexivity.
    + simpl. destruct (space1 c); [reflexivity|].
      by rewrite space2_blank.
    + cbn [strip_front String.append]. 
      change (String c (String d "") +:+ " ")
        with (String c (String d " ")).
      cbn [strip_front].
      destruct (space1 c).
      { apply (IH (String d "")). simpl in *. lia. }
      destruct (space2 c d); [reflexivity|].
      by rewrite space3_blank.
    + change (String c (String d (String e s)) +:+ " ")
        with (String c (String d (String e (s +:+ " ")))).
      cbn [strip_front].
      destruct (space1 c).
      { apply (IH (String d (String e s))). simpl in *. lia. }
      destruct (space2 c d).
      { apply (IH (String e s)). simpl in *. lia. }
      destruct (space3 c d e); [|reflexivity].
      apply IH. simpl in *. lia.
Qed.

(** A blank after the text makes no difference to [strip], nor does a
    blank before it. *)
Lemma strip_append_blank (s : string) : strip (s +:+ " ") = strip s.
Proof.
  unfold strip.
  rewrite (strip_front_append_blank (String.length s) s (le_n _)).
  destruct (strip_front false s) as [|c t] eqn:E; [reflexivity|].
  unfold String.rev at 2. rewrite rev_app_append. reflexivity.
Qed.

Lemma strip_blank_first (s : string) : strip (" " +:+ s) = strip s.
Proof. reflexivity. Qed.

(** X6. A request without keywords searches for the bare topic, and one
    without topic for the bare keywords: the blank that [run] puts between
    the two is stripped with the rest of the surrounding white space; with
    neither, the query is empty. *)
Theorem search_query_with_empty_part (lib : pylib) (rq : Frage.request) :
  Frage.search_query lib
    {| Frage.subjects := Frage.subjects rq; Frage.keywords := JStr "";
       Frage.num_qas := Frage.num_qas rq;
       Frage.difficulty := Frage.difficulty rq;
       Frage.audience := Frage.audience rq |}
  = strip (py_str lib (Frage.subjects rq)) /\
  Frage.search_query lib
    {| Frage.subjects := JStr ""; Frage.keywords := Frage.keywords rq;
       Frage.num_qas := Frage.num_qas rq;
       Frage.difficulty := Frage.difficulty rq;
       Frage.audience := Frage.audience rq |}
  = strip (py_str lib (Frage.keywords rq)) /\
  Frage.search_query lib
    {| Frage.subjects := JStr ""; Frage.keywords := JStr "";
       Frage.num_qas := Frage.num_qas rq;
       Frage.difficulty := Frage.difficulty rq;
       Frage.audience := Frage.audience rq |}
  = "".
Proof.
  unfold Frage.search_query. cbn [Frage.subjects Frage.keywords py_str].
  split; [|split; reflexivity].
  change (" " +:+ "") with " ". apply strip_append_blank.
Qed.

(** ** The validation handler *)

(** X7. The validation handler asks an agent only when the body has parsed
    to a dict, and then exactly once: the arbiter, with a prompt that holds
    the question, the student's answer and the correct answer as they are
    (braces included), each at its place in the template; an absent
    question or student answer is the empty text, an absent correct answer
    the text None. *)
Theorem validation_call_embeds_texts {St : Type}
    (oracle : Antwort.agent -> string -> St -> outcome Antwort.content * St)
    (lib : pylib) (event : json) (st : St) :
  calls_of (Antwort.lambda_handler oracle lib event st) <> [] ->
  exists body_decoded kv pre m1 m2 post,
    match body_decoded with
    | inl raw => json_loads_bytes lib raw
    | inr v => loads_value lib v
    end = Ok (JObj kv) /\
    Antwort.prompt_template
    = pre +:+ "{question}" +:+ m1 +:+ "{student_answer}" +:+ m2
      +:+ "{correct_answer}" +:+ post /\
    brace_free (pre +:+ m1 +:+ m2 +:+ post) = true /\
    let prompt :=
      pre +:+ py_str lib (match assoc "question_text" kv with
                          | Some x => x | None => JStr "" end)
      +:+ m1 +:+ py_str lib (match assoc "student_answer" kv with
                             | Some x => x | None => JStr "" end)
      +:+ m2 +:+ py_str lib (match assoc "correct_answer" kv with
                             | Some x => x | None => JNull end)
      +:+ post in
    calls_of (Antwort.lambda_handler oracle lib event st)
    = [Call Antwort.master_answer_validator prompt
         (oracle Antwort.master_answer_validator prompt st).1].
Proof.
  rewrite lambda_handler_eq.
  destruct (py_getitem event "body") as [raw|e]; [|done].
  destruct (py_get event "isBase64Encoded" (JBool false)) as [flag|e];
    [|done].
  match goal with
  | |- context [match ?o with Ok _ => _ | Raise _ => _ end] =>
      destruct o as [bd|e]; [|done]
  end.
  unfold calls_of at 1 3. cbn [snd].
  destruct (process_cases oracle lib bd st)
    as [[e ->]|(kv & prompt & Hkv & Hp & ->)]; [done|].
  intros _.
  destruct (prompt_template_format
              (py_str lib (match assoc "question_text" kv with
                           | Some x => x | None => JStr "" end))
              (py_str lib (match assoc "student_answer" kv with
                           | Some x => x | None => JStr "" end))
              (py_str lib (match assoc "correct_answer" kv with
                           | Some x => x | None => JNull end)))
    as (pre & m1 & m2 & post & Ht & Hb & Hf).
  rewrite Hf in Hp. injection Hp as <-.
  by exists bd, kv, pre, m1, m2, post.
Qed.

(** The body [{}]: empty question and answer, correct answer None. *)
Lemma validation_call_embeds_texts_witness :
  exists body_decoded kv pre m1 m2 post,
    match body_decoded with
    | inl raw => json_loads_bytes sample_lib raw
    | inr v => loads_value sample_lib v
    end = Ok (JObj kv) /\
    Antwort.prompt_template
    = pre +:+ "{question}" +:+ m1 +:+ "{student_answer}" +:+ m2
      +:+ "{correct_answer}" +:+ post /\
    brace_free (pre +:+ m1 +:+ m2 +:+ post) = true /\
    let prompt :=
      pre +:+ py_str sample_lib (match assoc "question_text" kv with
                                 | Some x => x | None => JStr "" end)
      +:+ m1 +:+ py_str sample_lib (match assoc "student_answer" kv with
                                    | Some x => x | None => JStr "" end)
      +:+ m2 +:+ py_str sample_lib (match assoc "correct_answer" kv with
                                    | Some x => x | None => JNull end)
      +:+ post in
    calls_of (Antwort.lambda_handler scripted sample_lib
                (JObj [ ("body", JStr "{}") ]) [Ok (CModel empty_reason)])
    = [Call Antwort.master_answer_validator prompt
         (scripted Antwort.master_answer_validator prompt
            [Ok (CModel empty_reason)]).1].
Proof.
  apply (validation_call_embeds_texts scripted sample_lib
           (JObj [ ("body", JStr "{}") ]) [Ok (CModel empty_reason)]).
  vm_compute. discriminate.
Defined.

(** ** The upload request *)

Lemma str_app_assoc (a b c : string) : (a +:+ b) +:+ c = a +:+ (b +:+ c).
Proof.
  induction a as [|x a IH]; [reflexivity|].
  by rewrite !append_String, IH.
Qed.

Lemma contains_no_prefix (needle s : string) :
  contains needle s = false -> String.prefix needle s = false.
Proof.
  destruct s as [|c s]; cbn [contains].
  - by destruct (String.prefix needle "").
  - by destruct (String.prefix needle (String c s)).
Qed.

Lemma contains_suffix (needle a b : string) :
  contains needle (a +:+ b) = false -> contains needle b = false.
Proof.
  induction a as [|x a IH]; [done|].
  rewrite append_String. cbn [contains].
  destruct (String.prefix needle (String x (a +:+ b))); [done|]. exact IH.
Qed.

(** Passing the rest of an occurrence. *)
Lemma split_go_skip (sep x cur rest : string) :
  split_go sep (String.length x) cur (x +:+ rest) = split_go sep 0 cur rest.
Proof.
  induction x as [|c x IH]; [reflexivity|].
  rewrite append_String. simpl. exact IH.
Qed.

Lemma split_go_at_sep (sep cur rest : string) :
  sep <> "" ->
  split_go sep 0 cur (sep +:+ rest) = cur :: split_go sep 0 "" rest.
Proof.
  destruct sep as [|c sp]; [done|]. intros _.
  rewrite append_String. cbn [split_go].
  assert (P : String.prefix (String c sp) (String c (sp +:+ rest)) = true).
  { apply prefix_spec. exists rest. by rewrite append_String. }
  rewrite P. f_equal.
  cbn [String.length]. rewrite Nat.sub_1_r. simpl Nat.pred.
  apply split_go_skip.
Qed.

(** Where the separator does not start, the text goes to the piece. *)
Lemma split_go_pre (sep pre tail : string) :
  forall cur,
    (forall a b, pre = a +:+ b -> b <> "" ->
                 String.prefix sep (b +:+ tail) = false) ->
    split_go sep 0 cur (pre +:+ tail) = split_go sep 0 (cur +:+ pre) tail.
Proof.
  induction pre as [|c pre IH]; intros cur H.
  - by rewrite append_empty, append_empty_r.
  - rewrite append_String. cbn [split_go].
    rewrite <- append_String, (H "" (String c pre)) by done.
    rewrite IH.
    + by rewrite str_app_assoc.
    + intros a b -> Hb. apply (H (String c a) b); [done|done].
Qed.

Lemma split_go_head (sep : string) (s : string) :
  forall skip cur, exists z l, split_go sep skip cur s = (cur +:+ z) :: l.
Proof.
  induction s as [|c s IH]; intros skip cur.
  - exists "", []. by rewrite append_empty_r.
  - cbn [split_go]. destruct skip as [|k]; [|apply IH].
    destruct (String.prefix sep (String c s)).
    + eexists "", _. by rewrite append_empty_r.
    + destruct (IH 0 (cur +:+ String c "")) as (z & l & ->).
      exists (String c z), l. by rewrite str_app_assoc.
Qed.

(** Without an occurrence the text is the one piece. *)
Lemma split_go_none (sep s : string) :
  forall cur, contains sep s = false ->
              split_go sep 0 cur s = [cur +:+ s].
Proof.
  induction s as [|c s IH]; intros cur H.
  - by rewrite append_empty_r.
  - cbn [split_go]. rewrite (contains_no_prefix _ _ H).
    cbn [contains] in H. destruct (String.prefix sep (String c s)); [done|].
    rewrite (IH _ H). by rewrite str_app_assoc.
Qed.

Ltac match_char b :=
  rewrite append_String; cbn [String.prefix];
  match goal with
  | |- context [ascii_dec ?a ?c] => destruct (ascii_dec a c) as [<-|?]
  end; [|reflexivity].

(** The separator of the first split overlaps itself nowhere: where it
    does not
    occur in a text, it does not start in that text either when the text is
    followed by the separator. *)
Lemma filename_quoted_not_early (b x : string) :
  b <> "" ->
  contains filename_quoted b = false ->
  String.prefix filename_quoted (b +:+ filename_quoted +:+ x) = false.
Proof.
  intros Hne H. unfold filename_quoted in *.
  destruct b as [|c b]; [done|]. clear Hne.
  do 9 (match_char b; destruct b as [|? b]; [vm_compute; reflexivity|]).
  match_char b. exfalso. destruct b; vm_compute in H; discriminate.
Qed.

(** In a name without [filename=] and without a double quote, followed by a
    double quote, the separator does not start. *)
Lemma filename_quoted_not_in_name (b x : string) :
  contains "filename=" b = false ->
  String.prefix filename_quoted (b +:+ quote +:+ x) = false.
Proof.
  intros H. unfold filename_quoted, quote, quote_char in *.
  destruct b as [|c b]; [vm_compute; reflexivity|].
  do 8 (match_char b; destruct b as [|? b]; [vm_compute; reflexivity|]).
  match_char b. exfalso. destruct b; vm_compute in H; discriminate.
Qed.

Lemma prefix_single (a c : ascii) (t : string) :
  String.prefix (String a "") (String c t)
  = if ascii_dec a c then true else false.
Proof. cbn [String.prefix]. destruct (ascii_dec a c); by destruct t. Qed.

Lemma append_single_split (name a b : string) (q : ascii) :
  name +:+ String q "" = a +:+ b -> b <> "" ->
  exists b', b = b' +:+ String q "" /\ name = a +:+ b'.
Proof.
  revert name. induction a as [|c a IH]; intros name E Hb.
  - exists name. by rewrite !append_empty in *.
  - destruct name as [|d name].
    + rewrite append_empty, append_String in E. injection E as _ E.
      destruct a, b; try discriminate. done.
    + rewrite !append_String in E. injection E as -> E.
      destruct (IH name E Hb) as (b' & -> & ->). by exists b'.
Qed.

Lemma contains_intro (needle a b : string) :
  contains needle (a +:+ needle +:+ b) = true.
Proof.
  induction a as [|x a IH].
  - rewrite append_empty.
    assert (P : String.prefix needle (needle +:+ b) = true)
      by (apply prefix_spec; by exists b).
    destruct (needle +:+ b); cbn [contains]; by rewrite P.
  - rewrite append_String. cbn [contains].
    by destruct (String.prefix needle (String x (a +:+ needle +:+ b))).
Qed.

(** The split at the separator: the text before it, then a piece that
    starts with the name and its closing quote. *)
Lemma split_at_filename (pre name post : string) :
  contains filename_quoted pre = false ->
  contains "filename=" name = false ->
  exists z l,
    py_split filename_quoted
      (pre +:+ filename_quoted +:+ name +:+ quote +:+ post)
    = pre :: (name +:+ quote +:+ z) :: l.
Proof.
  intros Hpre Hname. unfold py_split.
  rewrite split_go_pre.
  2:{ intros a b -> Hb. apply filename_quoted_not_early; [done|].
      by apply contains_suffix in Hpre. }
  rewrite split_go_at_sep by done.
  rewrite <- (str_app_assoc name quote post).
  rewrite split_go_pre.
  2:{ intros a b E Hb.
      destruct (append_single_split name a b quote_char E Hb)
        as (b' & -> & ->).
      rewrite str_app_assoc. apply filename_quoted_not_in_name.
      by apply contains_suffix in Hname. }
  destruct (split_go_head filename_quoted post 0 ("" +:+ name +:+ quote))
    as (z & l & ->).
  exists z, l. by rewrite !append_empty, str_app_assoc.
Qed.

(** The split of that piece at the double quote starts with the name. *)
Lemma split_at_quote (name z : string) :
  contains quote name = false ->
  exists l, py_split quote (name +:+ quote +:+ z) = name :: l.
Proof.
  intros Hq. unfold py_split.
  rewrite split_go_pre.
  2:{ intros a b -> Hb. apply contains_suffix in Hq.
      destruct b as [|c b]; [done|]. rewrite append_String.
      apply contains_no_prefix in Hq. unfold quote in *.
      rewrite prefix_single in *. by destruct (ascii_dec quote_char c). }
  rewrite split_go_at_sep by done. rewrite append_empty. eauto.
Qed.

(** X8. The file name of a well-formed header comes back as it was
    written: with [filename=], a double quote, the name and a double quote,
    the separator not occurring before, and the name holding neither a
    double quote nor [filename=], [filename_of] returns the name. *)
Theorem filename_of_quoted_name (pre name post : string) :
  contains filename_quoted pre = false ->
  contains "filename=" name = false ->
  contains quote name = false ->
  UploadEntry.filename_of
    (pre +:+ filename_quoted +:+ name +:+ quote +:+ post)
  = Ok name.
Proof.
  intros Hpre Hname Hq. unfold UploadEntry.filename_of.
  destruct (split_at_filename pre name post Hpre Hname) as (z & l & ->).
  by destruct (split_at_quote name z Hq) as (l' & ->).
Qed.

Lemma filename_of_quoted_name_witness :
  UploadEntry.filename_of
    (sample_disposition_start +:+ filename_quoted +:+ "skript.pdf"
     +:+ quote +:+ "")
  = Ok "skript.pdf".
Proof.
  apply (filename_of_quoted_name sample_disposition_start "skript.pdf" "");
    reflexivity.
Defined.

Section UploadRequest.
Import UploadEntry.
Variable tb : toolbelt.
Variable lib : pylib.

Lemma collect_carried (parts : list part) (files : list (string * string)) :
  carries lib parts files ->
  forall acc, collect_files lib parts acc = Ok (acc ++ files).
Proof.
  induction 1 as [|p ps fs t Ht Hc _ IH
                  |p ps fs pre name post Ht Hp Hn Hq _ IH]; intros acc.
  - by rewrite app_nil_r.
  - cbn [collect_files]. unfold header_text in Ht. rewrite Ht.
    cbn [obind]. rewrite Hc. apply IH.
  - cbn [collect_files]. unfold header_text in Ht. rewrite Ht.
    cbn [obind].
    assert (C : contains "filename="
                  (pre +:+ filename_quoted +:+ name +:+ quote +:+ post)
                = true).
    { change filename_quoted with ("filename=" +:+ quote).
      rewrite (str_app_assoc "filename=" quote).
      apply contains_intro. }
    rewrite C. unfold filename_of.
    destruct (split_at_filename pre name post Hp Hn) as (z & l & ->).
    destruct (split_at_quote name z Hq) as (l' & ->).
    cbn [obind]. rewrite IH. by rewrite <- app_assoc.
Qed.

(** A part that mentions [filename=] without the quoted form makes the
    extraction raise, wherever it stands. *)
Lemma collect_unquoted (before after : list part) (p : part) (t : string) :
  header_text lib p = Ok t ->
  contains "filename=" t = true ->
  contains filename_quoted t = false ->
  forall acc, is_ok (collect_files lib (before ++ p :: after) acc) = false.
Proof.
  intros Ht Hc Hq. induction before as [|b before IH]; intros acc.
  - cbn [app collect_files]. unfold header_text in Ht. rewrite Ht.
    cbn [obind]. rewrite Hc. unfold filename_of, py_split.
    by rewrite (split_go_none _ _ _ Hq).
  - cbn [app collect_files].
    destruct (bytes_decode lib _) as [tb'|e]; [|done]. cbn [obind].
    destruct (contains "filename=" tb'); [|apply IH].
    destruct (filename_of tb') as [n|e]; [|done]. apply IH.
Qed.

Lemma handler_of_parts (event : json) (w : Upload.world) :
  lambda_handler tb lib event w
  = match obind (event_parts tb lib event)
            (fun parts => collect_files lib parts []) with
    | Ok files =>
        ({| statusCode := 200; headers := cors_headers;
            body := JStr "Dateien erfolgreich gespeichert." |},
         Upload.main Upload.s3_bucket_base_url Upload.s3_bucket_name files w)
    | Raise e =>
        ({| statusCode := 500; headers := cors_headers;
            body := JStr ("Fehler: " +:+ exn_msg e) |}, w)
    end.
Proof.
  unfold lambda_handler, event_parts, extract_files.
  destruct (py_getitem event "headers") as [h|e]; [|reflexivity].
  destruct (py_getitem event "body") as [b|e]; [|reflexivity].
  destruct (py_get event "isBase64Encoded" (JBool false)) as [f|e];
    [|reflexivity].
  reflexivity.
Qed.

End UploadRequest.

(** X9. An upload whose parts are well formed answers 200 and stores
    exactly the files the parts carry: parts that do not mention
    [filename=] (form fields) are passed over, each file part is stored
    under the name its header quotes with the content of the part, and the
    load requested afterwards names the URLs of these files, in the order
    of the parts. *)
Theorem upload_stores_carried_files (tb : UploadEntry.toolbelt) (lib : pylib)
    (event : json) (w : Upload.world) (parts : list UploadEntry.part)
    (files : list (string * string)) :
  UploadEntry.event_parts tb lib event = Ok parts ->
  UploadEntry.carries lib parts files ->
  let w' := (UploadEntry.lambda_handler tb lib event w).2 in
  statusCode (UploadEntry.lambda_handler tb lib event w).1 = 200%Z /\
  w' = Upload.main Upload.s3_bucket_base_url Upload.s3_bucket_name files w /\
  (NoDup (map fst files) ->
   forall f c, (f, c) ∈ files ->
     Upload.s3 w' !! (Upload.s3_bucket_name, f)
     = Some {| Upload.object_body := c;
               Upload.content_type := "application/pdf" |}) /\
  Upload.loads w'
  = Upload.loads w
    ++ [ {| Upload.load_urls :=
              map (Upload.object_url Upload.s3_bucket_base_url)
                  (map fst files);
            Upload.load_table := "pdf_documents";
            Upload.load_recreate := negb (Upload.table_exists w);
            Upload.load_upsert := true |} ].
Proof.
  intros Hp Hc w'. subst w'. rewrite handler_of_parts, Hp. cbn [obind].
  rewrite (collect_carried lib parts files Hc []). cbn [app fst snd].
  split; [done|]. split; [done|]. split; [|apply main_loads].
  intros ND f c Hf. rewrite main_s3. by apply save_lookup_distinct.
Qed.

(** A form field and a file: the file is stored and indexed. *)
Lemma upload_stores_carried_files_witness :
  statusCode (UploadEntry.lambda_handler sample_toolbelt sample_lib
                sample_upload_event old_world).1 = 200%Z /\
  (UploadEntry.lambda_handler sample_toolbelt sample_lib
     sample_upload_event old_world).2
  = Upload.main Upload.s3_bucket_base_url Upload.s3_bucket_name
      [("skript.pdf", "%PDF-skript")] old_world.
Proof.
  pose proof (upload_stores_carried_files sample_toolbelt sample_lib
                sample_upload_event old_world sample_parts
                [("skript.pdf", "%PDF-skript")] eq_refl) as H.
  cbv zeta in H.
  assert (C : UploadEntry.carries sample_lib sample_parts
                [("skript.pdf", "%PDF-skript")]).
  { eapply UploadEntry.carries_skip; [reflexivity|reflexivity|].
    apply (UploadEntry.carries_file sample_lib
             (UploadEntry.mkPart (Some sample_disposition) "%PDF-skript")
             [] [] sample_disposition_start "skript.pdf" "");
      try reflexivity. constructor. }
  destruct (H C) as (H1 & H2 & _). by split.
Defined.

(** X10. One file part without a quoted name fails the whole upload: when
    some part mentions [filename=] but not in the quoted form, the handler
    answers 500 and stores and indexes nothing, also not the well-formed
    files that stand before or after it. *)
Theorem unquoted_filename_stores_nothing (tb : UploadEntry.toolbelt)
    (lib : pylib) (event : json) (w : Upload.world)
    (before after : list UploadEntry.part) (p : UploadEntry.part)
    (t : string) :
  UploadEntry.event_parts tb lib event = Ok (before ++ p :: after) ->
  UploadEntry.header_text lib p = Ok t ->
  contains "filename=" t = true ->
  contains filename_quoted t = false ->
  statusCode (UploadEntry.lambda_handler tb lib event w).1 = 500%Z /\
  (UploadEntry.lambda_handler tb lib event w).2 = w.
Proof.
  intros Hp Ht Hc Hq. rewrite handler_of_parts, Hp. cbn [obind].
  pose proof (collect_unquoted lib before after p t Ht Hc Hq []) as H.
  by destruct (UploadEntry.collect_files lib (before ++ p :: after) []).
Qed.

Lemma unquoted_filename_stores_nothing_witness :
  statusCode (UploadEntry.lambda_handler unquoted_toolbelt sample_lib
                sample_upload_event old_world).1 = 500%Z /\
  (UploadEntry.lambda_handler unquoted_toolbelt sample_lib
     sample_upload_event old_world).2 = old_world.
Proof.
  apply (unquoted_filename_stores_nothing unquoted_toolbelt sample_lib
           sample_upload_event old_world sample_parts [] unquoted_part
           "form-data; name=file; filename=skript.pdf");
    reflexivity.
Defined.

(** X11. Uploads compose: the first upload leaves the vector table in
    existence, so the load of a second upload never recreates it, and
    uploading the same files again (with distinct names) leaves the bucket
    as it is. *)
Theorem second_upload_keeps_table (base bucket : string)
    (files1 files2 : list (string * string)) (w : Upload.world) :
  let w1 := Upload.main base bucket files1 w in
  let w2 := Upload.main base bucket files2 w1 in
  Upload.table_exists w1 = true /\
  (exists l1 l2,
      Upload.loads w2 = Upload.loads w ++ [l1; l2] /\
      Upload.load_recreate l1 = negb (Upload.table_exists w) /\
      Upload.load_recreate l2 = false /\
      Upload.load_urls l2 = map (Upload.object_url base) (map fst files2)) /\
  (NoDup (map fst files1) ->
   Upload.s3 (Upload.main base bucket files1 w1) = Upload.s3 w1).
Proof.
  intros w1 w2. subst w1 w2. split; [apply main_table_exists|]. split.
  - eexists _, _. rewrite !main_loads, main_table_exists, <- app_assoc.
    by repeat split.
  - intros ND. rewrite !main_s3. apply map_eq. intros [b k].
    set (w1 := Upload.main base bucket files1 w).
    destruct (decide (b = bucket /\ k ∈ map fst files1)) as [[-> Hk]|Hn].
    + apply list_elem_of_fmap in Hk as [[f c] [-> Hf]]. cbn [fst].
      by rewrite !(save_lookup_distinct bucket files1 _ f c ND Hf).
    + assert (Ho : b <> bucket \/ k ∉ map fst files1).
      { destruct (decide (b = bucket)) as [->|]; [right|by left].
        intros Hk. by apply Hn. }
      rewrite (save_lookup_other bucket files1 w1 b k Ho). subst w1.
      by rewrite main_s3.
Qed.

Lemma second_upload_keeps_table_witness :
  Upload.s3 (Upload.main Upload.s3_bucket_base_url Upload.s3_bucket_name
               [("neu.pdf", "%PDF-neu")]
               (Upload.main Upload.s3_bucket_base_url Upload.s3_bucket_name
                  [("neu.pdf", "%PDF-neu")] old_world))
  = Upload.s3 (Upload.main Upload.s3_bucket_base_url Upload.s3_bucket_name
                 [("neu.pdf", "%PDF-neu")] old_world).
Proof.
  apply (proj2 (proj2 (second_upload_keeps_table
                         Upload.s3_bucket_base_url Upload.s3_bucket_name
                         [("neu.pdf", "%PDF-neu")] [] old_world))).
  apply NoDup_cons_2; [apply not_elem_of_nil | apply NoDup_nil_2].
Defined.

(** ** The edge function *)

Section EdgeParameters.
Import Js GenerateQuestions.
Variable rt : runtime.

Lemma prop_insert (p : gmap string value) (k : string) (v : value) :
  prop (<[k := v]> p) k = v.
Proof. unfold prop. by rewrite lookup_insert_eq. Qed.

Lemma prop_insert_ne (p : gmap string value) (k k' : string) (v : value) :
  k <> k' -> prop (<[k := v]> p) k' = prop p k'.
Proof. intros H. unfold prop. by rewrite lookup_insert_ne. Qed.

Lemma defaults_checked : checked rt defaults.
Proof. repeat split; try by vm_compute. Qed.

Lemma validated_lookup_other (p : gmap string value) (k : string) :
  k ∉ ["schwierigkeitsgrad"; "fragetyp"; "anzahl_fragen"] ->
  validated rt p !! k = p !! k.
Proof.
  intros Hk. unfold validated.
  assert (H1 : "schwierigkeitsgrad" <> k) by (intros <-; apply Hk; set_solver).
  assert (H2 : "fragetyp" <> k) by (intros <-; apply Hk; set_solver).
  assert (H3 : "anzahl_fragen" <> k) by (intros <-; apply Hk; set_solver).
  repeat case_match; by rewrite ?lookup_insert_ne.
Qed.

Lemma validated_keys (p : gmap string value) (k : string) :
  is_Some (p !! k) -> is_Some (validated rt p !! k).
Proof.
  intros H. unfold validated.
  repeat case_match; rewrite ?lookup_insert_is_Some'; auto.
Qed.

Lemma validated_checked (p : gmap string value) :
  (forall k, is_Some (defaults !! k) -> is_Some (p !! k)) ->
  checked rt (validated rt p).
Proof.
  intros Hk. unfold checked, validated.
  set (p1 := if includes _ (prop p "schwierigkeitsgrad") then p else _).
  set (p2 := if includes _ (prop p1 "fragetyp") then p1 else _).
  assert (H1 : includes ["leicht"; "mittel"; "schwer"]
                 (prop p1 "schwierigkeitsgrad") = true).
  { subst p1. destruct (includes _ (prop p "schwierigkeitsgrad")) eqn:E;
      [done|]. by rewrite prop_insert. }
  assert (H2 : includes ["Verständnisfragen"; "Rechenfragen"]
                 (prop p2 "fragetyp") = true).
  { subst p2. destruct (includes _ (prop p1 "fragetyp")) eqn:E; [done|].
    by rewrite prop_insert. }
  assert (H12 : prop p2 "schwierigkeitsgrad" = prop p1 "schwierigkeitsgrad").
  { subst p2. destruct (includes _ (prop p1 "fragetyp")); [done|].
    by rewrite prop_insert_ne. }
  assert (K : forall k, is_Some (defaults !! k) -> is_Some (p2 !! k)).
  { intros k H%Hk. subst p2 p1.
    repeat case_match; rewrite ?lookup_insert_is_Some'; auto. }
  destruct (less_than rt (prop p2 "anzahl_fragen") (num 1)) eqn:E1;
    [|destruct (greater_than rt (prop p2 "anzahl_fragen") (num 20)) eqn:E2];
    cbn [orb]; rewrite ?prop_insert_ne, ?prop_insert by done;
    rewrite ?H12; split_and!; try done.
  all: intros k H%K; rewrite lookup_insert_is_Some'; auto.
Qed.

Lemma extractedParams_checked (data : value) :
  checked rt (extractedParams rt data).
Proof.
  unfold extractedParams, parsed_params.
  destruct (extractedContent rt data) as [content|e]; cbn [cbind];
    [|apply defaults_checked].
  destruct (JSON_parse rt (to_string rt content)) as [parsed|e];
    cbn [cbind]; [|apply defaults_checked].
  apply validated_checked. intros k H.
  apply lookup_union_is_Some. by right.
Qed.

Lemma extractedParams_of_parsed (data content parsed : value) :
  extractedContent rt data = Normal content ->
  JSON_parse rt (to_string rt content) = Normal parsed ->
  extractedParams rt data
  = validated rt (own_properties rt parsed ∪ defaults).
Proof.
  intros H1 H2. unfold extractedParams, parsed_params.
  by rewrite H1; cbn [cbind]; rewrite H2.
Qed.

End EdgeParameters.

(** X12. A count that is a number is kept when it is neither below 1 nor
    above 20, fractions included, and is otherwise replaced by the default
    5, not by the nearest bound. *)
Theorem count_out_of_range_becomes_default (rt : Js.runtime)
    (data content : Js.value) (o : gmap string Js.value) (n : Js.number) :
  GenerateQuestions.extractedContent rt data = Js.Normal content ->
  Js.JSON_parse rt (Js.to_string rt content) = Js.Normal (Js.Object o) ->
  o !! "anzahl_fragen" = Some (Js.Number n) ->
  Js.prop (GenerateQuestions.extractedParams rt data) "anzahl_fragen"
  = Js.Number (if SFltb n (Js.num 1) || SFltb (Js.num 20) n
               then Js.num 5 else n).
Proof.
  intros H1 H2 Hn.
  rewrite (extractedParams_of_parsed rt data content _ H1 H2).
  cbn [Js.own_properties]. unfold GenerateQuestions.validated.
  set (p := o ∪ GenerateQuestions.defaults).
  set (p1 := if Js.includes _ (Js.prop p "schwierigkeitsgrad") then p else _).
  set (p2 := if Js.includes _ (Js.prop p1 "fragetyp") then p1 else _).
  assert (E : Js.prop p2 "anzahl_fragen" = Js.Number n).
  { subst p2 p1.
    repeat case_match; rewrite ?prop_insert_ne by done;
      unfold Js.prop, p; by rewrite (lookup_union_Some_l _ _ _ _ Hn). }
  rewrite E. unfold Js.less_than, Js.greater_than. cbn [Js.to_number].
  destruct (SFltb n (Js.num 1) || SFltb (Js.num 20) n);
    [by rewrite prop_insert | done].
Qed.

Lemma count_out_of_range_becomes_default_witness :
  Js.prop (GenerateQuestions.extractedParams chat_runtime chat_extraction)
    "anzahl_fragen"
  = Js.Number (Js.num 5).
Proof.
  exact (count_out_of_range_becomes_default chat_runtime chat_extraction
           (Js.Str "params")
           {[ "anzahl_fragen" := Js.Number (Js.num 25);
              "thema" := Js.Str "Varianz";
              "fragetyp" := Js.Str "Rechenfragen" ]}
           (Js.num 25) eq_refl eq_refl eq_refl).
Defined.

(** X13. Topic, audience, keywords and any further key of the extracted
    object are not checked: they reach the parameters as they were parsed,
    of whatever type, and a key the object lacks has its default. *)
Theorem unchecked_parameters_pass_through (rt : Js.runtime)
    (data content parsed : Js.value) (k : string) :
  GenerateQuestions.extractedContent rt data = Js.Normal content ->
  Js.JSON_parse rt (Js.to_string rt content) = Js.Normal parsed ->
  k ∉ ["schwierigkeitsgrad"; "fragetyp"; "anzahl_fragen"] ->
  GenerateQuestions.extractedParams rt data !! k
  = match Js.own_properties rt parsed !! k with
    | Some v => Some v
    | None => GenerateQuestions.defaults !! k
    end.
Proof.
  intros H1 H2 Hk.
  rewrite (extractedParams_of_parsed rt data content _ H1 H2).
  rewrite validated_lookup_other by done.
  rewrite lookup_union. by destruct (Js.own_properties rt parsed !! k), (GenerateQuestions.defaults !! k).
Qed.

Lemma unchecked_parameters_pass_through_witness :
  GenerateQuestions.extractedParams chat_runtime chat_extraction !! "thema"
  = Some (Js.Str "Varianz").
Proof.
  refine (eq_trans
            (unchecked_parameters_pass_through chat_runtime chat_extraction
               (Js.Str "params") chat_extracted "thema" eq_refl eq_refl _)
            eq_refl).
  rewrite !not_elem_of_cons. split_and!; try done. apply not_elem_of_nil.
Defined.

Section EdgeHandler.
Import Js GenerateQuestions.
Variable rt : runtime.
Variable sv : services.

(** The steps of [attempt], one after the other. *)
Lemma edge_attempt_cases (req : request) :
  (exists e, attempt rt sv req = (Throw e, [])) \/
  exists payload history courseId teacherId latest,
    JSON_parse rt (request_body req) = Normal payload /\
    get rt payload "conversationHistory" = Normal history /\
    get rt payload "courseId" = Normal courseId /\
    get rt payload "teacherId" = Normal teacherId /\
    latestUserMessage rt history = Normal latest /\
    let a := JSON_stringify rt (extraction_request rt latest) in
    ((exists e, attempt rt sv req = (Throw e, [CallOpenAI a])) \/
     exists r data,
       openai sv a = Normal r /\ ok r = true /\
       JSON_parse rt (text r) = Normal data /\
       let p := extractedParams rt data in
       let b := JSON_stringify rt (Object p) in
       ((exists e, attempt rt sv req
                   = (Throw e, [CallOpenAI a; CallLambda b])) \/
        exists r' result qs rows,
          lambda sv b = Normal r' /\ ok r' = true /\
          JSON_parse rt (text r') = Normal result /\
          questions_of rt result = Normal qs /\ qs <> [] /\
          pendingQuestions rt courseId teacherId p history qs
          = Normal rows /\
          let calls := [CallOpenAI a; CallLambda b; CallInsert rows] in
          ((exists e, attempt rt sv req = (Throw e, calls) /\
                      forall d, insert_pending sv rows <> Normal (d, Null)) \/
           exists d er,
             insert_pending sv rows = Normal (d, er) /\
             truthy er = false /\
             attempt rt sv req
             = (Normal {| response_body :=
                            Some (JSON_stringify rt (Object
                              {[ "success" := Bool true;
                                 "questionsGenerated" :=
                                   Number (num (Z.of_nat (length qs)));
                                 "extractedParams" := Object p;
                                 "pendingQuestions" := d ]}));
                          response_status := 200;
                          response_headers := json_headers |}, calls)))).
Proof.
  cbv zeta. unfold attempt, tbind, tlift, called, tthrow, tret.
  destruct (JSON_parse rt (request_body req)) as [payload|e] eqn:E1;
    [|eauto].
  destruct (get rt payload "conversationHistory") as [history|e] eqn:E2;
    [|eauto].
  destruct (get rt payload "courseId") as [courseId|e] eqn:E3; [|eauto].
  destruct (get rt payload "teacherId") as [teacherId|e] eqn:E4; [|eauto].
  destruct (latestUserMessage rt history) as [latest|e] eqn:E5; [|eauto].
  right. exists payload, history, courseId, teacherId, latest.
  split_and!; try done.
  destruct (openai sv (JSON_stringify rt (extraction_request rt latest)))
    as [r|e] eqn:Eo; [|eauto].
  destruct (ok r) eqn:Eok; cbn [negb]; [|eauto].
  destruct (JSON_parse rt (text r)) as [data|e] eqn:Ed; [|eauto].
  right. exists r, data. split_and!; try done.
  destruct (lambda sv (JSON_stringify rt (Object (extractedParams rt data))))
    as [r'|e] eqn:El; [|eauto].
  destruct (ok r') eqn:Eok'; cbn [negb]; [|eauto].
  destruct (JSON_parse rt (text r')) as [result|e] eqn:Er; [|eauto].
  destruct (questions_of rt result) as [qs|e] eqn:Eq; [|eauto].
  case_bool_decide as Hlen; [eauto|].
  destruct (pendingQuestions rt courseId teacherId (extractedParams rt data)
              history qs) as [rows|e] eqn:Ep; [|eauto].
  right. exists r', result, qs, rows. split_and!; try done.
  { by destruct qs. }
  destruct (insert_pending sv rows) as [[d er]|e] eqn:Ei.
  - destruct (truthy er) eqn:Et.
    + left. eexists. split; [done|]. intros d' [= -> ->]. done.
    + right. by exists d, er.
  - left. eexists. split; [done|]. done.
Qed.

End EdgeHandler.

Section EdgeRows.
Import Js GenerateQuestions.
Variable rt : runtime.

Lemma handler_calls (sv : services) (req : request) :
  (handler rt sv req).2
  = if String.eqb (method req) "OPTIONS" then []
    else (attempt rt sv req).2.
Proof.
  unfold handler. destruct (String.eqb (method req) "OPTIONS"); [done|].
  by destruct (attempt rt sv req) as [[r|e] calls].
Qed.

Lemma handler_status (sv : services) (req : request) :
  response_status (handler rt sv req).1
  = if String.eqb (method req) "OPTIONS" then 200%Z
    else match (attempt rt sv req).1 with
         | Normal r => response_status r
         | Throw _ => 500%Z
         end.
Proof.
  unfold handler. destruct (String.eqb (method req) "OPTIONS"); [done|].
  by destruct (attempt rt sv req) as [[r|e] calls].
Qed.

Lemma pendingQuestion_row (courseId teacherId history q row : value)
    (p : gmap string value) :
  pendingQuestion rt courseId teacherId p history q = Normal row ->
  pending_row courseId teacherId p row.
Proof.
  unfold pendingQuestion, cbind.
  destruct (get rt q "question_text") as [t|e]; [|done].
  destruct (get rt q "question_type") as [ty|e]; [|done].
  destruct (get rt q "options") as [op|e]; [|done].
  destruct (if truthy op then Normal op
            else get rt q "multiple_choice_options") as [op'|e]; [|done].
  destruct (get rt q "correct_answer") as [c|e]; [|done].
  intros [= <-]. eexists. split; [reflexivity|].
  split_and!; try reflexivity.
  destruct (truthy ty) eqn:E.
  - exists ty. by split.
  - eexists. by split.
Qed.

Lemma pendingQuestions_rows (courseId teacherId history : value)
    (p : gmap string value) (qs rows : list value) :
  pendingQuestions rt courseId teacherId p history qs = Normal rows ->
  Forall2 (fun q row =>
             pendingQuestion rt courseId teacherId p history q = Normal row)
    qs rows.
Proof.
  revert rows. induction qs as [|q qs IH]; intros rows.
  - intros [= <-]. constructor.
  - cbn [pendingQuestions]. unfold cbind at 1.
    destruct (pendingQuestion rt courseId teacherId p history q)
      as [row|e] eqn:E; [|done].
    unfold cbind.
    destruct (pendingQuestions rt courseId teacherId p history qs)
      as [rows'|e]; [|done].
    intros [= <-]. constructor; [done|]. by apply IH.
Qed.

End EdgeRows.

(** X14. The generation lambda is called only with checked parameters,
    and only after OpenAI has answered with a status from 200 to 299 and a
    body that parses: the body of the call is the text of an object that
    has every key of the defaults, a difficulty among leicht, mittel and
    schwer, a style among Verständnisfragen and Rechenfragen, and a count
    that compares neither below 1 nor above 20.  This holds also when the
    content OpenAI sent is no JSON or no object; the parameters are then
    the defaults. *)
Theorem lambda_receives_checked_parameters (rt : Js.runtime)
    (sv : GenerateQuestions.services) (req : GenerateQuestions.request)
    (b : string) :
  GenerateQuestions.CallLambda b ∈ (GenerateQuestions.handler rt sv req).2 ->
  exists a r data,
    GenerateQuestions.openai sv a = Js.Normal r /\
    GenerateQuestions.ok r = true /\
    Js.JSON_parse rt (GenerateQuestions.text r) = Js.Normal data /\
    b = Js.JSON_stringify rt
          (Js.Object (GenerateQuestions.extractedParams rt data)) /\
    checked rt (GenerateQuestions.extractedParams rt data).
Proof.
  rewrite handler_calls.
  destruct (String.eqb _ "OPTIONS"); [by intros ?%elem_of_nil|].
  destruct (edge_attempt_cases rt sv req) as [[e ->]|H];
    [by intros ?%elem_of_nil|].
  destruct H as (payload & history & courseId & teacherId & latest
                 & _ & _ & _ & _ & _ & H). cbv zeta in H.
  destruct H as [[e ->]|(r & data & Ho & Hok & Hd & H)].
  { cbn [snd]. intros H%list_elem_of_singleton. done. }
  intros Hin.
  assert (b = Js.JSON_stringify rt
                (Js.Object (GenerateQuestions.extractedParams rt data)))
    as ->.
  { destruct H as [[e E]|(r' & result & qs & rows & _ & _ & _ & _ & _ & _
                          & [[e [E _]]|(d & er & _ & _ & E)])];
      rewrite E in Hin; cbn [snd] in Hin;
      repeat (apply elem_of_cons in Hin as [Hin|Hin]; [by simplify_eq|]);
      by apply elem_of_nil in Hin. }
  eexists _, r, data. split_and!; try done.
  apply extractedParams_checked.
Qed.

Lemma lambda_receives_checked_parameters_witness :
  exists a r data,
    GenerateQuestions.openai chat_services a = Js.Normal r /\
    GenerateQuestions.ok r = true /\
    Js.JSON_parse chat_runtime (GenerateQuestions.text r) = Js.Normal data /\
    "params" = Js.JSON_stringify chat_runtime
                 (Js.Object (GenerateQuestions.extractedParams chat_runtime
                               data)) /\
    checked chat_runtime (GenerateQuestions.extractedParams chat_runtime data).
Proof.
  apply (lambda_receives_checked_parameters chat_runtime chat_services
           chat_post "params").
  vm_compute. apply elem_of_cons. right. apply elem_of_cons. by left.
Defined.

(** X15. The calls come in one order and each needs the one before: the
    function calls OpenAI, then the lambda, then the insert, and stops at
    the first step that fails.  It answers 200 or 500, and a POST is
    answered 200 only when all three calls were made, rows were handed to
    the insert and the insert reported no error. *)
Theorem questions_stored_before_success (rt : Js.runtime)
    (sv : GenerateQuestions.services) (req : GenerateQuestions.request) :
  let answer := (GenerateQuestions.handler rt sv req).1 in
  let calls := (GenerateQuestions.handler rt sv req).2 in
  (exists a b rows,
      calls `prefix_of` [ GenerateQuestions.CallOpenAI a;
                          GenerateQuestions.CallLambda b;
                          GenerateQuestions.CallInsert rows ]) /\
  (GenerateQuestions.response_status answer = 200%Z \/
   GenerateQuestions.response_status answer = 500%Z) /\
  (GenerateQuestions.response_status answer = 200%Z ->
   GenerateQuestions.method req <> "OPTIONS" ->
   exists a b rows d er,
     calls = [ GenerateQuestions.CallOpenAI a;
               GenerateQuestions.CallLambda b;
               GenerateQuestions.CallInsert rows ] /\
     rows <> [] /\
     GenerateQuestions.insert_pending sv rows = Js.Normal (d, er) /\
     Js.truthy er = false).
Proof.
  cbv zeta. rewrite handler_calls, handler_status.
  destruct (String.eqb_spec (GenerateQuestions.method req) "OPTIONS")
    as [Hm|Hm].
  { split; [|split; [by left|done]].
    exists "", "", []. apply prefix_nil. }
  destruct (edge_attempt_cases rt sv req) as [[e ->]|H].
  { cbn [fst snd]. split; [|split; [by right|done]].
    exists "", "", []. apply prefix_nil. }
  destruct H as (payload & history & courseId & teacherId & latest
                 & _ & _ & _ & _ & _ & H). cbv zeta in H.
  destruct H as [[e ->]|(r & data & _ & _ & _ & H)].
  { cbn [fst snd]. split; [|split; [by right|done]].
    eexists _, "", []. by eexists [_; _]. }
  destruct H as [[e ->]|(r' & result & qs & rows & _ & _ & _ & _ & Hqs & Hp
                         & H)].
  { cbn [fst snd]. split; [|split; [by right|done]].
    eexists _, _, []. by eexists [_]. }
  destruct H as [[e [-> _]]|(d & er & Hi & Ht & ->)]; cbn [fst snd].
  - split; [|split; [by right|done]]. by eexists _, _, _.
  - split; [by eexists _, _, _|]. split; [by left|].
    intros _ _. eexists _, _, rows, d, er. split_and!; try done.
    intros ->. apply pendingQuestions_rows in Hp.
    apply Forall2_length in Hp. by destruct qs.
Qed.

(** X16. The insert is handed pending questions only: when the function
    calls the insert, the lambda has answered with a status from 200 to 299
    and a body whose questions are not empty, and the rows are one per
    question, in their order, each an object with the course and teacher
    of the request, the checked style of the parameters, a truthy question
    type and the status pending. *)
Theorem inserted_rows_are_pending_questions (rt : Js.runtime)
    (sv : GenerateQuestions.services) (req : GenerateQuestions.request)
    (rows : list Js.value) :
  GenerateQuestions.CallInsert rows
    ∈ (GenerateQuestions.handler rt sv req).2 ->
  exists payload courseId teacherId history p b r' result qs,
    Js.JSON_parse rt (GenerateQuestions.request_body req)
    = Js.Normal payload /\
    Js.get rt payload "courseId" = Js.Normal courseId /\
    Js.get rt payload "teacherId" = Js.Normal teacherId /\
    Js.get rt payload "conversationHistory" = Js.Normal history /\
    checked rt p /\
    GenerateQuestions.lambda sv b = Js.Normal r' /\
    GenerateQuestions.ok r' = true /\
    Js.JSON_parse rt (GenerateQuestions.text r') = Js.Normal result /\
    GenerateQuestions.questions_of rt result = Js.Normal qs /\
    qs <> [] /\
    Forall2 (fun q row =>
               GenerateQuestions.pendingQuestion rt courseId teacherId p
                 history q = Js.Normal row) qs rows /\
    Forall (pending_row courseId teacherId p) rows.
Proof.
  rewrite handler_calls.
  destruct (String.eqb _ "OPTIONS"); [by intros ?%elem_of_nil|].
  destruct (edge_attempt_cases rt sv req) as [[e ->]|H];
    [by intros ?%elem_of_nil|].
  destruct H as (payload & history & courseId & teacherId & latest
                 & E1 & E2 & E3 & E4 & _ & H). cbv zeta in H.
  destruct H as [[e ->]|(r & data & _ & _ & _ & H)].
  { cbn [snd]. intros H%list_elem_of_singleton. done. }
  destruct H as [[e ->]|(r' & result & qs & rows' & El & Hok & Er & Eq & Hqs
                         & Hp & H)].
  { cbn [snd]. intros Hin.
    repeat (apply elem_of_cons in Hin as [Hin|Hin]; [by simplify_eq|]).
    by apply elem_of_nil in Hin. }
  intros Hin.
  assert (rows = rows') as ->.
  { destruct H as [[e [E _]]|(d & er & _ & _ & E)];
      rewrite E in Hin; cbn [snd] in Hin;
      repeat (apply elem_of_cons in Hin as [Hin|Hin]; [by simplify_eq|]);
      by apply elem_of_nil in Hin. }
  apply pendingQuestions_rows in Hp.
  exists payload, courseId, teacherId, history,
    (GenerateQuestions.extractedParams rt data).
  eexists _, r', result, qs. split_and!; try done.
  - apply extractedParams_checked.
  - clear -Hp. induction Hp as [|q row qs rows Hrow _ IH]; constructor;
      [by eapply pendingQuestion_row | done].
Qed.

Lemma inserted_rows_are_pending_questions_witness :
  exists payload courseId teacherId history p b r' result qs,
    Js.JSON_parse chat_runtime (GenerateQuestions.request_body chat_post)
    = Js.Normal payload /\
    Js.get chat_runtime payload "courseId" = Js.Normal courseId /\
    Js.get chat_runtime payload "teacherId" = Js.Normal teacherId /\
    Js.get chat_runtime payload "conversationHistory" = Js.Normal history /\
    checked chat_runtime p /\
    GenerateQuestions.lambda chat_services b = Js.Normal r' /\
    GenerateQuestions.ok r' = true /\
    Js.JSON_parse chat_runtime (GenerateQuestions.text r')
    = Js.Normal result /\
    GenerateQuestions.questions_of chat_runtime result = Js.Normal qs /\
    qs <> [] /\
    Forall2 (fun q row =>
               GenerateQuestions.pendingQuestion chat_runtime courseId
                 teacherId p history q = Js.Normal row) qs
      (match (GenerateQuestions.handler chat_runtime chat_services
                chat_post).2 with
       | [_; _; GenerateQuestions.CallInsert rows] => rows
       | _ => []
       end) /\
    Forall (pending_row courseId teacherId p)
      (match (GenerateQuestions.handler chat_runtime chat_services
                chat_post).2 with
       | [_; _; GenerateQuestions.CallInsert rows] => rows
       | _ => []
       end).
Proof.
  apply (inserted_rows_are_pending_questions chat_runtime chat_services
           chat_post).
  vm_compute. do 2 (apply elem_of_cons; right). apply elem_of_cons. by left.
Defined.

(** X17. The questions are taken from two places of the lambda's answer
    and from nowhere else: a list that is not empty is found exactly when
    the answer is an object whose [questions] is that array, or whose
    [questions] is an object whose [questions] is that array. *)
Theorem questions_found_in_two_shapes (rt : Js.runtime)
    (result : Js.value) (l : list Js.value) :
  GenerateQuestions.questions_of rt result = Js.Normal l /\ l <> []
  <->
  l <> [] /\
  exists o,
    result = Js.Object o /\
    (o !! "questions" = Some (Js.Array l) \/
     exists inner,
       o !! "questions" = Some (Js.Object inner) /\
       inner !! "questions" = Some (Js.Array l)).
Proof.
  unfold GenerateQuestions.questions_of. split.
  - intros [H Hl]. split; [done|].
    destruct result as [| |b|n|s|xs|o]; simplify_eq/=; try done.
    exists o. split; [done|].
    destruct (o !! "questions") as [qs|] eqn:E; simplify_eq/=; try done.
    destruct qs as [| |b|n|s|xs|inner]; simplify_eq/=; try done.
    + by left.
    + right. exists inner. split; [done|].
      destruct (inner !! "questions") as [[| |b|n|s|xs|i]|];
        simplify_eq/=; done.
  - intros [Hl (o & -> & [E|(inner & E & Ei)])]; (split; [|done]);
      cbn; rewrite E; cbn; [done|]. by rewrite Ei.
Qed.

Section EdgeHistory.
Import Js GenerateQuestions.
Variable rt : runtime.

Lemma userMessages_app (l1 l2 : list value) :
  userMessages rt (l1 ++ l2)
  = cbind (userMessages rt l1) (fun a =>
    cbind (userMessages rt l2) (fun b => Normal (a ++ b))).
Proof.
  induction l1 as [|x l1 IH]; cbn [app userMessages].
  - unfold cbind. by destruct (userMessages rt l2).
  - rewrite IH. unfold cbind.
    destruct (get rt x "role") as [role|e]; [|done].
    destruct (userMessages rt l1) as [a|e]; [|done].
    destruct (userMessages rt l2) as [b|e]; [|done].
    by destruct (strict_equals role "user").
Qed.

Lemma userMessages_defined (l : list value) :
  Forall (fun x => x <> Null /\ x <> Undefined) l ->
  exists us, userMessages rt l = Normal us.
Proof.
  induction 1 as [|x l [Hn Hu] _ [us IH]]; [by exists []|].
  cbn [userMessages]. rewrite IH.
  destruct x; try done; cbn; eauto.
Qed.

Lemma userMessages_none (l : list value) :
  Forall (fun x => x <> Null /\ x <> Undefined) l ->
  Forall (fun x => get rt x "role" <> Normal (Str "user")) l ->
  userMessages rt l = Normal [].
Proof.
  induction 1 as [|x l [Hn Hu] _ IH]; [done|].
  intros [Hx Hl]%Forall_cons. cbn [userMessages]. rewrite (IH Hl).
  destruct (get rt x "role") as [role|e] eqn:E.
  - cbn. destruct role as [| |b|n|s|xs|o]; try done. cbn.
    destruct (String.eqb_spec s "user") as [->|]; done.
  - by destruct x.
Qed.

Lemma userMessages_null (l : list value) :
  Null ∈ l -> exists e, userMessages rt l = Throw e.
Proof.
  induction l as [|x l IH]; [by intros ?%elem_of_nil|].
  intros [<-|H]%elem_of_cons; cbn [userMessages].
  - cbn. eauto.
  - destruct (IH H) as [e ->]. unfold cbind.
    destruct (get rt x "role"); eauto.
Qed.

End EdgeHistory.

(** X18. Only the last user message counts: of a history without null
    entries, the text put into the extraction prompt is the content of the
    last entry whose role is user, or the empty string when that content is
    falsy; the entries before it, user messages included, and the entries
    of other roles after it play no part. *)
Theorem only_last_user_message_counts (rt : Js.runtime)
    (before after : list Js.value) (m : gmap string Js.value) :
  Forall (fun x => x <> Js.Null /\ x <> Js.Undefined) (before ++ after) ->
  m !! "role" = Some (Js.Str "user") ->
  Forall (fun x => Js.get rt x "role" <> Js.Normal (Js.Str "user")) after ->
  GenerateQuestions.latestUserMessage rt
    (Js.Array (before ++ Js.Object m :: after))
  = Js.Normal (if Js.truthy (Js.prop m "content")
               then Js.prop m "content" else Js.Str "").
Proof.
  intros [Hb Ha]%Forall_app Hm Hafter.
  unfold GenerateQuestions.latestUserMessage.
  rewrite userMessages_app.
  destruct (userMessages_defined rt before Hb) as [us ->].
  cbn [Js.cbind GenerateQuestions.userMessages Js.get]. rewrite Hm.
  rewrite (userMessages_none rt after Ha Hafter).
  change (Js.strict_equals (default Js.Undefined (Some (Js.Str "user")))
            "user") with true.
  cbn [Js.cbind]. rewrite last_snoc. cbn [Js.cbind Js.get]. done.
Qed.

Lemma only_last_user_message_counts_witness :
  GenerateQuestions.latestUserMessage chat_runtime
    (Js.Array ([ Js.Object {[ "role" := Js.Str "user";
                             "content" := Js.Str "Hallo" ]} ]
               ++ Js.Object {[ "role" := Js.Str "user";
                               "content" := Js.Str "3 mehr" ]}
               :: [ Js.Object {[ "role" := Js.Str "assistant";
                                 "content" := Js.Str "Gern." ]} ]))
  = Js.Normal (Js.Str "3 mehr").
Proof.
  refine (eq_trans
            (only_last_user_message_counts chat_runtime
               [ Js.Object {[ "role" := Js.Str "user";
                              "content" := Js.Str "Hallo" ]} ]
               [ Js.Object {[ "role" := Js.Str "assistant";
                              "content" := Js.Str "Gern." ]} ]
               {[ "role" := Js.Str "user"; "content" := Js.Str "3 mehr" ]}
               _ eq_refl _)
            eq_refl).
  - repeat constructor; discriminate.
  - repeat constructor. vm_compute. discriminate.
Defined.

(** X19. A request whose history is no array, or is an array with a null
    entry, is answered 500 before any service is called. *)
Theorem bad_history_fails_before_any_call (rt : Js.runtime)
    (sv : GenerateQuestions.services) (req : GenerateQuestions.request)
    (payload history : Js.value) :
  GenerateQuestions.method req <> "OPTIONS" ->
  Js.JSON_parse rt (GenerateQuestions.request_body req)
  = Js.Normal payload ->
  Js.get rt payload "conversationHistory" = Js.Normal history ->
  (forall msgs, history = Js.Array msgs -> Js.Null ∈ msgs) ->
  GenerateQuestions.response_status
    (GenerateQuestions.handler rt sv req).1 = 500%Z /\
  (GenerateQuestions.handler rt sv req).2 = [].
Proof.
  intros Hm Hp Hh Hbad.
  assert (exists e, GenerateQuestions.latestUserMessage rt history
                    = Js.Throw e) as [e He].
  { unfold GenerateQuestions.latestUserMessage.
    destruct history as [| |b|n|s|msgs|o]; eauto.
    destruct (userMessages_null rt msgs (Hbad msgs eq_refl)) as [e ->].
    cbn. eauto. }
  rewrite handler_calls, handler_status.
  destruct (String.eqb_spec (GenerateQuestions.method req) "OPTIONS");
    [done|].
  destruct (edge_attempt_cases rt sv req) as [[e' ->]|H]; [done|].
  destruct H as (payload' & history' & courseId & teacherId & latest
                 & E1 & E2 & _ & _ & E5 & _).
  rewrite Hp in E1. simplify_eq. rewrite Hh in E2. simplify_eq.
  by rewrite He in E5.
Qed.

Lemma bad_history_fails_before_any_call_witness :
  GenerateQuestions.response_status
    (GenerateQuestions.handler chat_runtime chat_services
       {| GenerateQuestions.method := "POST";
          GenerateQuestions.request_body := "params" |}).1 = 500%Z /\
  (GenerateQuestions.handler chat_runtime chat_services
     {| GenerateQuestions.method := "POST";
        GenerateQuestions.request_body := "params" |}).2 = [].
Proof.
  apply (bad_history_fails_before_any_call chat_runtime chat_services
           {| GenerateQuestions.method := "POST";
              GenerateQuestions.request_body := "params" |}
           chat_extracted Js.Undefined);
    [discriminate | reflexivity | reflexivity | discriminate].
Defined.

(** X20. Every style the edge function sends selects the generator meant
    for it: the style of the parameters is Verständnisfragen, for which
    [QAWorkflow] takes the comprehension generator, or Rechenfragen, for
    which it takes the calculation generator; no other text reaches the
    choice in [QAWorkflow.__init__] by this way. *)
Theorem sent_style_selects_its_generator (rt : Js.runtime)
    (data : Js.value) :
  exists s,
    Js.prop (GenerateQuestions.extractedParams rt data) "fragetyp"
    = Js.Str s /\
    ((s = "Verständnisfragen" /\
      Frage.generator (Frage.QAWorkflow_of s)
      = Frage.COMPREHENSION_QA_GENERATOR) \/
     (s = "Rechenfragen" /\
      Frage.generator (Frage.QAWorkflow_of s)
      = Frage.CALCULATION_QA_GENERATOR)).
Proof.
  destruct (extractedParams_checked rt data) as (_ & H & _).
  destruct (Js.prop _ "fragetyp") as [| |b|n|s|xs|o]; try done.
  exists s. split; [done|]. cbn [Js.includes] in H.
  apply bool_decide_eq_true in H.
  apply elem_of_cons in H as [->|H]; [left; by split|].
  apply elem_of_cons in H as [->|H]; [right; by split|].
  by apply elem_of_nil in H.
Qed.
